(** * Record store of the strain bot: a shallow embedding of
    [enhanced_sheets.py] ([OptimizedSheetsManager]) and the properties of
    its submission / approval / rating operations.

    Conventions of the embedding.
    - Python [str] values are [string]s of ASCII characters; [lower],
      [upper] and the whitespace tests act on ASCII, as they do in Python
      on ASCII text.
    - The remote spreadsheet is a pair of row lists (header row left out)
      and every call of the gspread client is an effect that may raise.
    - [datetime.now()] and [time.time()] read a clock kept in the state.
    - Rows are typed records: the columns the code reads with
      [record.get(..., default)] are always present. *)

From Stdlib Require Import ZArith QArith Lqa Ascii String DecimalString DecimalZ DecimalPos.
From stdpp Require Import gmap strings list fin_maps sorting.

Local Open Scope string_scope.
Local Open Scope Z_scope.

(** ** Python string primitives *)

Module Py.

Definition is_upper (c : ascii) : bool :=
  let n := N_of_ascii c in ((65 <=? n) && (n <=? 90))%N.

Definition is_lower (c : ascii) : bool :=
  let n := N_of_ascii c in ((97 <=? n) && (n <=? 122))%N.

Definition is_digit (c : ascii) : bool :=
  let n := N_of_ascii c in ((48 <=? n) && (n <=? 57))%N.

(** [str.isspace] on the ASCII range: tab, LF, VT, FF, CR, FS, GS, RS, US
    and the blank. *)
Definition is_space (c : ascii) : bool :=
  let n := N_of_ascii c in
  (((9 <=? n) && (n <=? 13)) || ((28 <=? n) && (n <=? 32)))%N.

Definition lower_char (c : ascii) : ascii :=
  if is_upper c then ascii_of_N (N_of_ascii c + 32) else c.

Definition upper_char (c : ascii) : ascii :=
  if is_lower c then ascii_of_N (N_of_ascii c - 32) else c.

Fixpoint map_chars (f : ascii -> ascii) (s : string) : string :=
  match s with
  | EmptyString => EmptyString
  | String c r => String (f c) (map_chars f r)
  end.

(** [s.lower()], [s.upper()] *)
Definition lower : string -> string := map_chars lower_char.
Definition upper : string -> string := map_chars upper_char.

(** [s.lstrip(chars)] for a one-character [chars] *)
Fixpoint lstrip_char (c : ascii) (s : string) : string :=
  match s with
  | String a r => if Ascii.eqb a c then lstrip_char c r else s
  | EmptyString => EmptyString
  end.

Fixpoint lstrip_by (p : ascii -> bool) (s : string) : string :=
  match s with
  | String a r => if p a then lstrip_by p r else s
  | EmptyString => EmptyString
  end.

Fixpoint rstrip_by (p : ascii -> bool) (s : string) : string :=
  match s with
  | EmptyString => EmptyString
  | String a r =>
      match rstrip_by p r with
      | EmptyString => if p a then EmptyString else String a EmptyString
      | r' => String a r'
      end
  end.

(** [s.strip()] *)
Definition strip (s : string) : string :=
  rstrip_by is_space (lstrip_by is_space s).

(** [s[:n]] *)
Fixpoint take (n : nat) (s : string) : string :=
  match n, s with
  | S k, String a r => String a (take k r)
  | _, _ => EmptyString
  end.

(** [sub in s] *)
Fixpoint contains (sub s : string) : bool :=
  String.prefix sub s ||
  match s with
  | EmptyString => false
  | String _ r => contains sub r
  end.

(** [c in s] for a single character *)
Fixpoint has_char (c : ascii) (s : string) : bool :=
  match s with
  | EmptyString => false
  | String a r => Ascii.eqb a c || has_char c r
  end.

(** [s.replace(c, by)] for a one-character [c] *)
Fixpoint replace_char (c : ascii) (by_ : string) (s : string) : string :=
  match s with
  | EmptyString => EmptyString
  | String a r =>
      if Ascii.eqb a c then by_ ++ replace_char c by_ r
      else String a (replace_char c by_ r)
  end.

(** Truth value of a string or of an optional string argument
    ([None] and [""] are false). *)
Definition truthy_str (s : string) : bool :=
  match s with EmptyString => false | _ => true end.

Definition truthy_opt (o : option string) : bool :=
  match o with Some s => truthy_str s | None => false end.

(** [str(n)] for an [int]. The cap that recent interpreters put on the
    number of digits of such conversions (4300 by default) is not
    modelled, neither here nor in [int_of_str]. *)
Definition str_of_int (z : Z) : string := NilZero.string_of_int (Z.to_int z).

(** Digits of a decimal literal with the underscores that [int()] accepts:
    single underscores between digits. [None] when the grouping is
    malformed or a character is not a digit. *)
Fixpoint digits_go (after_digit : bool) (s : string) : option string :=
  match s with
  | EmptyString => if after_digit then Some EmptyString else None
  | String a r =>
      if is_digit a then option_map (String a) (digits_go true r)
      else if Ascii.eqb a "_" then
        if after_digit then digits_go false r else None
      else None
  end.

Definition parse_digits (s : string) : option Z :=
  match digits_go false s with
  | Some d => option_map Z.of_uint (NilZero.uint_of_string d)
  | None => None
  end.

(** The whitespace [int()] skips around a literal: tab, LF, VT, FF, CR and
    the blank. *)
Definition is_int_space (c : ascii) : bool :=
  let n := N_of_ascii c in (((9 <=? n) && (n <=? 13)) || (n =? 32))%N.

(** [int(s)] in base 10: surrounding whitespace, an optional sign, digits.
    [None] stands for [ValueError]. *)
Definition int_of_str (s : string) : option Z :=
  match rstrip_by is_int_space (lstrip_by is_int_space s) with
  | String "+" r => parse_digits r
  | String "-" r => option_map Z.opp (parse_digits r)
  | t => parse_digits t
  end.

End Py.

(** ** User ids in the sheet *)

(** [_format_user_id_for_sheets] *)
Definition _format_user_id_for_sheets (user_id : Z) : string :=
  String "'" (Py.str_of_int user_id).

(** [_extract_user_id_from_sheets]: the [except (ValueError, TypeError)]
    branch logs and returns 0. *)
Definition _extract_user_id_from_sheets (user_id_str : string) : Z :=
  let clean_id := Py.lstrip_char "'" user_id_str in
  match Py.int_of_str clean_id with
  | Some n => n
  | None => 0
  end.

(** ** The regular expressions built by the wildcard search

    [identifier.replace('*', '.*').replace('?', '.')] is compiled with
    [re.IGNORECASE] and used with [regex.search] (a match anywhere in the
    subject). The patterns made of plain characters, [.] and [.*] are
    interpreted here; any other pattern is left to [beyond], which stands
    for what Python's [re.compile] does with it: [None] when it raises
    [re.error], the search predicate otherwise. *)

Module Re.

Inductive atom : Type :=
| Lit (c : ascii)
| Dot
| DotStar.

Definition is_special (c : ascii) : bool :=
  Py.has_char c "\^$+?{}[]()|*".

Fixpoint parse (p : string) : option (list atom) :=
  match p with
  | EmptyString => Some []
  | String "." (String "*" r) => option_map (cons DotStar) (parse r)
  | String "." r => option_map (cons Dot) (parse r)
  | String c r =>
      if is_special c then None else option_map (cons (Lit c)) (parse r)
  end.

Definition newline : ascii := "010"%char.

(** [.] matches anything but a line feed (no [DOTALL]). *)
Definition dot_ok (c : ascii) : bool := negb (Ascii.eqb c newline).

Definition lit_ok (x c : ascii) : bool :=
  Ascii.eqb (Py.lower_char x) (Py.lower_char c).

(** Does [re] match a prefix of [s]? *)
Fixpoint match_here (re : list atom) (s : string) : bool :=
  match re with
  | [] => true
  | Lit x :: re' =>
      match s with
      | String c r => lit_ok x c && match_here re' r
      | EmptyString => false
      end
  | Dot :: re' =>
      match s with
      | String c r => dot_ok c && match_here re' r
      | EmptyString => false
      end
  | DotStar :: re' =>
      (fix star (s : string) : bool :=
         match_here re' s ||
         match s with
         | String c r => dot_ok c && star r
         | EmptyString => false
         end) s
  end.

(** [regex.search(s) is not None] *)
Fixpoint search (re : list atom) (s : string) : bool :=
  match_here re s ||
  match s with
  | String _ r => search re r
  | EmptyString => false
  end.

(** [re.compile(pattern, re.IGNORECASE)] as a search predicate *)
Definition compile (beyond : string -> option (string -> bool))
    (pattern : string) : option (string -> bool) :=
  match parse pattern with
  | Some re => Some (search re)
  | None => beyond pattern
  end.

End Re.

(** [identifier.replace('*', '.*').replace('?', '.')] *)
Definition wildcard_pattern (identifier : string) : string :=
  Py.replace_char "?" "." (Py.replace_char "*" ".*" identifier).

(** ['*' in identifier or '?' in identifier] *)
Definition has_wildcard (identifier : string) : bool :=
  Py.has_char "*" identifier || Py.has_char "?" identifier.

(** ** Rows of the sheets *)

Module Strains.
Record row : Type := Row {
  Unique_ID : string;
  Strain_Name : string;
  Status : string;
  Average_Rating : Q;
  Total_Ratings : Z;
  Date_Added : string;
  Harvest_Date : string;
  Package_Date : string;
  Category : string;
  Producer : string
}.

Definition with_Strain_Name (v : string) (r : row) : row :=
  Row (Unique_ID r) v (Status r) (Average_Rating r) (Total_Ratings r)
      (Date_Added r) (Harvest_Date r) (Package_Date r) (Category r) (Producer r).
Definition with_Status (v : string) (r : row) : row :=
  Row (Unique_ID r) (Strain_Name r) v (Average_Rating r) (Total_Ratings r)
      (Date_Added r) (Harvest_Date r) (Package_Date r) (Category r) (Producer r).
Definition with_Average_Rating (v : Q) (r : row) : row :=
  Row (Unique_ID r) (Strain_Name r) (Status r) v (Total_Ratings r)
      (Date_Added r) (Harvest_Date r) (Package_Date r) (Category r) (Producer r).
Definition with_Total_Ratings (v : Z) (r : row) : row :=
  Row (Unique_ID r) (Strain_Name r) (Status r) (Average_Rating r) v
      (Date_Added r) (Harvest_Date r) (Package_Date r) (Category r) (Producer r).
End Strains.

(** [Date_Rated] is the instant [datetime.now()] read; the sheet holds its
    text. *)
Module Ratings.
Record row : Type := Row {
  Rating_ID : Z;
  Unique_ID : string;
  User_ID : string;
  Rating : Z;
  Date_Rated : Q;
  Username : string
}.
End Ratings.

(** A value written into one cell. *)
Inductive cell : Type :=
| CStr (s : string)
| CInt (z : Z)
| CNum (q : Q).

(** Column [col] of a Strains row overwritten ([update_cell]); only the
    columns the manager writes (B to E) are interpreted. *)
Definition set_column (col : nat) (v : cell) (r : Strains.row) : Strains.row :=
  match col, v with
  | 2%nat, CStr s => Strains.with_Strain_Name s r
  | 3%nat, CStr s => Strains.with_Status s r
  | 4%nat, CNum q => Strains.with_Average_Rating q r
  | 5%nat, CInt z => Strains.with_Total_Ratings z r
  | _, _ => r
  end.

(** ** Python values that cross the manager's boundary *)

Inductive pyval : Type :=
| PNone
| PBool (b : bool)
| PInt (z : Z)
| PStr (s : string)
| PDict (r : Strains.row)
| PList (l : list Strains.row).

Definition truthy (v : pyval) : bool :=
  match v with
  | PNone => false
  | PBool b => b
  | PInt z => negb (z =? 0)
  | PStr s => Py.truthy_str s
  | PDict _ => true
  | PList l => match l with [] => false | _ => true end
  end.

(** [v or d] *)
Definition py_or (v d : pyval) : pyval := if truthy v then v else d.

Definition of_option_str (o : option string) : pyval :=
  match o with Some s => PStr s | None => PNone end.

Definition of_option_row (o : option Strains.row) : pyval :=
  match o with Some r => PDict r | None => PNone end.

(** ** Exceptions *)

Inductive exn : Type :=
| APIError
| WorksheetNotFound
| ConnectionError
| re_error
| CancelledError
| KeyboardInterrupt.

(** [isinstance(e, Exception)]: the last two derive from [BaseException]
    only. *)
Definition is_Exception (e : exn) : bool :=
  match e with
  | CancelledError | KeyboardInterrupt => false
  | _ => true
  end.

(** ** State of the manager and of its remote spreadsheet *)

(** What the remote does on one request: how long it takes and whether it
    fails. *)
Record api_event : Type := ApiEvent {
  latency : Q;
  fault : option exn
}.

Record manager : Type := Manager {
  strains_rows : list Strains.row;
  ratings_rows : list Ratings.row;
  cache : gmap string (pyval * Q);
  requests : list Q;
  clock : Q;
  remote : list api_event
}.

Definition set_strains (v : list Strains.row) (m : manager) : manager :=
  Manager v (ratings_rows m) (cache m) (requests m) (clock m) (remote m).
Definition set_ratings (v : list Ratings.row) (m : manager) : manager :=
  Manager (strains_rows m) v (cache m) (requests m) (clock m) (remote m).
Definition set_cache (v : gmap string (pyval * Q)) (m : manager) : manager :=
  Manager (strains_rows m) (ratings_rows m) v (requests m) (clock m) (remote m).
Definition set_requests (v : list Q) (m : manager) : manager :=
  Manager (strains_rows m) (ratings_rows m) (cache m) v (clock m) (remote m).
Definition set_clock (v : Q) (m : manager) : manager :=
  Manager (strains_rows m) (ratings_rows m) (cache m) (requests m) v (remote m).
Definition set_remote (v : list api_event) (m : manager) : manager :=
  Manager (strains_rows m) (ratings_rows m) (cache m) (requests m) (clock m) v.

(** ** The monad of manager code: state and exceptions *)

Inductive result (A : Type) : Type :=
| Ok (a : A)
| Raise (e : exn).
Arguments Ok {A} a.
Arguments Raise {A} e.

Definition M (A : Type) : Type := manager -> result A * manager.

Definition ret {A} (a : A) : M A := fun m => (Ok a, m).

Definition bind {A B} (c : M A) (k : A -> M B) : M B :=
  fun m =>
    match c m with
    | (Ok a, m') => k a m'
    | (Raise e, m') => (Raise e, m')
    end.

Definition raise {A} (e : exn) : M A := fun m => (Raise e, m).

(** [try: c  except Exception as e: h e] *)
Definition try_except {A} (c : M A) (h : exn -> M A) : M A :=
  fun m =>
    match c m with
    | (Raise e, m') => if is_Exception e then h e m' else (Raise e, m')
    | r => r
    end.

Declare Scope py_scope.
Delimit Scope py_scope with py.
Notation "'let*' x ':=' c 'in' k" := (bind c (fun x => k))
  (at level 10, x name, c at level 100, k at level 200,
   format "'[v' 'let*'  x  ':='  c  'in' '/' k ']'") : py_scope.
Notation "'let*' '_' ':=' c 'in' k" := (bind c (fun _ => k))
  (at level 10, c at level 100, k at level 200,
   format "'[v' 'let*'  '_'  ':='  c  'in' '/' k ']'") : py_scope.
Local Open Scope py_scope.

Definition Qltb (x y : Q) : bool := negb (Qle_bool y x).

(** [time.time()] *)
Definition time_time : M Q := fun m => (Ok (clock m), m).

(** [time.sleep(d)] *)
Definition time_sleep (d : Q) : M unit :=
  fun m => (Ok tt, set_clock (clock m + d)%Q m).

(** One request to the remote: it takes the time the remote takes and
    raises when the remote fails. An exhausted [remote] answers at once. *)
Definition api_call : M unit :=
  fun m =>
    match remote m with
    | [] => (Ok tt, m)
    | ev :: rest =>
        let m' := set_remote rest (set_clock (clock m + latency ev)%Q m) in
        match fault ev with
        | Some e => (Raise e, m')
        | None => (Ok tt, m')
        end
    end.

(** [self.spreadsheet.worksheet(name)] *)
Definition worksheet (name : string) : M string :=
  let* _ := api_call in ret name.

(** [strains_sheet.get_all_records()] *)
Definition Strains_get_all_records : M (list Strains.row) :=
  let* _ := api_call in fun m => (Ok (strains_rows m), m).

(** [ratings_sheet.get_all_records()] *)
Definition Ratings_get_all_records : M (list Ratings.row) :=
  let* _ := api_call in fun m => (Ok (ratings_rows m), m).

(** [ratings_sheet.append_row(...)] *)
Definition Ratings_append_row (r : Ratings.row) : M unit :=
  let* _ := api_call in
  fun m => (Ok tt, set_ratings (ratings_rows m ++ [r]) m).

(** [strains_sheet.update_cell(i, col, v)]: sheet row [i] is record
    [i - 2], row 1 being the header. *)
Definition Strains_update_cell (i col : nat) (v : cell) : M unit :=
  let* _ := api_call in
  fun m =>
    (Ok tt,
     if (i <? 2)%nat then m
     else set_strains (alter (set_column col v) (i - 2)%nat (strains_rows m)) m).

(** ** RateLimiter(90, 60) *)

Definition max_requests : nat := 90.
Definition time_window : Q := 60.

(** [RateLimiter.wait_if_needed] *)
Definition wait_if_needed : M unit :=
  let* now := time_time in
  (fun m =>
     let reqs := List.filter (fun t => Qltb (now - t) time_window) (requests m) in
     let m1 := set_requests reqs m in
     let '(_, m2) :=
       (if (max_requests <=? length reqs)%nat then
          let sleep_time := (time_window - (now - hd 0%Q reqs) + (1 # 10))%Q in
          if Qltb 0 sleep_time then time_sleep sleep_time else ret tt
        else ret tt) m1 in
     (Ok tt, set_requests (requests m2 ++ [now]) m2)).

(** ** safe_operation, cached_operation, clear_cache *)

(** [safe_operation]: one operation at a time, after the rate limiter;
    [except Exception] turns a failure into [None]. *)
Definition safe_operation (operation : M pyval) : M pyval :=
  try_except (let* _ := wait_if_needed in operation) (fun _ => ret PNone).

Definition cache_ttl : Q := 300.

(** [cache_duration or self.cache_ttl] *)
Definition duration_or_ttl (cache_duration : option Q) : Q :=
  match cache_duration with
  | Some d => if Qeq_bool d 0 then cache_ttl else d
  | None => cache_ttl
  end.

(** The cache lookup at the head of [cached_operation]: the data of a
    fresh entry. *)
Definition cache_hit (cache_key : string) (duration : Q) (m : manager)
    : option pyval :=
  match cache m !! cache_key with
  | Some (data, timestamp) =>
      if Qltb (clock m - timestamp) duration then Some data else None
  | None => None
  end.

(** [cached_operation] *)
Definition cached_operation (cache_key : string) (operation : M pyval)
    (cache_duration : option Q) : M pyval :=
  let cache_duration := duration_or_ttl cache_duration in
  fun m =>
    match cache_hit cache_key cache_duration m with
    | Some data => (Ok data, m)
    | None =>
        (let* result := safe_operation operation in
         match result with
         | PNone => ret result
         | _ =>
             let* now := time_time in
             (fun m' => (Ok result, set_cache (<[cache_key := (result, now)]> (cache m')) m'))
         end) m
    end.

(** [clear_cache(prefix)] *)
Definition clear_cache (prefix : option string) : M unit :=
  fun m =>
    (Ok tt,
     if Py.truthy_opt prefix then
       set_cache
         (filter (fun kv => String.prefix (default "" prefix) kv.1 = false) (cache m)) m
     else set_cache ∅ m).

(** ** Floating-point average of the ratings

    [sum / total] is the double nearest to the quotient (ties to even) and
    [round(x, 2)] the two-decimal number nearest to that double (ties to
    even), which is what reaches the sheet. A double is kept as
    [mantissa * 2 ^ exponent]; the range of exponents is not bounded, so
    overflow and subnormal numbers are outside this model. *)

Record float : Type := Float { mantissa : Z; exponent : Z }.

(** Nearest integer to [num / den], ties to even ([0 < den], [0 <= num]). *)
Definition round_half_even (num den : Z) : Z :=
  let q := num / den in
  let r := num mod den in
  if 2 * r <? den then q
  else if den <? 2 * r then q + 1
  else if Z.even q then q else q + 1.

(** [a * 2 ^ k / n] as a fraction, for either sign of [k]. *)
Definition scaled (a n k : Z) : Z * Z :=
  (a * 2 ^ Z.max k 0, n * 2 ^ Z.max (- k) 0).

(** [s / n] for [int] operands, [0 < n]. *)
Definition py_truediv (s n : Z) : float :=
  if s =? 0 then Float 0 0
  else
    let a := Z.abs s in
    let k0 := 52 - (Z.log2 a - Z.log2 n) in
    let '(num0, den0) := scaled a n k0 in
    let k := if num0 / den0 <? 2 ^ 52 then k0 + 1 else k0 in
    let '(num, den) := scaled a n k in
    Float (Z.sgn s * round_half_even num den) (- k).

(** [round(x, 2)] *)
Definition py_round2 (x : float) : Q :=
  let '(num, den) := scaled (100 * Z.abs (mantissa x)) 1 (exponent x) in
  Qmake (Z.sgn (mantissa x) * round_half_even num den) 100.

(** ** Helpers of the manager *)

Definition is_alnum (c : ascii) : bool :=
  Py.is_lower c || Py.is_upper c || Py.is_digit c.

Fixpoint keep_chars (p : ascii -> bool) (s : string) : string :=
  match s with
  | EmptyString => EmptyString
  | String c r => if p c then String c (keep_chars p r) else keep_chars p r
  end.

(** [_normalize_strain_name]: [re.sub(r'[^a-zA-Z0-9]', '', name.lower())] *)
Definition _normalize_strain_name (name : string) : string :=
  keep_chars is_alnum (Py.lower name).

(** [_sanitize_username] (the [replace] of the source maps the quote to
    itself) *)
Definition _sanitize_username (username : string) : string :=
  if Py.truthy_str username then
    Py.take 50 (Py.replace_char "'" "'" (Py.strip username))
  else "".

(** [category or 'all'] *)
Definition category_or_all (category : option string) : string :=
  if Py.truthy_opt category then default "" category else "all".

(** [[r for r in records if str(r.get('Category', 'flower')).lower() ==
    category.lower()]] when [category] is given, [records] otherwise *)
Definition filter_category (category : option string)
    (records : list Strains.row) : list Strains.row :=
  if Py.truthy_opt category then
    List.filter
      (fun r => String.eqb (Py.lower (Strains.Category r))
                           (Py.lower (default "" category)))
      records
  else records.

Definition id_matches (identifier : string) (r : Strains.row) : bool :=
  String.eqb (Py.upper (Strains.Unique_ID r)) (Py.upper identifier).

Definition name_matches (identifier : string) (r : Strains.row) : bool :=
  String.eqb (Py.lower (Strains.Strain_Name r)) (Py.lower identifier).

Definition name_contains (identifier : string) (r : Strains.row) : bool :=
  Py.contains (Py.lower identifier) (Py.lower (Strains.Strain_Name r)).

(** [for i, record in enumerate(records, start=i): if p(record): ...]:
    the number of the first row that passes. *)
Fixpoint enumerate_find {A} (p : A -> bool) (i : nat) (records : list A)
    : option nat :=
  match records with
  | [] => None
  | r :: rest => if p r then Some i else enumerate_find p (S i) rest
  end.

(** ** check_strain_duplicate *)

Definition duplicate_of (strain_name harvest_date package_date category : string)
    (producer : option string) (record : Strains.row) : bool :=
  String.eqb (_normalize_strain_name (Strains.Strain_Name record))
             (_normalize_strain_name strain_name)
  && String.eqb (Strains.Harvest_Date record) harvest_date
  && String.eqb (Strains.Package_Date record) package_date
  && String.eqb (Py.lower (Strains.Category record)) (Py.lower category)
  && (negb (Py.truthy_opt producer)
      || String.eqb (Strains.Producer record) (default "" producer)).

Fixpoint duplicate_scan (strain_name harvest_date package_date category : string)
    (producer : option string) (records : list Strains.row) : option string :=
  match records with
  | [] => None
  | record :: rest =>
      if duplicate_of strain_name harvest_date package_date category producer record
      then Some (Strains.Unique_ID record)
      else duplicate_scan strain_name harvest_date package_date category producer rest
  end.

Definition check_strain_duplicate_operation
    (strain_name harvest_date package_date category : string)
    (producer : option string) : M pyval :=
  try_except
    (let* strains_sheet := worksheet "Strains" in
     let* records := Strains_get_all_records in
     ret (of_option_str
            (duplicate_scan strain_name harvest_date package_date category
               producer records)))
    (fun _ => ret PNone).

Definition check_strain_duplicate
    (strain_name harvest_date package_date category : string)
    (producer : option string) : M pyval :=
  safe_operation
    (check_strain_duplicate_operation strain_name harvest_date package_date
       category producer).

(** ** get_strain_by_identifier and search_strains *)

Section Search.

(** Python's [re.compile] on the patterns [Re.parse] does not read. *)
Variable beyond : string -> option (string -> bool).

Definition get_strain_by_identifier_operation (identifier : string)
    (category : option string) : M pyval :=
  let* strains_sheet := worksheet "Strains" in
  let* records := Strains_get_all_records in
  let records := filter_category category records in
  match List.find (id_matches identifier) records with
  | Some record => ret (PDict record)
  | None =>
      match List.find (name_matches identifier) records with
      | Some record => ret (PDict record)
      | None =>
          if has_wildcard identifier then
            match Re.compile beyond (wildcard_pattern identifier) with
            | None => raise re_error
            | Some regex =>
                ret (of_option_row
                       (List.find (fun r => regex (Strains.Strain_Name r)) records))
            end
          else
            ret (of_option_row (List.find (name_contains identifier) records))
      end
  end.

Definition strain_search_key (identifier : string) (category : option string)
    : string :=
  "strain_search_" ++ Py.lower identifier ++ "_" ++ category_or_all category.

Definition get_strain_by_identifier (identifier : string)
    (category : option string) : M pyval :=
  cached_operation (strain_search_key identifier category)
    (get_strain_by_identifier_operation identifier category) (Some 60%Q).

Definition search_strains_operation (query : string)
    (category : option string) : M pyval :=
  let* strains_sheet := worksheet "Strains" in
  let* records := Strains_get_all_records in
  let records := filter_category category records in
  if has_wildcard query then
    match Re.compile beyond (wildcard_pattern query) with
    | None => raise re_error
    | Some regex =>
        ret (PList (firstn 10
               (List.filter
                  (fun r => regex (Strains.Strain_Name r)
                            || regex (Strains.Unique_ID r)) records)))
    end
  else
    ret (PList (firstn 10
           (List.filter
              (fun r => Py.contains (Py.lower query) (Py.lower (Strains.Strain_Name r))
                        || Py.contains (Py.lower query) (Py.lower (Strains.Unique_ID r)))
              records))).

Definition search_strains (query : string) (category : option string)
    : M pyval :=
  let* result := safe_operation (search_strains_operation query category) in
  ret (py_or result (PList [])).

End Search.

(** ** add_rating *)

Definition datetime_now : M Q := time_time.

(** The lookup loop of [_add_rating_operation]. *)
Definition rated_strain (identifier : string) (strains : list Strains.row)
    : option Strains.row :=
  List.find (fun s => id_matches identifier s || name_matches identifier s) strains.

(** The duplicate-rating scan of [_add_rating_operation]. *)
Definition already_rated (strain_unique_id : string) (user_id : Z)
    (ratings : list Ratings.row) : bool :=
  existsb
    (fun rating_record =>
       String.eqb (Ratings.Unique_ID rating_record) strain_unique_id
       && (String.eqb (Ratings.User_ID rating_record) (Py.str_of_int user_id)
           || String.eqb (Ratings.User_ID rating_record)
                (_format_user_id_for_sheets user_id)))
    ratings.

Definition sum_Z (l : list Z) : Z := fold_right Z.add 0 l.

Definition _add_rating_operation (identifier : string) (user_id rating : Z)
    (username : string) (category : option string) : M pyval :=
  try_except
    (let* ratings_sheet := worksheet "Ratings" in
     let* strains_sheet := worksheet "Strains" in
     let* ratings := Ratings_get_all_records in
     let* strains := Strains_get_all_records in
     let strains := filter_category category strains in
     match rated_strain identifier strains with
     | None => ret (PBool false)
     | Some strain_data =>
         if negb (String.eqb (Strains.Status strain_data) "Approved") then
           ret (PBool false)
         else if already_rated (Strains.Unique_ID strain_data) user_id ratings then
           ret (PBool false)
         else
           let formatted_user_id := _format_user_id_for_sheets user_id in
           let sanitized_username := _sanitize_username username in
           let next_rating_id := Z.of_nat (length ratings) + 1 in
           let* now := datetime_now in
           let* _ := Ratings_append_row
                       (Ratings.Row next_rating_id (Strains.Unique_ID strain_data)
                          formatted_user_id rating now sanitized_username) in
           let strain_unique_id := Strains.Unique_ID strain_data in
           let strain_ratings :=
             (List.map Ratings.Rating
                (List.filter
                   (fun r => String.eqb (Ratings.Unique_ID r) strain_unique_id)
                   ratings) ++ [rating])%list in
           let total_ratings := Z.of_nat (length strain_ratings) in
           let avg_rating := py_truediv (sum_Z strain_ratings) total_ratings in
           let* records := Strains_get_all_records in
           match enumerate_find
                   (fun s => String.eqb (Strains.Unique_ID s) strain_unique_id)
                   2 records with
           | Some i =>
               let* _ := Strains_update_cell i 4 (CNum (py_round2 avg_rating)) in
               let* _ := Strains_update_cell i 5 (CInt total_ratings) in
               ret (PBool true)
           | None => ret (PBool true)
           end
     end)
    (fun _ => ret (PBool false)).

Definition add_rating (identifier : string) (user_id rating : Z)
    (username : string) (category : option string) : M pyval :=
  let* result :=
    safe_operation (_add_rating_operation identifier user_id rating username category) in
  if truthy result then
    let* _ := clear_cache (Some "strain_") in
    let* _ := clear_cache (Some "all_approved_strains") in
    let* _ := clear_cache (Some "top_strains") in
    ret result
  else ret result.

(** ** get_all_approved_strains *)

(** [sort_key] of [get_all_approved_strains] *)
Definition sort_key (strain : Strains.row) : Q :=
  if 0 <? Strains.Total_Ratings strain then Strains.Average_Rating strain
  else (-1)%Q.

(** [sorted(l, key=key, reverse=True)]: the stable sort, written as an
    insertion sort; an element goes in front of the first one whose key
    is not greater than its own. *)
Fixpoint insert_desc {A} (key : A -> Q) (x : A) (l : list A) : list A :=
  match l with
  | [] => [x]
  | y :: rest =>
      if Qltb (key x) (key y) then y :: insert_desc key x rest
      else x :: y :: rest
  end.

Definition sorted_desc {A} (key : A -> Q) (l : list A) : list A :=
  fold_right (insert_desc key) [] l.

Definition approved_in (category : option string) (records : list Strains.row)
    : list Strains.row :=
  filter_category category
    (List.filter (fun r => String.eqb (Strains.Status r) "Approved") records).

Definition get_all_approved_strains_operation (category : option string)
    : M pyval :=
  let* strains_sheet := worksheet "Strains" in
  let* records := Strains_get_all_records in
  ret (PList (sorted_desc sort_key (approved_in category records))).

Definition get_all_approved_strains (category : option string) : M pyval :=
  let* result :=
    cached_operation ("all_approved_strains_" ++ category_or_all category)
      (get_all_approved_strains_operation category) (Some 120%Q) in
  ret (py_or result (PList [])).

(** ** approve_strain *)

Definition approvable (identifier : string) (record : Strains.row) : bool :=
  (id_matches identifier record || name_matches identifier record)
  && String.eqb (Strains.Status record) "Pending".

Definition approve_strain_operation (identifier : string) : M pyval :=
  let* strains_sheet := worksheet "Strains" in
  let* records := Strains_get_all_records in
  match enumerate_find (approvable identifier) 2 records with
  | Some i =>
      let* _ := Strains_update_cell i 3 (CStr "Approved") in
      ret (PBool true)
  | None => ret (PBool false)
  end.

Definition approve_strain (identifier : string) : M pyval :=
  let* result := safe_operation (approve_strain_operation identifier) in
  if truthy result then
    let* _ := clear_cache (Some "strain_") in
    let* _ := clear_cache (Some "top_strains") in
    ret result
  else ret result.

(** ** rename_strain *)

Definition rename_strain_operation (unique_id new_name : string) : M pyval :=
  try_except
    (let* strains_sheet := worksheet "Strains" in
     let* records := Strains_get_all_records in
     match enumerate_find (id_matches unique_id) 2 records with
     | Some i =>
         let* _ := Strains_update_cell i 2 (CStr new_name) in
         ret (PBool true)
     | None => ret (PBool false)
     end)
    (fun _ => ret (PBool false)).

Definition rename_strain (unique_id new_name : string) : M pyval :=
  let* result := safe_operation (rename_strain_operation unique_id new_name) in
  if truthy result then
    let* _ := clear_cache (Some "strain_") in
    let* _ := clear_cache (Some "top_strains") in
    ret result
  else ret result.

(** ** get_pending_strains, get_pending_strains_count *)

Definition pending (records : list Strains.row) : list Strains.row :=
  List.filter (fun record => String.eqb (Strains.Status record) "Pending") records.

Definition get_pending_strains_operation : M pyval :=
  let* strains_sheet := worksheet "Strains" in
  let* records := Strains_get_all_records in
  ret (PList (pending records)).

Definition get_pending_strains : M pyval :=
  let* result := safe_operation get_pending_strains_operation in
  ret (py_or result (PList [])).

Definition get_pending_strains_count_operation : M pyval :=
  let* strains_sheet := worksheet "Strains" in
  let* records := Strains_get_all_records in
  ret (PInt (Z.of_nat (length (pending records)))).

Definition get_pending_strains_count : M pyval :=
  let* result := safe_operation get_pending_strains_count_operation in
  ret (py_or result (PInt 0)).

(** ** get_top_strains_for_status *)

(** [l[:limit]] *)
Definition slice_to {A} (limit : Z) (l : list A) : list A :=
  if 0 <=? limit then firstn (Z.to_nat limit) l
  else firstn (length l - Z.to_nat (- limit)) l.

Definition get_top_strains_for_status_operation (category : string) (limit : Z)
    : M pyval :=
  let* strains_sheet := worksheet "Strains" in
  let* records := Strains_get_all_records in
  let approved_with_ratings :=
    List.filter
      (fun r => String.eqb (Strains.Status r) "Approved"
                && (0 <? Strains.Total_Ratings r)
                && String.eqb (Py.lower (Strains.Category r)) (Py.lower category))
      records in
  ret (PList (slice_to limit
                (sorted_desc Strains.Average_Rating approved_with_ratings))).

Definition get_top_strains_for_status (category : string) (limit : Z) : M pyval :=
  let* result :=
    cached_operation ("top_strains_" ++ category ++ "_" ++ Py.str_of_int limit)
      (get_top_strains_for_status_operation category limit) (Some 120%Q) in
  ret (py_or result (PList [])).

(** ** get_strain_by_name *)

Definition get_strain_by_name (beyond : string -> option (string -> bool))
    (strain_name : string) : M pyval :=
  get_strain_by_identifier beyond strain_name None.

(** ** Vocabulary of the properties *)

(** The remote serves every request. *)
Definition reliable (m : manager) : Prop :=
  Forall (fun ev => fault ev = None) (remote m).

(** The remote fails only with exceptions derived from [Exception], as
    the errors of the spreadsheet client and of the network all are. *)
Definition civil (m : manager) : Prop :=
  Forall (fun ev => forall e, fault ev = Some e -> is_Exception e = true) (remote m).

(** [r] is the first element of [l] that passes [p]. *)
Definition first_such {A} (p : A -> bool) (l : list A) (r : A) : Prop :=
  exists l1 l2, l = (l1 ++ r :: l2)%list /\ p r = true /\
                Forall (fun x => p x = false) l1.

Fixpoint all_chars (p : ascii -> bool) (s : string) : bool :=
  match s with
  | EmptyString => true
  | String c r => p c && all_chars p r
  end.

(** The manager once the remote has served one request. *)
Definition served (m : manager) : manager :=
  match remote m with
  | [] => m
  | ev :: rest => set_remote rest (set_clock (clock m + latency ev)%Q m)
  end.

(** The item [record] agrees with a proposed submission: same normalized
    name, same harvest and package dates as displayed, same category and,
    when a producer is supplied (neither [None] nor empty), same
    producer. *)
Definition agrees (strain_name harvest_date package_date category : string)
    (producer : option string) (record : Strains.row) : Prop :=
  _normalize_strain_name (Strains.Strain_Name record)
    = _normalize_strain_name strain_name /\
  Strains.Harvest_Date record = harvest_date /\
  Strains.Package_Date record = package_date /\
  Py.lower (Strains.Category record) = Py.lower category /\
  (forall p, producer = Some p -> p <> "" -> Strains.Producer record = p).

(** A sheet to run the operations on. *)
Module Sample.

Definition blueberry : Strains.row :=
  Strains.Row "00FF00FF" "Blueberry" "Pending" 0 0 "2024-11-21"
    "02-11-2024" "20-11-2024" "flower" "Fyta".

Definition blue_dream : Strains.row :=
  Strains.Row "A1B2C3D4" "Blue Dream" "Approved" 0 0 "2024-12-16"
    "01-12-2024" "15-12-2024" "flower" "Q-Farms".

Definition sour_diesel : Strains.row :=
  Strains.Row "DEADBEEF" "Sour Diesel" "Approved" (850 # 100) 2 "2024-10-18"
    "03-10-2024" "17-10-2024" "hash" "Fyta".

Definition quick : list api_event :=
  [ApiEvent (1 # 4) None; ApiEvent (1 # 2) None; ApiEvent (1 # 4) None;
   ApiEvent (1 # 4) None; ApiEvent (1 # 2) None; ApiEvent (1 # 4) None;
   ApiEvent (1 # 4) None; ApiEvent (1 # 2) None; ApiEvent (1 # 4) None;
   ApiEvent (1 # 4) None; ApiEvent (1 # 2) None; ApiEvent (1 # 4) None].

Definition sheet : manager :=
  Manager [blueberry; blue_dream; sour_diesel] [] ∅ [] 1000 quick.

(** No pattern beyond the interpreted ones compiles. *)
Definition no_regex : string -> option (string -> bool) := fun _ => None.

(** The same sheet behind a remote that fails on the second request. *)
Definition flaky : manager :=
  set_remote [ApiEvent (1 # 4) None; ApiEvent 30 (Some APIError)] sheet.

(** The approved items are listed once, and a minute goes by. *)
Definition listed : manager :=
  snd (get_all_approved_strains None sheet).

Definition a_minute_later : manager :=
  set_clock (clock listed + 60)%Q listed.

(** User 1 rates Blue Dream 8, then user 2 rates it 6. *)
Definition after_first : manager :=
  snd (add_rating "blue dream" 1 8 "al" None sheet).

Definition after_second : manager :=
  snd (add_rating "a1b2c3d4" 2 6 "bo" (Some "Flower") after_first).

End Sample.

(** The item has at least one rating, as [sort_key] tests it. *)
Definition rated (r : Strains.row) : bool := 0 <? Strains.Total_Ratings r.

(** No element of [l] has a smaller [key] than a later one. *)
Definition descending_by {A} (key : A -> Q) (l : list A) : Prop :=
  StronglySorted (fun a b => (key b <= key a)%Q) l.

(** Every element of [l] has a greater [key] than the later ones. *)
Definition strictly_descending_by {A} (key : A -> Q) (l : list A) : Prop :=
  StronglySorted (fun a b => (key b < key a)%Q) l.

(** Two Approved items with the same average. *)
Module Ties.

Definition og_kush : Strains.row :=
  Strains.Row "0A0B0C0D" "OG Kush" "Approved" (800 # 100) 1 "2024-09-20"
    "05-09-2024" "19-09-2024" "flower" "Fyta".

Definition amnesia : Strains.row :=
  Strains.Row "11223344" "Amnesia" "Approved" (800 # 100) 2 "2024-09-21"
    "06-09-2024" "20-09-2024" "flower" "Holigram".

Definition sheet : manager :=
  Manager [og_kush; amnesia] [] ∅ [] 1000 [].

End Ties.

(** The values of the ratings that reference the item [uid], in the order
    of the Ratings sheet. *)
Definition ratings_of (uid : string) (ratings : list Ratings.row) : list Z :=
  List.map Ratings.Rating
    (List.filter (fun r => String.eqb (Ratings.Unique_ID r) uid) ratings).

(** The Strains sheet once the two aggregate cells of the first row with
    unique id [uid] are overwritten. *)
Fixpoint write_aggregate (uid : string) (avg : Q) (total : Z)
    (rows : list Strains.row) : list Strains.row :=
  match rows with
  | [] => []
  | r :: rest =>
      if String.eqb (Strains.Unique_ID r) uid then
        Strains.with_Total_Ratings total (Strains.with_Average_Rating avg r) :: rest
      else r :: write_aggregate uid avg total rest
  end.

(** [rated_by_calls uid m rs m']: the manager went from [m] to [m'] through
    successful [add_rating] calls that resolved to the item [uid] and
    inserted the ratings [rs], in this order; between the calls the clock,
    the limiter, the cache and the schedule of the remote may have changed,
    the two sheets not. *)
Inductive rated_by_calls (uid : string) : manager -> list Z -> manager -> Prop :=
| rated_none m : rated_by_calls uid m [] m
| rated_idle m rs m1 m2 :
    rated_by_calls uid m rs m1 ->
    strains_rows m2 = strains_rows m1 ->
    ratings_rows m2 = ratings_rows m1 ->
    rated_by_calls uid m rs m2
| rated_call m rs m1 m2 identifier user_id rating username category strain_data v :
    rated_by_calls uid m rs m1 ->
    rated_strain identifier (filter_category category (strains_rows m1))
      = Some strain_data ->
    Strains.Unique_ID strain_data = uid ->
    add_rating identifier user_id rating username category m1 = (Ok v, m2) ->
    truthy v = true ->
    rated_by_calls uid m (rs ++ [rating]) m2.

(** The state in which [safe_operation] starts its operation. *)
Definition admitted (m : manager) : manager := snd (wait_if_needed m).

(** An operation that raises only what [except Exception] catches, as
    long as the remote does. *)
Definition exception_safe {A} (c : M A) : Prop :=
  forall m r m', civil m -> c m = (r, m') ->
    civil m' /\ match r with Raise e => is_Exception e = true | Ok _ => True end.

(** Code that hands a value back, and never an exception, as long as the
    remote fails with subclasses of [Exception] only. *)
Definition returns {A} (c : M A) : Prop :=
  forall m, civil m -> exists v m', c m = (Ok v, m') /\ civil m'.

(** One run of an operation that produced a value other than [None]. *)
Record execution : Type := Execution {
  ex_key : string;
  ex_value : pyval;
  ex_time : Q
}.

(** The operation does not write the cache (no operation of the manager
    does: only [cached_operation] and [clear_cache] touch it). *)
Definition keeps_cache (operation : M pyval) : Prop :=
  forall m r m', operation m = (r, m') -> cache m' = cache m.

(** What a call of [cached_operation] executes: nothing on a hit, and on a
    miss the operation, whose result counts when it is not [None]. *)
Definition executed (cache_key : string) (operation : M pyval)
    (cache_duration : option Q) (m : manager) : list execution :=
  match cache_hit cache_key (duration_or_ttl cache_duration) m with
  | Some _ => []
  | None =>
      match safe_operation operation m with
      | (Ok PNone, _) | (Raise _, _) => []
      | (Ok v, m1) => [Execution cache_key v (clock m1)]
      end
  end.

(** [history m log]: the manager started with an empty cache and reached
    [m] through calls of [cached_operation] and [clear_cache] and through
    steps that leave the cache alone; [log] lists the executions, the
    latest first. *)
Inductive history : manager -> list execution -> Prop :=
| history_start m : cache m = ∅ -> history m []
| history_call m log cache_key operation cache_duration r m' :
    history m log ->
    keeps_cache operation ->
    cached_operation cache_key operation cache_duration m = (r, m') ->
    history m' (executed cache_key operation cache_duration m ++ log)
| history_clear m log prefix m' :
    history m log ->
    clear_cache prefix m = (Ok tt, m') ->
    history m' log
| history_other m log m' :
    history m log ->
    cache m' = cache m ->
    history m' log.

(** ** Further vocabulary *)

(** [_sanitize_producer] *)
Definition _sanitize_producer (producer : string) : string :=
  if Py.truthy_str producer then Py.take 50 (Py.strip producer) else "Unknown".

(** Code that does not write the cache. *)
Definition leaves_cache {A} (c : M A) : Prop :=
  forall m r m', c m = (r, m') -> cache m' = cache m.

(** The search predicate of [search_strains] on a query without wildcard. *)
Definition partial_match (query : string) (r : Strains.row) : bool :=
  Py.contains (Py.lower query) (Py.lower (Strains.Strain_Name r))
  || Py.contains (Py.lower query) (Py.lower (Strains.Unique_ID r)).

(** * The per-user limiter of [rate_limiter.py] *)

Module AdvancedRateLimiter.

(** [user_requests] and [guild_requests] are [defaultdict(list)]s: an id
    that was never seen reads as the empty list. *)
Record limiter : Type := Limiter {
  user_requests : gmap Z (list Q);
  guild_requests : gmap Z (list Q)
}.

(** [__init__] *)
Definition init : limiter := Limiter ∅ ∅.

(** [[call for call in calls if now - call < window]] *)
Definition recent (now window : Q) (calls : list Q) : list Q :=
  List.filter (fun call => Qltb (now - call) window) calls.

(** [check_user_limit]; [now] is what [time.time()] returns in the call.
    The list of the user is filtered in place, so the filtered list is
    what the dictionary holds afterwards, accepted or not. *)
Definition check_user_limit (user_id limit : Z) (window now : Q) (s : limiter)
    : bool * limiter :=
  let user_calls := recent now window (default [] (user_requests s !! user_id)) in
  if limit <=? Z.of_nat (length user_calls) then
    (false, Limiter (<[user_id := user_calls]> (user_requests s)) (guild_requests s))
  else
    (true,
     Limiter (<[user_id := (user_calls ++ [now])%list]> (user_requests s))
       (guild_requests s)).

(** [check_guild_limit] *)
Definition check_guild_limit (guild_id limit : Z) (window now : Q) (s : limiter)
    : bool * limiter :=
  let guild_calls := recent now window (default [] (guild_requests s !! guild_id)) in
  if limit <=? Z.of_nat (length guild_calls) then
    (false, Limiter (user_requests s) (<[guild_id := guild_calls]> (guild_requests s)))
  else
    (true,
     Limiter (user_requests s)
       (<[guild_id := (guild_calls ++ [now])%list]> (guild_requests s))).

(** [get_user_remaining_calls] *)
Definition get_user_remaining_calls (user_id limit : Z) (window now : Q) (s : limiter)
    : Z * limiter :=
  let user_calls := recent now window (default [] (user_requests s !! user_id)) in
  (Z.max 0 (limit - Z.of_nat (length user_calls)),
   Limiter (<[user_id := user_calls]> (user_requests s)) (guild_requests s)).

(** One call of the limiter. *)
Inductive call : Type :=
| CheckUser (user_id : Z)
| CheckGuild (guild_id : Z)
| Remaining (user_id : Z).

(** The limiter after [c] at time [now], and the calls let through so
    far, each with its user and its time, when [c] is a user check that
    was let through. *)
Definition step (limit : Z) (window : Q) (c : call) (now : Q)
    (st : limiter * list (Z * Q)) : limiter * list (Z * Q) :=
  match c with
  | CheckUser user_id =>
      let '(b, s) := check_user_limit user_id limit window now st.1 in
      (s, if b then (st.2 ++ [(user_id, now)])%list else st.2)
  | CheckGuild guild_id => ((check_guild_limit guild_id limit window now st.1).2, st.2)
  | Remaining user_id => ((get_user_remaining_calls user_id limit window now st.1).2, st.2)
  end.

(** [run limit window s log t]: the limiter went from [init] to [s]
    through calls with the one [limit] and [window], at times that never
    go back, the last one at [t]; [log] holds the user checks that were
    let through. *)
Inductive run (limit : Z) (window : Q) : limiter -> list (Z * Q) -> Q -> Prop :=
| run_init t : run limit window init [] t
| run_step s log t c now :
    run limit window s log t -> (t <= now)%Q ->
    run limit window (step limit window c now (s, log)).1
      (step limit window c now (s, log)).2 now.

(** The calls of [user_id] in [log] that are less than [window] old at
    [t]. *)
Definition let_through (user_id : Z) (window t : Q) (log : list (Z * Q))
    : list (Z * Q) :=
  List.filter (fun c => (c.1 =? user_id) && Qltb (t - c.2) window) log.

End AdvancedRateLimiter.

(** * The input validation of [validators.py] *)

Module InputValidator.

Definition double_quote : ascii := ascii_of_N 34.

(** [re.sub(r'\s+', ' ', s)]: every maximal run of whitespace becomes one
    blank; [in_run] tells that the character before was whitespace. *)
Fixpoint collapse_whitespace (in_run : bool) (s : string) : string :=
  match s with
  | EmptyString => EmptyString
  | String c r =>
      if Py.is_space c then
        if in_run then collapse_whitespace true r
        else String " " (collapse_whitespace true r)
      else String c (collapse_whitespace false r)
  end.

(** The character class of the name pattern: letters, digits, whitespace,
    hyphen, hash, apostrophe, double quote and full stop. *)
Definition name_char (c : ascii) : bool :=
  Py.is_lower c || Py.is_upper c || Py.is_digit c || Py.is_space c
  || Ascii.eqb c "-" || Ascii.eqb c "#" || Ascii.eqb c "'"
  || Ascii.eqb c double_quote || Ascii.eqb c ".".

(** [s.title()]: a letter that follows a letter is put in lower case, any
    other letter in upper case. *)
Fixpoint title_from (previous_is_cased : bool) (s : string) : string :=
  match s with
  | EmptyString => EmptyString
  | String c r =>
      if Py.is_lower c then
        String (if previous_is_cased then c else Py.upper_char c) (title_from true r)
      else if Py.is_upper c then
        String (if previous_is_cased then Py.lower_char c else c) (title_from true r)
      else String c (title_from false r)
  end.

Definition title (s : string) : string := title_from false s.

(** [validate_strain_name]. [re.match(r'^[...]+$', cleaned)] holds when
    [cleaned] is not empty and all its characters are of the class: the
    line feed that [$] lets pass at the end is of the class itself. *)
Definition validate_strain_name (name : string) : option string :=
  if negb (Py.truthy_str name) then None
  else
    let cleaned := collapse_whitespace false (Py.strip name) in
    if negb ((2 <=? String.length cleaned)%nat && (String.length cleaned <=? 50)%nat)
    then None
    else if negb (Py.truthy_str cleaned && all_chars name_char cleaned) then None
    else Some (title cleaned).

(** [validate_rating] *)
Definition validate_rating (rating : Z) : bool := (1 <=? rating) && (rating <=? 10).

(** The characters [sanitize_user_input] removes: the angle brackets, the
    double quote, the apostrophe and the ampersand. *)
Definition harmful (c : ascii) : bool :=
  Ascii.eqb c "<" || Ascii.eqb c ">" || Ascii.eqb c double_quote
  || Ascii.eqb c "'" || Ascii.eqb c "&".

(** [s[:limit]] *)
Definition take_to (limit : Z) (s : string) : string :=
  if 0 <=? limit then Py.take (Z.to_nat limit) s
  else Py.take (String.length s - Z.to_nat (- limit)) s.

(** [sanitize_user_input] *)
Definition sanitize_user_input (text : string) (max_length : Z) : string :=
  if negb (Py.truthy_str text) then ""
  else Py.strip (take_to max_length (keep_chars (fun c => negb (harmful c)) text)).

(** The first character is not whitespace. *)
Definition head_ok (s : string) : bool :=
  match s with
  | EmptyString => true
  | String c _ => negb (Py.is_space c)
  end.

(** The last character is not whitespace. *)
Fixpoint last_ok (s : string) : bool :=
  match s with
  | EmptyString => true
  | String c EmptyString => negb (Py.is_space c)
  | String _ r => last_ok r
  end.

(** Every whitespace character is a blank and follows a character that is
    not whitespace; [after_space] tells that the character before was
    whitespace. *)
Fixpoint single_spaced (after_space : bool) (s : string) : bool :=
  match s with
  | EmptyString => true
  | String c r =>
      if Py.is_space c then
        Ascii.eqb c " " && negb after_space && single_spaced true r
      else single_spaced false r
  end.

End InputValidator.

(** * Dates

    [datetime.strptime] compiles a format into a regular expression
    (CPython's [_strptime]): [%d] is [3[0-1]|[1-2]\d|0[1-9]|[1-9]| [1-9]],
    [%m] is [1[0-2]|0[1-9]|[1-9]] and [%Y] is [\d\d\d\d]. The text has to
    match from its start; the first match in the order of the alternatives
    is taken, it has to end where the text ends, and the numbers read have
    to make a date of the calendar (years 1 to 9999). *)

Module Date.

Record date : Type := Date { year : Z; month : Z; day : Z }.

Definition digit_value (c : ascii) : Z := Z.of_N (N_of_ascii c) - 48.

(** The character class [[lo-hi]] *)
Definition in_range (lo hi c : ascii) : bool :=
  ((N_of_ascii lo <=? N_of_ascii c) && (N_of_ascii c <=? N_of_ascii hi))%N.

(** The ways one piece of a pattern matches at the head of a text: the
    number read and the rest of the text, in the order the matcher tries
    them. *)
Definition two (p1 p2 : ascii -> bool) (s : string) : list (Z * string) :=
  match s with
  | String a (String b r) =>
      if p1 a && p2 b then [(10 * digit_value a + digit_value b, r)] else []
  | _ => []
  end.

Definition one (p : ascii -> bool) (s : string) : list (Z * string) :=
  match s with
  | String a r => if p a then [(digit_value a, r)] else []
  | _ => []
  end.

Definition blank_one (p : ascii -> bool) (s : string) : list (Z * string) :=
  match s with
  | String " " (String b r) => if p b then [(digit_value b, r)] else []
  | _ => []
  end.

Definition literal (c : ascii) (s : string) : list (Z * string) :=
  match s with
  | String a r => if Ascii.eqb a c then [(0, r)] else []
  | _ => []
  end.

(** [%d] *)
Definition directive_d (s : string) : list (Z * string) :=
  (two (in_range "3" "3") (in_range "0" "1") s
   ++ two (in_range "1" "2") Py.is_digit s
   ++ two (in_range "0" "0") (in_range "1" "9") s
   ++ one (in_range "1" "9") s
   ++ blank_one (in_range "1" "9") s)%list.

(** [%m] *)
Definition directive_m (s : string) : list (Z * string) :=
  (two (in_range "1" "1") (in_range "0" "2") s
   ++ two (in_range "0" "0") (in_range "1" "9") s
   ++ one (in_range "1" "9") s)%list.

(** [%Y] *)
Definition directive_Y (s : string) : list (Z * string) :=
  match s with
  | String a (String b (String c (String d r))) =>
      if Py.is_digit a && Py.is_digit b && Py.is_digit c && Py.is_digit d then
        [(1000 * digit_value a + 100 * digit_value b + 10 * digit_value c
          + digit_value d, r)]
      else []
  | _ => []
  end.

(** One piece after another, with backtracking. *)
Definition and_then {B} (l : list (Z * string)) (k : Z -> string -> list B) : list B :=
  flat_map (fun xr => k xr.1 xr.2) l.

(** The match of [%d-%m-%Y] at the start of [s]: day, month, year and the
    text left over. *)
Definition match_d_m_Y (s : string) : option (Z * Z * Z * string) :=
  head
    (and_then (directive_d s) (fun d r1 =>
     and_then (literal "-" r1) (fun _ r2 =>
     and_then (directive_m r2) (fun m r3 =>
     and_then (literal "-" r3) (fun _ r4 =>
     and_then (directive_Y r4) (fun y r5 => [(d, m, y, r5)])))))).

(** The match of [%Y-%m-%d]. *)
Definition match_Y_m_d (s : string) : option (Z * Z * Z * string) :=
  head
    (and_then (directive_Y s) (fun y r1 =>
     and_then (literal "-" r1) (fun _ r2 =>
     and_then (directive_m r2) (fun m r3 =>
     and_then (literal "-" r3) (fun _ r4 =>
     and_then (directive_d r4) (fun d r5 => [(d, m, y, r5)])))))).

Definition is_leap (y : Z) : bool :=
  (y mod 4 =? 0) && (negb (y mod 100 =? 0) || (y mod 400 =? 0)).

Definition days_in_month (y m : Z) : Z :=
  if m =? 2 then (if is_leap y then 29 else 28)
  else if (m =? 4) || (m =? 6) || (m =? 9) || (m =? 11) then 30
  else 31.

(** [datetime.date(y, m, d)]; [None] stands for [ValueError]. *)
Definition make (y m d : Z) : option date :=
  if (1 <=? y) && (y <=? 9999) && (1 <=? m) && (m <=? 12)
     && (1 <=? d) && (d <=? days_in_month y m)
  then Some (Date y m d) else None.

Definition finish (found : option (Z * Z * Z * string)) : option date :=
  match found with
  | Some (d, m, y, EmptyString) => make y m d
  | _ => None
  end.

(** [datetime.strptime(s, '%d-%m-%Y')] and [datetime.strptime(s,
    '%Y-%m-%d')]; [None] stands for [ValueError]. *)
Definition strptime_d_m_Y (s : string) : option date := finish (match_d_m_Y s).
Definition strptime_Y_m_d (s : string) : option date := finish (match_Y_m_d s).

Definition digit (n : Z) : ascii := ascii_of_N (Z.to_N (48 + n)).

(** A number below 100 on two digits. *)
Definition two_digits (n : Z) : string :=
  String (digit (n / 10)) (String (digit (n mod 10)) EmptyString).

(** [strftime]: [%d] and [%m] are written on two digits; [%Y] is the year
    as the C library writes it, without padding on Linux. *)
Definition strftime_Y_m_d (dt : date) : string :=
  Py.str_of_int (year dt) ++ "-" ++ two_digits (month dt) ++ "-" ++ two_digits (day dt).

Definition strftime_d_m_Y (dt : date) : string :=
  two_digits (day dt) ++ "-" ++ two_digits (month dt) ++ "-" ++ Py.str_of_int (year dt).

End Date.

(** [_validate_date_dd_mm_yyyy] *)
Definition _validate_date_dd_mm_yyyy (date_str : string) : bool :=
  match Date.strptime_d_m_Y date_str with Some _ => true | None => false end.

(** [_convert_date_to_storage_format] *)
Definition _convert_date_to_storage_format (date_str : string) : string :=
  match Date.strptime_d_m_Y date_str with
  | Some date_obj => Date.strftime_Y_m_d date_obj
  | None => date_str
  end.

(** [_convert_date_to_display_format]: a text that is not in storage
    format comes back as it is, in display format or not. *)
Definition _convert_date_to_display_format (date_str : string) : string :=
  match Date.strptime_Y_m_d date_str with
  | Some date_obj => Date.strftime_d_m_Y date_obj
  | None =>
      match Date.strptime_d_m_Y date_str with
      | Some _ => date_str
      | None => date_str
      end
  end.

(** A year on four digits, and the two spellings of a date that
    [%d-%m-%Y] and [%Y-%m-%d] print. *)
Definition four_digits (y : Z) : string :=
  String (Date.digit (y / 1000))
    (String (Date.digit (y / 100 mod 10))
       (String (Date.digit (y / 10 mod 10))
          (String (Date.digit (y mod 10)) EmptyString))).

Definition display_text (y m d : Z) : string :=
  Date.two_digits d ++ "-" ++ Date.two_digits m ++ "-" ++ four_digits y.

Definition storage_text (y m d : Z) : string :=
  four_digits y ++ "-" ++ Date.two_digits m ++ "-" ++ Date.two_digits d.

(** The same date with the day on one digit. *)
Definition short_text (y m d : Z) : string :=
  String (Date.digit d) ("-" ++ Date.two_digits m ++ "-" ++ four_digits y).

(** * Submissions

    [add_strain_submission] writes the Submissions sheet and draws random
    bytes, which no other operation of the embedding touches: its state is
    the manager together with the rows of that sheet (header left out) and
    the bytes the system will hand out. *)

Module Submissions.
Record row : Type := Row {
  Submission_ID : Z;
  Unique_ID : string;
  Strain_Name : string;
  User_ID : string;
  Harvest_Date : string;
  Package_Date : string;
  Date_Added : string;
  Category : string;
  Producer : string;
  Username : string
}.
End Submissions.

Record store : Type := Store {
  base : manager;
  submissions_rows : list Submissions.row;
  entropy : nat -> ascii;
  drawn : nat
}.

Definition set_base (v : manager) (s : store) : store :=
  Store v (submissions_rows s) (entropy s) (drawn s).
Definition set_submissions (v : list Submissions.row) (s : store) : store :=
  Store (base s) v (entropy s) (drawn s).
Definition set_drawn (v : nat) (s : store) : store :=
  Store (base s) (submissions_rows s) (entropy s) v.

(** State and exceptions over the larger state. *)
Definition S (A : Type) : Type := store -> result A * store.

Definition ret_S {A} (a : A) : S A := fun s => (Ok a, s).

Definition bind_S {A B} (c : S A) (k : A -> S B) : S B :=
  fun s =>
    match c s with
    | (Ok a, s') => k a s'
    | (Raise e, s') => (Raise e, s')
    end.

Definition try_except_S {A} (c : S A) (h : exn -> S A) : S A :=
  fun s =>
    match c s with
    | (Raise e, s') => if is_Exception e then h e s' else (Raise e, s')
    | r => r
    end.

(** Manager code run on the manager of the store. *)
Definition lift {A} (c : M A) : S A :=
  fun s => let '(r, m) := c (base s) in (r, set_base m s).

Notation "'let+' x ':=' c 'in' k" := (bind_S c (fun x => k))
  (at level 10, x name, c at level 100, k at level 200,
   format "'[v' 'let+'  x  ':='  c  'in' '/' k ']'") : py_scope.
Notation "'let+' '_' ':=' c 'in' k" := (bind_S c (fun _ => k))
  (at level 10, c at level 100, k at level 200,
   format "'[v' 'let+'  '_'  ':='  c  'in' '/' k ']'") : py_scope.

(** [safe_operation], for an operation on the larger state. *)
Definition safe_operation_S (operation : S pyval) : S pyval :=
  try_except_S (let+ _ := lift wait_if_needed in operation) (fun _ => ret_S PNone).

(** [strains_sheet.append_row(...)] *)
Definition Strains_append_row (r : Strains.row) : M unit :=
  let* _ := api_call in
  fun m => (Ok tt, set_strains (strains_rows m ++ [r]) m).

(** [len(submissions_sheet.get_all_values())]: the header and the rows. *)
Definition Submissions_count : S Z :=
  let+ _ := lift api_call in
  fun s => (Ok (1 + Z.of_nat (length (submissions_rows s))), s).

(** [submissions_sheet.append_row(...)] *)
Definition Submissions_append_row (r : Submissions.row) : S unit :=
  let+ _ := lift api_call in
  fun s => (Ok tt, set_submissions (submissions_rows s ++ [r]) s).

Definition hex_digit (n : N) : ascii :=
  if (n <? 10)%N then ascii_of_N (48 + n) else ascii_of_N (87 + n).

(** [bytes.hex()] *)
Fixpoint hex (bytes : list ascii) : string :=
  match bytes with
  | [] => EmptyString
  | b :: rest =>
      String (hex_digit (N_of_ascii b / 16))
        (String (hex_digit (N_of_ascii b mod 16)) (hex rest))
  end.

(** [secrets.token_hex(nbytes)] *)
Definition token_hex (nbytes : nat) : S string :=
  fun s =>
    (Ok (hex (List.map (fun i => entropy s (drawn s + i)%nat) (seq 0 nbytes))),
     set_drawn (drawn s + nbytes)%nat s).

(** [_generate_unique_id] *)
Definition _generate_unique_id : S string :=
  let+ token := token_hex 4 in ret_S (Py.upper token).

Definition valid_categories : list string := ["flower"; "hash"; "rosin"].

Section Submission.

(** [datetime.now().strftime(format)] for the instant [datetime.now()]
    read. *)
Variable strftime : string -> Q -> string.

Definition add_strain_submission_operation
    (strain_name harvest_date package_date category producer : string)
    (user_id : Z) (username : string) : S pyval :=
  try_except_S
    (if negb (_validate_date_dd_mm_yyyy harvest_date)
        || negb (_validate_date_dd_mm_yyyy package_date) then ret_S PNone
     else if negb (existsb (String.eqb (Py.lower category)) valid_categories) then
       ret_S PNone
     else
       let+ unique_id := _generate_unique_id in
       let formatted_user_id := _format_user_id_for_sheets user_id in
       let sanitized_username := _sanitize_username username in
       let sanitized_producer := _sanitize_producer producer in
       let+ strains_sheet := lift (worksheet "Strains") in
       let+ now := lift datetime_now in
       let+ _ := lift (Strains_append_row
                         (Strains.Row unique_id strain_name "Pending" 0 0
                            (strftime "%Y-%m-%d" now) harvest_date package_date
                            (Py.lower category) sanitized_producer)) in
       let+ submissions_sheet := lift (worksheet "Submissions") in
       let+ next_submission_id := Submissions_count in
       let+ now := lift datetime_now in
       let+ _ := Submissions_append_row
                   (Submissions.Row next_submission_id unique_id strain_name
                      formatted_user_id harvest_date package_date
                      (strftime "%Y-%m-%d %H:%M:%S" now) (Py.lower category)
                      sanitized_producer sanitized_username) in
       ret_S (PStr unique_id))
    (fun _ => ret_S PNone).

Definition add_strain_submission
    (strain_name harvest_date package_date category producer : string)
    (user_id : Z) (username : string) : S pyval :=
  safe_operation_S
    (add_strain_submission_operation strain_name harvest_date package_date category
       producer user_id username).

End Submission.

(** The identifier the next submission draws. *)
Definition next_unique_id (s : store) : string :=
  Py.upper (hex (List.map (fun i => entropy s (drawn s + i)%nat) (seq 0 4))).

(** The Strains row a submission writes at the instant [now]. *)
Definition submitted_row (strftime : string -> Q -> string) (s : store)
    (strain_name harvest_date package_date category producer : string) (now : Q)
    : Strains.row :=
  Strains.Row (next_unique_id s) strain_name "Pending" 0 0
    (strftime "%Y-%m-%d" now) harvest_date package_date (Py.lower category)
    (_sanitize_producer producer).

Definition acceptable (harvest_date package_date category : string) : bool :=
  _validate_date_dd_mm_yyyy harvest_date && _validate_date_dd_mm_yyyy package_date
  && existsb (String.eqb (Py.lower category)) valid_categories.

(** A digit of an upper-case hexadecimal number. *)
Definition is_upper_hex (c : ascii) : bool :=
  Py.is_digit c || Date.in_range "A" "F" c.

(** A store to run submissions on: the sample sheet, no submission yet. *)
Module Desk.

Definition today : string -> Q -> string := fun _ _ => "2024-12-16".

Definition bytes (i : nat) : ascii := ascii_of_N (171 + 17 * N.of_nat i).

Definition empty : store := Store Sample.sheet [] bytes 0.

End Desk.

(** * The probe of [monitoring.py] *)

(** [try: c  except: h], which catches every exception. *)
Definition try_except_any {A} (c : M A) (h : M A) : M A :=
  fun m =>
    match c m with
    | (Raise _, m') => h m'
    | r => r
    end.

(** [HealthMonitor._test_sheets_connection], for a bot that has its
    sheets manager. *)
Definition _test_sheets_connection : M bool :=
  try_except_any
    (let* result := safe_operation (ret (PBool true)) in
     ret (match result with PNone => false | _ => true end))
    (ret false).

(** * Properties *)

Example extract_examples :
  _extract_user_id_from_sheets "'123456789012345678" = 123456789012345678 /\
  _extract_user_id_from_sheets "42" = 42 /\
  _extract_user_id_from_sheets "''-7 " = -7 /\
  _extract_user_id_from_sheets "1_000" = 1000 /\
  _extract_user_id_from_sheets "'12a" = 0 /\
  _extract_user_id_from_sheets "" = 0 /\
  _extract_user_id_from_sheets "1.5E+17" = 0 /\
  _extract_user_id_from_sheets " +15 " = 15 /\
  _extract_user_id_from_sheets "1__5" = 0 /\
  _format_user_id_for_sheets (-7) = "'-7" /\
  _format_user_id_for_sheets 0 = "'0".
Proof. repeat split; reflexivity. Qed.

Example py_round2_examples :
  py_round2 (py_truediv 14 2) = 700 # 100 /\
  py_round2 (py_truediv 20 3) = 667 # 100 /\
  py_round2 (py_truediv 1 8) = 12 # 100 /\
  py_round2 (py_truediv 3 8) = 38 # 100 /\
  py_round2 (py_truediv 207 200) = 103 # 100 /\
  py_round2 (py_truediv (-20) 3) = (-667) # 100.
Proof. repeat split; vm_compute; reflexivity. Qed.

(** ** Decimal text of an integer *)

Lemma all_digits_string_of_uint (d : Decimal.uint) :
  all_chars Py.is_digit (NilEmpty.string_of_uint d) = true.
Proof. induction d; simpl; auto. Qed.

Lemma all_digits_nilzero (d : Decimal.uint) :
  all_chars Py.is_digit (NilZero.string_of_uint d) = true.
Proof. destruct d; try apply all_digits_string_of_uint. reflexivity. Qed.

Lemma nilzero_nonempty (d : Decimal.uint) :
  NilZero.string_of_uint d <> EmptyString.
Proof. destruct d; discriminate. Qed.

Lemma digit_not_space (c : ascii) :
  Py.is_digit c = true -> Py.is_int_space c = false.
Proof.
  unfold Py.is_digit, Py.is_int_space. intros H.
  destruct (N_of_ascii c) as [|p]; [discriminate|].
  apply andb_true_iff in H as [H1 H2].
  apply N.leb_le in H1, H2.
  apply orb_false_iff; split.
  - apply andb_false_iff. right. apply N.leb_gt. lia.
  - apply N.eqb_neq. lia.
Qed.

Lemma digit_not_char (c x : ascii) :
  Py.is_digit c = true -> Py.is_digit x = false -> Ascii.eqb c x = false.
Proof.
  intros Hc Hx. destruct (Ascii.eqb_spec c x); [congruence | reflexivity].
Qed.

Lemma lstrip_digits (s : string) :
  all_chars Py.is_digit s = true -> Py.lstrip_by Py.is_int_space s = s.
Proof.
  destruct s as [|c r]; simpl; [reflexivity|].
  intros H. apply andb_true_iff in H as [H _].
  now rewrite (digit_not_space _ H).
Qed.

Lemma rstrip_digits (s : string) :
  all_chars Py.is_digit s = true -> Py.rstrip_by Py.is_int_space s = s.
Proof.
  induction s as [|c r IH]; simpl; [reflexivity|].
  intros H. apply andb_true_iff in H as [Hc Hr].
  rewrite (IH Hr). destruct r; [|reflexivity].
  now rewrite (digit_not_space _ Hc).
Qed.

Lemma digits_go_digits (s : string) (b : bool) :
  all_chars Py.is_digit s = true -> s <> EmptyString ->
  Py.digits_go b s = Some s.
Proof.
  revert b. induction s as [|c r IH]; intros b H Hne; [congruence|].
  simpl in *. apply andb_true_iff in H as [Hc Hr]. rewrite Hc.
  destruct r as [|c' r'].
  - reflexivity.
  - rewrite (IH true Hr); [reflexivity | discriminate].
Qed.

Lemma parse_digits_uint (d : Decimal.uint) :
  d <> Decimal.Nil ->
  Py.parse_digits (NilZero.string_of_uint d) = Some (Z.of_uint d).
Proof.
  intros Hd. unfold Py.parse_digits.
  rewrite digits_go_digits
    by (apply all_digits_nilzero || apply nilzero_nonempty).
  now rewrite NilZero.usu.
Qed.

Lemma int_of_str_digits (s : string) :
  all_chars Py.is_digit s = true -> s <> EmptyString ->
  Py.int_of_str s = Py.parse_digits s.
Proof.
  intros H Hne. unfold Py.int_of_str.
  rewrite (lstrip_digits _ H), (rstrip_digits _ H).
  destruct s as [|c r]; [congruence|].
  simpl in H. apply andb_true_iff in H as [Hc _].
  destruct (Ascii.eqb_spec c "+") as [->|]; [discriminate|].
  destruct (Ascii.eqb_spec c "-") as [->|]; [discriminate|].
  destruct c as [[] [] [] [] [] [] [] []]; try reflexivity; congruence.
Qed.

Lemma int_of_str_neg_digits (s : string) :
  all_chars Py.is_digit s = true -> s <> EmptyString ->
  Py.int_of_str (String "-" s) = option_map Z.opp (Py.parse_digits s).
Proof.
  intros H Hne. unfold Py.int_of_str.
  change (Py.lstrip_by Py.is_int_space (String "-" s)) with (String "-" s).
  cbn [Py.rstrip_by]. rewrite (rstrip_digits _ H).
  destruct s; [congruence | reflexivity].
Qed.

(** [int(str(z))] is [z]. *)
Lemma int_of_str_of_int (z : Z) : Py.int_of_str (Py.str_of_int z) = Some z.
Proof.
  unfold Py.str_of_int. destruct z as [|p|p]; simpl Z.to_int.
  - reflexivity.
  - cbn [NilZero.string_of_int].
    rewrite int_of_str_digits
      by (apply all_digits_nilzero || apply nilzero_nonempty).
    rewrite parse_digits_uint by apply Unsigned.to_uint_nonnil.
    f_equal. exact (DecimalZ.of_to (Z.pos p)).
  - cbn [NilZero.string_of_int].
    rewrite int_of_str_neg_digits
      by (apply all_digits_nilzero || apply nilzero_nonempty).
    rewrite parse_digits_uint by apply Unsigned.to_uint_nonnil.
    simpl. f_equal. exact (DecimalZ.of_to (Z.neg p)).
Qed.

(** The text of an integer does not start with the apostrophe marker. *)
Lemma lstrip_char_str_of_int (z : Z) :
  Py.lstrip_char "'" (Py.str_of_int z) = Py.str_of_int z.
Proof.
  unfold Py.str_of_int.
  assert (Hd : forall d, Py.lstrip_char "'" (NilZero.string_of_uint d)
                         = NilZero.string_of_uint d).
  { intros d. pose proof (all_digits_nilzero d) as H.
    destruct (NilZero.string_of_uint d) as [|c r]; [reflexivity|].
    simpl in *. apply andb_true_iff in H as [Hc _].
    now rewrite (digit_not_char c "'" Hc eq_refl). }
  destruct z as [|p|p]; cbn [Z.to_int NilZero.string_of_int].
  - reflexivity.
  - apply Hd.
  - reflexivity.
Qed.

(** C8. The storage encoding of a user id round-trips: decoding
    [_format_user_id_for_sheets user_id] (the apostrophe marker in front
    of the decimal digits) gives back [user_id], for every integer; and on
    every text that [int] rejects once the leading apostrophes are
    stripped, the decoder returns the sentinel 0. The decoder is a total
    function: it raises on no input. *)
Theorem user_id_encoding_roundtrip :
  (forall user_id : Z,
     _extract_user_id_from_sheets (_format_user_id_for_sheets user_id) = user_id) /\
  (forall user_id_str : string,
     Py.int_of_str (Py.lstrip_char "'" user_id_str) = None ->
     _extract_user_id_from_sheets user_id_str = 0).
Proof.
  split.
  - intros z. unfold _extract_user_id_from_sheets, _format_user_id_for_sheets.
    cbn [Py.lstrip_char]. change (Ascii.eqb "'" "'") with true. cbv iota.
    now rewrite lstrip_char_str_of_int, int_of_str_of_int.
  - intros s H. unfold _extract_user_id_from_sheets. now rewrite H.
Qed.

Lemma user_id_encoding_roundtrip_witness :
  _extract_user_id_from_sheets (_format_user_id_for_sheets 123456789012345678)
    = 123456789012345678 /\
  _extract_user_id_from_sheets "'12a4" = 0.
Proof.
  split.
  - apply (proj1 user_id_encoding_roundtrip).
  - apply (proj2 user_id_encoding_roundtrip "'12a4"). reflexivity.
Defined.

(** ** Running manager code *)

Lemma served_strains m : strains_rows (served m) = strains_rows m.
Proof. unfold served. now destruct (remote m). Qed.

Lemma served_ratings m : ratings_rows (served m) = ratings_rows m.
Proof. unfold served. now destruct (remote m). Qed.

Lemma served_cache m : cache (served m) = cache m.
Proof. unfold served. now destruct (remote m). Qed.

Lemma served_requests m : requests (served m) = requests m.
Proof. unfold served. now destruct (remote m). Qed.

Lemma served_reliable m : reliable m -> reliable (served m).
Proof.
  unfold reliable, served. destruct (remote m) eqn:E.
  - now rewrite E.
  - simpl. now inversion 1.
Qed.

Lemma served_civil m : civil m -> civil (served m).
Proof.
  unfold civil, served. destruct (remote m) eqn:E.
  - now rewrite E.
  - simpl. now inversion 1.
Qed.

Create HintDb served.
Create Rewrite HintDb served.
#[local] Hint Rewrite served_strains served_ratings served_cache
  served_requests : served.
#[local] Hint Resolve served_reliable served_civil : served.

(** A request is served, or fails with the fault the remote has in store. *)
Lemma api_call_cases m :
  api_call m = (Ok tt, served m) \/
  exists e, api_call m = (Raise e, served m) /\
            exists ev rest, remote m = ev :: rest /\ fault ev = Some e.
Proof.
  unfold api_call, served. destruct (remote m) as [|ev rest]; [now left|].
  destruct (fault ev) as [e|] eqn:E; [right | now left].
  exists e. split; [reflexivity|]. now exists ev, rest.
Qed.

Lemma api_call_reliable m : reliable m -> api_call m = (Ok tt, served m).
Proof.
  intros H. destruct (api_call_cases m) as [E|(e & _ & ev & rest & Hr & Hf)]; [exact E|].
  unfold reliable in H. rewrite Hr in H. inversion H; congruence.
Qed.

Lemma api_call_civil m e m' :
  civil m -> api_call m = (Raise e, m') -> is_Exception e = true.
Proof.
  intros H E. destruct (api_call_cases m) as [E'|(e' & E' & ev & rest & Hr & Hf)];
    rewrite E' in E; [discriminate|].
  injection E as -> _. unfold civil in H. rewrite Hr in H. inversion H; auto.
Qed.

Lemma bind_api_reliable {A} (k : unit -> M A) m :
  reliable m -> bind api_call k m = k tt (served m).
Proof. intros H. unfold bind. now rewrite api_call_reliable. Qed.

Lemma worksheet_reliable name m :
  reliable m -> worksheet name m = (Ok name, served m).
Proof. intros H. unfold worksheet. now rewrite bind_api_reliable. Qed.

Lemma Strains_get_all_records_reliable m :
  reliable m ->
  Strains_get_all_records m = (Ok (strains_rows m), served m).
Proof.
  intros H. unfold Strains_get_all_records. rewrite bind_api_reliable by easy.
  now autorewrite with served.
Qed.

Lemma Ratings_get_all_records_reliable m :
  reliable m ->
  Ratings_get_all_records m = (Ok (ratings_rows m), served m).
Proof.
  intros H. unfold Ratings_get_all_records. rewrite bind_api_reliable by easy.
  now autorewrite with served.
Qed.

(** What the rate limiter leaves of the manager: the sheets, the cache
    and the schedule of the remote are untouched. *)
Lemma wait_if_needed_spec m :
  exists m', wait_if_needed m = (Ok tt, m') /\
             strains_rows m' = strains_rows m /\
             ratings_rows m' = ratings_rows m /\
             cache m' = cache m /\ remote m' = remote m.
Proof.
  unfold wait_if_needed, bind, time_time.
  set (reqs := List.filter _ _).
  destruct (max_requests <=? length reqs)%nat.
  - destruct (Qltb 0 _); eexists; (split; [reflexivity|]); now repeat split.
  - eexists; (split; [reflexivity|]); now repeat split.
Qed.

Lemma wait_if_needed_admitted m : wait_if_needed m = (Ok tt, admitted m).
Proof.
  unfold admitted. destruct (wait_if_needed_spec m) as (m' & E & _). now rewrite E.
Qed.

Lemma admitted_strains m : strains_rows (admitted m) = strains_rows m.
Proof.
  unfold admitted. destruct (wait_if_needed_spec m) as (m' & E & H & _). now rewrite E.
Qed.

Lemma admitted_ratings m : ratings_rows (admitted m) = ratings_rows m.
Proof.
  unfold admitted. destruct (wait_if_needed_spec m) as (m' & E & _ & H & _).
  now rewrite E.
Qed.

Lemma admitted_cache m : cache (admitted m) = cache m.
Proof.
  unfold admitted. destruct (wait_if_needed_spec m) as (m' & E & _ & _ & H & _).
  now rewrite E.
Qed.

Lemma admitted_remote m : remote (admitted m) = remote m.
Proof.
  unfold admitted. destruct (wait_if_needed_spec m) as (m' & E & _ & _ & _ & H).
  now rewrite E.
Qed.

Lemma admitted_reliable m : reliable m -> reliable (admitted m).
Proof. unfold reliable. now rewrite admitted_remote. Qed.

Lemma admitted_civil m : civil m -> civil (admitted m).
Proof. unfold civil. now rewrite admitted_remote. Qed.

#[local] Hint Rewrite admitted_strains admitted_ratings admitted_cache : served.
#[local] Hint Resolve admitted_reliable admitted_civil : served.

(** [safe_operation] in terms of the run of its operation. *)
Lemma safe_operation_run (operation : M pyval) m :
  safe_operation operation m =
  match operation (admitted m) with
  | (Raise e, m') => if is_Exception e then (Ok PNone, m') else (Raise e, m')
  | r => r
  end.
Proof.
  unfold safe_operation, try_except, bind. rewrite wait_if_needed_admitted.
  destruct (operation (admitted m)) as [[v|e] m']; reflexivity.
Qed.

(** ** Cache lookups *)

Lemma Qltb_true (x y : Q) : Qltb x y = true <-> (x < y)%Q.
Proof.
  unfold Qltb. rewrite negb_true_iff. split.
  - intros H. apply Qnot_le_lt. intros Hle.
    apply Qle_bool_iff in Hle. congruence.
  - intros H. destruct (Qle_bool y x) eqn:E; [|reflexivity].
    apply Qle_bool_iff in E. exfalso. exact (Qlt_not_le _ _ H E).
Qed.

Lemma Qltb_false (x y : Q) : Qltb x y = false <-> (y <= x)%Q.
Proof.
  unfold Qltb. rewrite negb_false_iff. apply Qle_bool_iff.
Qed.

Lemma cache_hit_some key d m data :
  cache_hit key d m = Some data <->
  exists ts, cache m !! key = Some (data, ts) /\ (clock m - ts < d)%Q.
Proof.
  unfold cache_hit. destruct (cache m !! key) as [[v ts]|].
  - destruct (Qltb (clock m - ts) d) eqn:E.
    + apply Qltb_true in E. split.
      * intros [= <-]. now exists ts.
      * intros (ts' & [= <- <-] & _). reflexivity.
    + apply Qltb_false in E. split; [discriminate|].
      intros (ts' & [= <- <-] & Hlt). exfalso. exact (Qlt_not_le _ _ Hlt E).
  - split; [discriminate|]. now intros (ts & H & _).
Qed.

Lemma cache_hit_none key d m :
  cache_hit key d m = None <->
  cache m !! key = None \/
  exists data ts, cache m !! key = Some (data, ts) /\ (d <= clock m - ts)%Q.
Proof.
  unfold cache_hit. destruct (cache m !! key) as [[v ts]|].
  - destruct (Qltb (clock m - ts) d) eqn:E.
    + apply Qltb_true in E. split; [discriminate|].
      intros [H|(data & ts' & [= <- <-] & Hle)]; [discriminate|].
      exfalso. exact (Qlt_not_le _ _ E Hle).
    + apply Qltb_false in E. split; [|reflexivity].
      intros _. right. now exists v, ts.
  - split; [now left | reflexivity].
Qed.

Lemma cached_operation_miss key (operation : M pyval) d m :
  cache_hit key (duration_or_ttl d) m = None ->
  cached_operation key operation d m =
  match safe_operation operation m with
  | (Ok PNone, m1) => (Ok PNone, m1)
  | (Ok v, m1) => (Ok v, set_cache (<[key := (v, clock m1)]> (cache m1)) m1)
  | (Raise e, m1) => (Raise e, m1)
  end.
Proof.
  intros H. unfold cached_operation. rewrite H. unfold bind.
  destruct (safe_operation operation m) as [[v|e] m1]; [|reflexivity].
  destruct v; reflexivity.
Qed.

Lemma cached_operation_hit key (operation : M pyval) d m data :
  cache_hit key (duration_or_ttl d) m = Some data ->
  cached_operation key operation d m = (Ok data, m).
Proof. intros H. unfold cached_operation. now rewrite H. Qed.

Lemma safe_operation_keeps_cache (operation : M pyval) :
  keeps_cache operation -> keeps_cache (safe_operation operation).
Proof.
  intros Hop m r m' H. rewrite safe_operation_run in H.
  destruct (operation (admitted m)) as [[v|e] m1] eqn:E;
    pose proof (Hop _ _ _ E) as Hc; rewrite admitted_cache in Hc.
  - now injection H as _ <-.
  - destruct (is_Exception e); now injection H as _ <-.
Qed.

(** ** Duplicate check *)

Lemma duplicate_of_agrees strain_name harvest_date package_date category producer record :
  duplicate_of strain_name harvest_date package_date category producer record = true
  <-> agrees strain_name harvest_date package_date category producer record.
Proof.
  unfold duplicate_of, agrees.
  rewrite !andb_true_iff, orb_true_iff, negb_true_iff, !String.eqb_eq.
  split.
  - intros ((((H1 & H2) & H3) & H4) & H5). repeat split; auto.
    intros p -> Hp. destruct H5 as [H5|H5]; [|exact H5].
    simpl in H5. destruct p; [congruence | discriminate].
  - intros (H1 & H2 & H3 & H4 & H5). repeat split; auto.
    destruct producer as [p|]; [|now left].
    destruct p as [|c p]; [now left|]. right. simpl. now apply H5.
Qed.

Lemma duplicate_scan_first strain_name harvest_date package_date category producer
    records uid :
  duplicate_scan strain_name harvest_date package_date category producer records
    = Some uid
  <-> exists record,
        first_such
          (duplicate_of strain_name harvest_date package_date category producer)
          records record /\
        Strains.Unique_ID record = uid.
Proof.
  induction records as [|r rest IH]; simpl.
  - split; [discriminate|]. intros (record & (l1 & l2 & E & _) & _).
    now destruct l1.
  - destruct (duplicate_of _ _ _ _ _ r) eqn:D.
    + split.
      * intros [= <-]. exists r. split; [|reflexivity]. now exists [], rest.
      * intros (record & (l1 & l2 & E & Hp & Hl) & <-).
        destruct l1 as [|x l1]; simpl in E; injection E as -> _; [reflexivity|].
        inversion Hl; congruence.
    + rewrite IH. split.
      * intros (record & (l1 & l2 & E & Hp & Hl) & <-).
        exists record. split; [|reflexivity].
        exists (r :: l1), l2. rewrite E. repeat split; auto.
      * intros (record & (l1 & l2 & E & Hp & Hl) & <-).
        exists record. split; [|reflexivity].
        destruct l1 as [|x l1]; simpl in E; injection E as <- ->; [congruence|].
        exists l1, l2. repeat split; auto. now inversion Hl.
Qed.

Lemma duplicate_scan_none strain_name harvest_date package_date category producer
    records :
  duplicate_scan strain_name harvest_date package_date category producer records
    = None
  <-> Forall (fun r => duplicate_of strain_name harvest_date package_date category
                         producer r = false) records.
Proof.
  induction records as [|r rest IH]; simpl.
  - split; auto.
  - destruct (duplicate_of _ _ _ _ _ r) eqn:D.
    + split; [discriminate|]. inversion 1; congruence.
    + rewrite IH. split; [now constructor | now inversion 1].
Qed.

Lemma check_strain_duplicate_reliable strain_name harvest_date package_date category
    producer m :
  reliable m ->
  fst (check_strain_duplicate strain_name harvest_date package_date category producer m)
  = Ok (of_option_str
          (duplicate_scan strain_name harvest_date package_date category producer
             (strains_rows m))).
Proof.
  intros H. unfold check_strain_duplicate. rewrite safe_operation_run.
  unfold check_strain_duplicate_operation, try_except, bind.
  rewrite worksheet_reliable by auto with served.
  rewrite Strains_get_all_records_reliable by auto with served.
  autorewrite with served. reflexivity.
Qed.

(** C4. When the sheet can be read, [check_strain_duplicate] reports a
    duplicate exactly when some existing item agrees with the submission
    on the normalized name, on the two dates as displayed, on the category
    and, if a producer is supplied, on the producer. The id it returns is
    the unique id of such an item (the first one in the sheet), and it
    returns [None] when there is none. *)
Theorem check_strain_duplicate_iff
    (strain_name harvest_date package_date category : string)
    (producer : option string) (m : manager) :
  reliable m ->
  let answer :=
    fst (check_strain_duplicate strain_name harvest_date package_date category
           producer m) in
  ((exists record, In record (strains_rows m) /\
                   agrees strain_name harvest_date package_date category producer record)
   <-> exists uid, answer = Ok (PStr uid)) /\
  (forall uid, answer = Ok (PStr uid) ->
     exists before record after,
       strains_rows m = (before ++ record :: after)%list /\
       agrees strain_name harvest_date package_date category producer record /\
       Forall (fun r => ~ agrees strain_name harvest_date package_date category
                          producer r) before /\
       Strains.Unique_ID record = uid) /\
  ((~ exists record, In record (strains_rows m) /\
                     agrees strain_name harvest_date package_date category producer record)
   -> answer = Ok PNone).
Proof.
  intros H answer. subst answer.
  rewrite (check_strain_duplicate_reliable _ _ _ _ _ _ H).
  set (scan := duplicate_scan _ _ _ _ _ _).
  assert (Hfound : forall uid, scan = Some uid ->
            exists before record after,
              strains_rows m = (before ++ record :: after)%list /\
              agrees strain_name harvest_date package_date category producer record /\
              Forall (fun r => ~ agrees strain_name harvest_date package_date category
                                 producer r) before /\
              Strains.Unique_ID record = uid).
  { intros uid E. apply duplicate_scan_first in E
      as (record & (l1 & l2 & E & Hp & Hl) & Hu).
    exists l1, record, l2.
    split; [exact E|]. split; [now apply duplicate_of_agrees|].
    split; [|exact Hu].
    eapply Forall_impl; [exact Hl|]. intros r Hr Ha.
    apply duplicate_of_agrees in Ha. simpl in Hr. congruence. }
  assert (Hnone : scan = None ->
            ~ exists record, In record (strains_rows m) /\
                agrees strain_name harvest_date package_date category producer record).
  { intros E (record & Hin & Ha). apply duplicate_scan_none in E.
    rewrite Forall_forall in E. apply duplicate_of_agrees in Ha.
    specialize (E record). rewrite <- list_elem_of_In in Hin.
    specialize (E Hin). simpl in E. congruence. }
  split; [split|split].
  - intros Hex. destruct scan as [uid|] eqn:E; [now exists uid|].
    exfalso. now apply Hnone.
  - intros (uid & E). destruct scan as [uid'|] eqn:E'; [|discriminate].
    destruct (Hfound uid' eq_refl) as (l1 & record & l2 & Hs & Ha & _).
    exists record. split; [|exact Ha]. rewrite Hs. apply in_elt.
  - intros uid E. destruct scan as [uid'|] eqn:E'; [|discriminate].
    injection E as <-. now apply Hfound.
  - intros Hno. destruct scan as [uid|] eqn:E; [|reflexivity].
    exfalso. apply Hno.
    destruct (Hfound uid eq_refl) as (l1 & record & l2 & Hs & Ha & _).
    exists record. split; [|exact Ha]. rewrite Hs. apply in_elt.
Qed.

Lemma check_strain_duplicate_iff_witness :
  reliable Sample.sheet /\
  exists uid,
    fst (check_strain_duplicate "blue-dream" "01-12-2024" "15-12-2024" "Flower"
           (Some "Q-Farms") Sample.sheet) = Ok (PStr uid).
Proof.
  assert (H : reliable Sample.sheet) by (repeat constructor).
  split; [exact H|].
  apply (proj1 (check_strain_duplicate_iff "blue-dream" "01-12-2024" "15-12-2024"
                  "Flower" (Some "Q-Farms") Sample.sheet H)).
  exists Sample.blue_dream. split.
  - simpl. auto.
  - apply duplicate_of_agrees. reflexivity.
Defined.

(** ** Resolution of an identifier *)

Lemma find_first_such {A} (p : A -> bool) (l : list A) (r : A) :
  List.find p l = Some r <-> first_such p l r.
Proof.
  induction l as [|x l IH]; simpl.
  - split; [discriminate|]. intros (l1 & l2 & E & _). now destruct l1.
  - destruct (p x) eqn:Px.
    + split.
      * intros [= <-]. now exists [], l.
      * intros (l1 & l2 & E & Hp & Hl).
        destruct l1 as [|y l1]; simpl in E; injection E as -> _; [reflexivity|].
        inversion Hl; congruence.
    + rewrite IH. split.
      * intros (l1 & l2 & E & Hp & Hl). exists (x :: l1), l2.
        rewrite E. repeat split; auto.
      * intros (l1 & l2 & E & Hp & Hl).
        destruct l1 as [|y l1]; simpl in E; injection E as <- ->; [congruence|].
        exists l1, l2. repeat split; auto. now inversion Hl.
Qed.

Lemma find_none_Forall {A} (p : A -> bool) (l : list A) :
  List.find p l = None <-> Forall (fun x => p x = false) l.
Proof.
  induction l as [|x l IH]; simpl.
  - split; auto.
  - destruct (p x) eqn:Px.
    + split; [discriminate|]. inversion 1; congruence.
    + rewrite IH. split; [now constructor | now inversion 1].
Qed.

Lemma get_strain_by_identifier_operation_reliable beyond identifier category m :
  reliable m ->
  get_strain_by_identifier_operation beyond identifier category m =
  (let records := filter_category category (strains_rows m) in
   match List.find (id_matches identifier) records with
   | Some record => ret (PDict record)
   | None =>
       match List.find (name_matches identifier) records with
       | Some record => ret (PDict record)
       | None =>
           if has_wildcard identifier then
             match Re.compile beyond (wildcard_pattern identifier) with
             | None => raise re_error
             | Some regex =>
                 ret (of_option_row
                        (List.find (fun r => regex (Strains.Strain_Name r)) records))
             end
           else ret (of_option_row (List.find (name_contains identifier) records))
       end
   end) (served (served m)).
Proof.
  intros H. unfold get_strain_by_identifier_operation, bind.
  rewrite worksheet_reliable by auto.
  rewrite Strains_get_all_records_reliable by auto with served.
  now autorewrite with served.
Qed.

Lemma exception_safe_ret {A} (a : A) : exception_safe (ret a).
Proof. intros m r m' H [= <- <-]. auto. Qed.

Lemma exception_safe_raise {A} (e : exn) :
  is_Exception e = true -> exception_safe (@raise A e).
Proof. intros He m r m' H [= <- <-]. auto. Qed.

Lemma exception_safe_bind {A B} (c : M A) (k : A -> M B) :
  exception_safe c -> (forall a, exception_safe (k a)) ->
  exception_safe (bind c k).
Proof.
  intros Hc Hk m r m' H E. unfold bind in E.
  destruct (c m) as [[a|e] m1] eqn:Ec.
  - destruct (Hc _ _ _ H Ec) as [H1 _]. exact (Hk a _ _ _ H1 E).
  - injection E as <- <-. exact (Hc _ _ _ H Ec).
Qed.

Lemma exception_safe_try {A} (c : M A) (h : exn -> M A) :
  exception_safe c -> (forall e, exception_safe (h e)) ->
  exception_safe (try_except c h).
Proof.
  intros Hc Hh m r m' H E. unfold try_except in E.
  destruct (c m) as [[a|e] m1] eqn:Ec.
  - injection E as <- <-. exact (Hc _ _ _ H Ec).
  - destruct (Hc _ _ _ H Ec) as [H1 He]. rewrite He in E.
    exact (Hh e _ _ _ H1 E).
Qed.

Lemma exception_safe_api_call : exception_safe api_call.
Proof.
  intros m r m' H E.
  destruct (api_call_cases m) as [E'|(e & E' & _)].
  - rewrite E' in E. injection E as <- <-. auto with served.
  - pose proof (api_call_civil _ _ _ H E') as He.
    rewrite E' in E. injection E as <- <-. auto with served.
Qed.

(** Code that leaves the schedule of the remote alone and does not raise. *)
Lemma exception_safe_local {A} (c : M A) :
  (forall m, exists a m', c m = (Ok a, m') /\ remote m' = remote m) ->
  exception_safe c.
Proof.
  intros Hc m r m' H E. destruct (Hc m) as (a & m1 & E1 & Hr).
  rewrite E1 in E. injection E as <- <-. split; [|exact I].
  unfold civil. now rewrite Hr.
Qed.

Lemma exception_safe_worksheet name : exception_safe (worksheet name).
Proof.
  apply exception_safe_bind; [apply exception_safe_api_call|].
  intros _. apply exception_safe_ret.
Qed.

Lemma exception_safe_Strains_get_all_records :
  exception_safe Strains_get_all_records.
Proof.
  apply exception_safe_bind; [apply exception_safe_api_call|].
  intros _. apply exception_safe_local. intros m. now exists (strains_rows m), m.
Qed.

Lemma exception_safe_Ratings_get_all_records :
  exception_safe Ratings_get_all_records.
Proof.
  apply exception_safe_bind; [apply exception_safe_api_call|].
  intros _. apply exception_safe_local. intros m. now exists (ratings_rows m), m.
Qed.

Lemma exception_safe_Ratings_append_row r :
  exception_safe (Ratings_append_row r).
Proof.
  apply exception_safe_bind; [apply exception_safe_api_call|].
  intros _. apply exception_safe_local. intros m. now eexists _, _.
Qed.

Lemma exception_safe_Strains_update_cell i col v :
  exception_safe (Strains_update_cell i col v).
Proof.
  apply exception_safe_bind; [apply exception_safe_api_call|].
  intros _. apply exception_safe_local. intros m.
  eexists _, _. split; [reflexivity|]. now destruct (i <? 2)%nat.
Qed.

Lemma exception_safe_time_time : exception_safe time_time.
Proof. apply exception_safe_local. intros m. now eexists _, _. Qed.

Lemma exception_safe_clear_cache prefix : exception_safe (clear_cache prefix).
Proof.
  apply exception_safe_local. intros m. eexists _, _.
  split; [reflexivity|]. now destruct (Py.truthy_opt prefix).
Qed.

#[local] Hint Resolve exception_safe_ret exception_safe_worksheet
  exception_safe_Strains_get_all_records exception_safe_Ratings_get_all_records
  exception_safe_Ratings_append_row exception_safe_Strains_update_cell
  exception_safe_time_time exception_safe_clear_cache : served.

(** [safe_operation] hands a value back whatever its operation raised. *)
Lemma safe_operation_returns (operation : M pyval) m :
  exception_safe operation -> civil m ->
  exists v m', safe_operation operation m = (Ok v, m') /\ civil m'.
Proof.
  intros Hop H. rewrite safe_operation_run.
  destruct (operation (admitted m)) as [[v|e] m'] eqn:E;
    destruct (Hop _ _ _ (admitted_civil _ H) E) as [H' He].
  - now exists v, m'.
  - rewrite He. now exists PNone, m'.
Qed.

Lemma exception_safe_safe_operation (operation : M pyval) :
  exception_safe operation -> exception_safe (safe_operation operation).
Proof.
  intros Hop m r m' H E.
  destruct (safe_operation_returns operation m Hop H) as (v & m1 & E1 & H1).
  rewrite E1 in E. injection E as <- <-. auto.
Qed.

Lemma cached_operation_returns key (operation : M pyval) d m :
  exception_safe operation -> civil m ->
  exists v m', cached_operation key operation d m = (Ok v, m') /\ civil m'.
Proof.
  intros Hop H. unfold cached_operation.
  destruct (cache_hit key (duration_or_ttl d) m) as [data|]; [now exists data, m|].
  unfold bind.
  destruct (safe_operation_returns operation m Hop H) as (v & m1 & E1 & H1).
  rewrite E1. destruct v; try (eexists _, _; split; [reflexivity|exact H1]).
Qed.

Lemma exception_safe_cached_operation key (operation : M pyval) d :
  exception_safe operation -> exception_safe (cached_operation key operation d).
Proof.
  intros Hop m r m' H E.
  destruct (cached_operation_returns key operation d m Hop H) as (v & m1 & E1 & H1).
  rewrite E1 in E. injection E as <- <-. auto.
Qed.

Lemma exception_safe_get_strain_by_identifier_operation beyond identifier category :
  exception_safe (get_strain_by_identifier_operation beyond identifier category).
Proof.
  unfold get_strain_by_identifier_operation.
  apply exception_safe_bind; [auto with served|]. intros _.
  apply exception_safe_bind; [auto with served|]. intros records.
  destruct (List.find _ _); [auto with served|].
  destruct (List.find _ _); [auto with served|].
  destruct (has_wildcard identifier); [|auto with served].
  destruct (Re.compile _ _); [auto with served|].
  now apply exception_safe_raise.
Qed.

(** C5. [get_strain_by_identifier] resolves an identifier, among the rows
    of the requested category, in this order: the first row whose unique
    id equals it up to letter case; failing that, the first row whose name
    equals it up to letter case; failing that, if it holds [*] or [?], the
    first row whose name the case-insensitive wildcard regex finds a match
    in, and otherwise the first row whose name contains it up to letter
    case. It answers with that row, or with [None] when no row qualifies.
    The public call gives this answer whenever the cache holds no fresh
    one ([None] if the regex does not compile), and it never raises. *)
Theorem get_strain_by_identifier_priority
    (beyond : string -> option (string -> bool))
    (identifier : string) (category : option string) (m : manager) :
  reliable m ->
  let records := filter_category category (strains_rows m) in
  let answer :=
    fst (get_strain_by_identifier_operation beyond identifier category m) in
  let no_id := Forall (fun r => id_matches identifier r = false) records in
  let no_name := Forall (fun r => name_matches identifier r = false) records in
  (forall r, first_such (id_matches identifier) records r -> answer = Ok (PDict r)) /\
  (no_id ->
   forall r, first_such (name_matches identifier) records r ->
             answer = Ok (PDict r)) /\
  (no_id -> no_name -> has_wildcard identifier = true ->
   forall regex, Re.compile beyond (wildcard_pattern identifier) = Some regex ->
     (forall r, first_such (fun x => regex (Strains.Strain_Name x)) records r ->
                answer = Ok (PDict r)) /\
     (Forall (fun x => regex (Strains.Strain_Name x) = false) records ->
      answer = Ok PNone)) /\
  (no_id -> no_name -> has_wildcard identifier = false ->
     (forall r, first_such (name_contains identifier) records r ->
                answer = Ok (PDict r)) /\
     (Forall (fun x => name_contains identifier x = false) records ->
      answer = Ok PNone)) /\
  (cache_hit (strain_search_key identifier category) 60 m = None ->
   fst (get_strain_by_identifier beyond identifier category m)
   = match answer with Ok v => Ok v | Raise _ => Ok PNone end) /\
  (forall m0, civil m0 ->
     exists v, fst (get_strain_by_identifier beyond identifier category m0) = Ok v).
Proof.
  intros H records answer no_id no_name. subst answer.
  rewrite (get_strain_by_identifier_operation_reliable _ _ _ _ H).
  fold records. cbv zeta.
  split; [|split; [|split; [|split; [|split]]]].
  - intros r Hr. apply find_first_such in Hr. now rewrite Hr.
  - intros Hid r Hr. apply find_none_Forall in Hid. apply find_first_such in Hr.
    now rewrite Hid, Hr.
  - intros Hid Hname Hw regex Hre.
    apply find_none_Forall in Hid, Hname. rewrite Hid, Hname, Hw, Hre.
    split.
    + intros r Hr. apply find_first_such in Hr. now rewrite Hr.
    + intros Hno. apply find_none_Forall in Hno. now rewrite Hno.
  - intros Hid Hname Hw.
    apply find_none_Forall in Hid, Hname. rewrite Hid, Hname, Hw.
    split.
    + intros r Hr. apply find_first_such in Hr. now rewrite Hr.
    + intros Hno. apply find_none_Forall in Hno. now rewrite Hno.
  - intros Hmiss. unfold get_strain_by_identifier.
    rewrite cached_operation_miss by exact Hmiss.
    rewrite safe_operation_run.
    rewrite get_strain_by_identifier_operation_reliable by auto with served.
    autorewrite with served. fold records. cbv zeta.
    destruct (List.find (id_matches identifier) records); [reflexivity|].
    destruct (List.find (name_matches identifier) records); [reflexivity|].
    destruct (has_wildcard identifier).
    + destruct (Re.compile beyond (wildcard_pattern identifier)); [|reflexivity].
      now destruct (List.find _ records).
    + now destruct (List.find _ records).
  - intros m0 H0. unfold get_strain_by_identifier.
    destruct (cached_operation_returns
                (strain_search_key identifier category)
                (get_strain_by_identifier_operation beyond identifier category)
                (Some 60%Q) m0
                (exception_safe_get_strain_by_identifier_operation _ _ _) H0)
      as (v & m' & E & _).
    exists v. now rewrite E.
Qed.

Lemma get_strain_by_identifier_priority_witness :
  reliable Sample.sheet /\
  fst (get_strain_by_identifier_operation Sample.no_regex "blue dream" None
         Sample.sheet) = Ok (PDict Sample.blue_dream).
Proof.
  assert (H : reliable Sample.sheet) by (repeat constructor).
  split; [exact H|].
  refine (proj1 (proj2 (get_strain_by_identifier_priority Sample.no_regex
                          "blue dream" None Sample.sheet H)) _ _ _).
  - repeat constructor.
  - exists [Sample.blueberry], [Sample.sour_diesel].
    repeat split. repeat constructor.
Defined.

(** ** Wildcard search *)

Lemma append_nil (s : string) : "" ++ s = s.
Proof. reflexivity. Qed.

Lemma append_cons (c : ascii) (a s : string) :
  String c a ++ s = String c (a ++ s).
Proof. reflexivity. Qed.

Lemma search_spec re s :
  Re.search re s = true <->
  exists pre suf, s = pre ++ suf /\ Re.match_here re suf = true.
Proof.
  induction s as [|c r IH].
  - simpl. rewrite orb_false_r. split.
    + intros H. now exists "", "".
    + intros (pre & suf & E & H). destruct pre; [|discriminate].
      rewrite append_nil in E. now subst suf.
  - cbn [Re.search]. rewrite orb_true_iff, IH. split.
    + intros [H|(pre & suf & -> & H)].
      * now exists "", (String c r).
      * now exists (String c pre), suf.
    + intros (pre & suf & E & H). destruct pre as [|c' pre].
      * left. rewrite append_nil in E. now subst suf.
      * right. rewrite append_cons in E. injection E as -> ->. now exists pre, suf.
Qed.

Lemma lit_ok_iff (x c : ascii) :
  Re.lit_ok x c = true <-> Py.lower_char c = Py.lower_char x.
Proof.
  unfold Re.lit_ok. rewrite Ascii.eqb_eq. split; congruence.
Qed.

Lemma dot_ok_iff (c : ascii) : Re.dot_ok c = true <-> c <> Re.newline.
Proof.
  unfold Re.dot_ok. rewrite negb_true_iff.
  destruct (Ascii.eqb_spec c Re.newline); split; congruence.
Qed.

Lemma match_blue_dot (suf : string) :
  Re.match_here [Re.Lit "B"; Re.Lit "l"; Re.Lit "u"; Re.Lit "e"; Re.Dot] suf = true
  <-> exists word c post,
        suf = word ++ String c post /\ Py.lower word = "blue" /\ c <> Re.newline.
Proof.
  split.
  - intros H.
    destruct suf as [|c1 [|c2 [|c3 [|c4 [|c5 post]]]]]; simpl in H;
      rewrite ?andb_false_r in H; try discriminate.
    rewrite !andb_true_iff, !lit_ok_iff, dot_ok_iff in H.
    destruct H as (H1 & H2 & H3 & H4 & H5 & _).
    exists (String c1 (String c2 (String c3 (String c4 "")))), c5, post.
    split; [reflexivity|]. split; [|exact H5].
    unfold Py.lower. simpl. now rewrite H1, H2, H3, H4.
  - intros (word & c & post & -> & Hw & Hc).
    destruct word as [|c1 [|c2 [|c3 [|c4 [|c5 w]]]]]; try discriminate.
    unfold Py.lower in Hw. simpl in Hw. injection Hw as H1 H2 H3 H4.
    rewrite !append_cons, append_nil.
    simpl. rewrite !andb_true_iff, !lit_ok_iff, dot_ok_iff.
    repeat split; auto.
Qed.

(** C3, as the code has it. ["Blue*"] matches ["Blue Dream"] and
    ["Blueberry"] and not ["Sour Diesel"]. ["Blue?"] is searched for
    anywhere in the name: it matches exactly the names that hold "blue",
    in any letter case, followed by one more character that is not a line
    feed. So it matches every 5-character name that starts with "Blue",
    and longer names such as ["Blueberry"] as well; it does not match
    ["Blue"] itself. *)
Theorem wildcard_blue_matches (beyond : string -> option (string -> bool)) :
  exists star question : string -> bool,
    Re.compile beyond (wildcard_pattern "Blue*") = Some star /\
    Re.compile beyond (wildcard_pattern "Blue?") = Some question /\
    star "Blue Dream" = true /\
    star "Blueberry" = true /\
    star "Sour Diesel" = false /\
    (forall c : ascii,
       c <> Re.newline ->
       question (String "B" (String "l" (String "u" (String "e" (String c "")))))
       = true) /\
    (forall name : string,
       question name = true <->
       exists pre word c post,
         name = pre ++ word ++ String c post /\
         Py.lower word = "blue" /\ c <> Re.newline) /\
    question "Blueberry" = true /\
    question "Blue" = false.
Proof.
  exists (Re.search [Re.Lit "B"; Re.Lit "l"; Re.Lit "u"; Re.Lit "e"; Re.DotStar]).
  exists (Re.search [Re.Lit "B"; Re.Lit "l"; Re.Lit "u"; Re.Lit "e"; Re.Dot]).
  assert (Hq : forall name : string,
            Re.search [Re.Lit "B"; Re.Lit "l"; Re.Lit "u"; Re.Lit "e"; Re.Dot] name
            = true <->
            exists pre word c post,
              name = pre ++ word ++ String c post /\
              Py.lower word = "blue" /\ c <> Re.newline).
  { intros name. rewrite search_spec. split.
    - intros (pre & suf & -> & H). apply match_blue_dot in H
        as (word & c & post & -> & Hw & Hc).
      now exists pre, word, c, post.
    - intros (pre & word & c & post & -> & Hw & Hc).
      exists pre, (word ++ String c post). split; [reflexivity|].
      apply match_blue_dot. now exists word, c, post. }
  repeat (split; [reflexivity|]).
  split; [|split; [exact Hq | split; reflexivity]].
  intros c Hc. apply Hq. exists "", "Blue", c, "". now repeat split.
Qed.

(** The second half of C3 as it is worded fails: ["Blue?"] matches a name
    longer than five characters, in the regex and in both searches. *)
Lemma blue_question_matches_longer_name :
  (5 < String.length "Blueberry")%nat /\
  (exists regex,
     Re.compile Sample.no_regex (wildcard_pattern "Blue?") = Some regex /\
     regex "Blueberry" = true) /\
  fst (search_strains Sample.no_regex "Blue?" None Sample.sheet)
    = Ok (PList [Sample.blueberry; Sample.blue_dream]) /\
  fst (get_strain_by_identifier_operation Sample.no_regex "Blue?" None Sample.sheet)
    = Ok (PDict Sample.blueberry) /\
  ~ (forall regex name,
       Re.compile Sample.no_regex (wildcard_pattern "Blue?") = Some regex ->
       (5 < String.length name)%nat -> regex name = false).
Proof.
  split; [simpl; lia|].
  split; [eexists; split; reflexivity|].
  split; [reflexivity|]. split; [reflexivity|].
  intros H. specialize (H _ "Blueberry" eq_refl). simpl in H.
  assert (Hlt : (5 < 9)%nat) by lia. specialize (H Hlt). discriminate.
Qed.

(** ** Approval *)

Lemma enumerate_find_some {A} (p : A -> bool) (k : nat) (l : list A) (i : nat) :
  enumerate_find p k l = Some i <->
  exists l1 r l2, l = (l1 ++ r :: l2)%list /\ p r = true /\
                  Forall (fun x => p x = false) l1 /\ i = (k + length l1)%nat.
Proof.
  revert k. induction l as [|x l IH]; intros k; simpl.
  - split; [discriminate|]. intros (l1 & r & l2 & E & _). now destruct l1.
  - destruct (p x) eqn:Px.
    + split.
      * intros [= <-]. exists [], x, l. simpl. repeat split; auto.
      * intros (l1 & r & l2 & E & Hp & Hl & ->).
        destruct l1 as [|y l1]; simpl in E; injection E as -> _.
        -- simpl. f_equal. lia.
        -- inversion Hl; congruence.
    + rewrite IH. split.
      * intros (l1 & r & l2 & -> & Hp & Hl & ->).
        exists (x :: l1), r, l2. simpl. repeat split; auto; lia.
      * intros (l1 & r & l2 & E & Hp & Hl & ->).
        destruct l1 as [|y l1]; simpl in E; injection E as <- ->; [congruence|].
        exists l1, r, l2. simpl. repeat split; auto; try lia. now inversion Hl.
Qed.

Lemma enumerate_find_none {A} (p : A -> bool) (k : nat) (l : list A) :
  enumerate_find p k l = None <-> Forall (fun x => p x = false) l.
Proof.
  revert k. induction l as [|x l IH]; intros k; simpl.
  - split; auto.
  - destruct (p x) eqn:Px.
    + split; [discriminate|]. inversion 1; congruence.
    + rewrite IH. split; [now constructor | now inversion 1].
Qed.

Lemma alter_middle {A} (f : A -> A) (l1 : list A) (r : A) (l2 : list A) :
  alter f (length l1) (l1 ++ r :: l2)%list = (l1 ++ f r :: l2)%list.
Proof.
  replace (length l1) with (length l1 + 0)%nat by lia.
  now rewrite alter_app_r.
Qed.

Lemma clear_cache_run prefix m :
  exists m', clear_cache prefix m = (Ok tt, m') /\
             strains_rows m' = strains_rows m /\
             ratings_rows m' = ratings_rows m /\
             remote m' = remote m.
Proof.
  unfold clear_cache. eexists. split; [reflexivity|].
  now destruct (Py.truthy_opt prefix).
Qed.

Lemma approve_strain_none identifier m :
  reliable m ->
  enumerate_find (approvable identifier) 2 (strains_rows m) = None ->
  exists m', approve_strain identifier m = (Ok (PBool false), m') /\
             strains_rows m' = strains_rows m /\
             ratings_rows m' = ratings_rows m /\
             cache m' = cache m /\ reliable m'.
Proof.
  intros H E. unfold approve_strain, bind. rewrite safe_operation_run.
  unfold approve_strain_operation, bind.
  rewrite worksheet_reliable by auto with served.
  rewrite Strains_get_all_records_reliable by auto with served.
  autorewrite with served. rewrite E. cbn.
  eexists. split; [reflexivity|]. autorewrite with served.
  repeat split; auto with served.
Qed.

Lemma approve_strain_some identifier m i :
  reliable m ->
  enumerate_find (approvable identifier) 2 (strains_rows m) = Some i ->
  exists m', approve_strain identifier m = (Ok (PBool true), m') /\
             strains_rows m'
               = alter (set_column 3 (CStr "Approved")) (i - 2)%nat (strains_rows m) /\
             ratings_rows m' = ratings_rows m /\ reliable m'.
Proof.
  intros H E. unfold approve_strain, bind. rewrite safe_operation_run.
  unfold approve_strain_operation, bind.
  rewrite worksheet_reliable by auto with served.
  rewrite Strains_get_all_records_reliable by auto with served.
  autorewrite with served. rewrite E.
  unfold Strains_update_cell, bind.
  rewrite api_call_reliable by auto with served.
  assert (Hi : (i <? 2)%nat = false).
  { apply enumerate_find_some in E as (l1 & r & l2 & _ & _ & _ & ->).
    apply Nat.ltb_ge. lia. }
  rewrite Hi. cbn.
  eexists. split; [reflexivity|]. cbn. autorewrite with served.
  repeat split. unfold reliable. cbn.
  change (reliable (served (served (served (admitted m))))).
  auto with served.
Qed.

Lemma approvable_false identifier (r : Strains.row) :
  approvable identifier r = false <->
  (id_matches identifier r || name_matches identifier r = true ->
   Strains.Status r <> "Pending").
Proof.
  unfold approvable. rewrite andb_false_iff. split.
  - intros [H|H] Hm; [congruence|]. now apply String.eqb_neq.
  - intros H. destruct (id_matches identifier r || name_matches identifier r);
      [right | now left].
    apply String.eqb_neq. now apply H.
Qed.

(** C6. With the sheet reachable: [approve_strain] on an identifier whose
    matching items are all Approved already answers [False] and leaves the
    sheets and the cache as they were; so it does on an identifier that
    matches no item. On an identifier whose first matching Pending item is
    [r] (matched by unique id or by name, both up to letter case) it
    answers [True] and rewrites the status of that one row to Approved,
    every other row and every rating staying as it was; and once no
    Pending item matches any more, approving again answers [False] and
    changes nothing. *)
Theorem approve_strain_transitions (identifier : string) (m : manager) :
  reliable m ->
  let matched := fun r => id_matches identifier r || name_matches identifier r in
  let answer := fst (approve_strain identifier m) in
  let m' := snd (approve_strain identifier m) in
  ((forall r, In r (strains_rows m) -> matched r = true ->
              Strains.Status r = "Approved") ->
   answer = Ok (PBool false) /\ strains_rows m' = strains_rows m /\
   ratings_rows m' = ratings_rows m /\ cache m' = cache m) /\
  ((forall r, In r (strains_rows m) -> matched r = false) ->
   answer = Ok (PBool false) /\ strains_rows m' = strains_rows m /\
   ratings_rows m' = ratings_rows m /\ cache m' = cache m) /\
  (forall before r after,
     strains_rows m = (before ++ r :: after)%list ->
     matched r = true -> Strains.Status r = "Pending" ->
     Forall (fun x => matched x = true -> Strains.Status x <> "Pending") before ->
     answer = Ok (PBool true) /\
     strains_rows m' = (before ++ Strains.with_Status "Approved" r :: after)%list /\
     ratings_rows m' = ratings_rows m /\
     (Forall (fun x => matched x = true -> Strains.Status x <> "Pending") after ->
      fst (approve_strain identifier m') = Ok (PBool false) /\
      strains_rows (snd (approve_strain identifier m')) = strains_rows m')).
Proof.
  intros H matched answer m'. subst answer m'.
  assert (Hnone : Forall (fun x => matched x = true -> Strains.Status x <> "Pending")
                    (strains_rows m) ->
          fst (approve_strain identifier m) = Ok (PBool false) /\
          strains_rows (snd (approve_strain identifier m)) = strains_rows m /\
          ratings_rows (snd (approve_strain identifier m)) = ratings_rows m /\
          cache (snd (approve_strain identifier m)) = cache m).
  { intros Hall.
    destruct (approve_strain_none identifier m H) as (m1 & E & H1 & H2 & H3 & _).
    - apply enumerate_find_none. eapply Forall_impl; [exact Hall|].
      intros x Hx. now apply approvable_false.
    - now rewrite E. }
  split; [|split].
  - intros Hall. apply Hnone. apply Forall_forall. intros x Hx Hm.
    apply list_elem_of_In in Hx. rewrite (Hall x Hx Hm). discriminate.
  - intros Hall. apply Hnone. apply Forall_forall. intros x Hx Hm.
    apply list_elem_of_In in Hx. rewrite (Hall x Hx) in Hm. discriminate.
  - intros before r after Hrows Hm Hs Hbefore.
    assert (Hfind : enumerate_find (approvable identifier) 2 (strains_rows m)
                    = Some (2 + length before)%nat).
    { apply enumerate_find_some. exists before, r, after.
      split; [exact Hrows|]. split.
      - unfold approvable. fold (matched r). rewrite Hm, Hs. reflexivity.
      - split; [|reflexivity]. eapply Forall_impl; [exact Hbefore|].
        intros x Hx. now apply approvable_false. }
    destruct (approve_strain_some identifier m _ H Hfind) as (m1 & E & H1 & H2 & H3).
    rewrite E. cbn [fst snd].
    assert (Hrows1 : strains_rows m1
                     = (before ++ Strains.with_Status "Approved" r :: after)%list).
    { rewrite H1, Hrows.
      replace (2 + length before - 2)%nat with (length before) by lia.
      now rewrite alter_middle. }
    split; [reflexivity|]. split; [exact Hrows1|]. split; [exact H2|].
    intros Hafter.
    destruct (approve_strain_none identifier m1 H3) as (m2 & E2 & H4 & _).
    + apply enumerate_find_none. rewrite Hrows1.
      apply Forall_app. split; [|constructor].
      * eapply Forall_impl; [exact Hbefore|]. intros x Hx. now apply approvable_false.
      * apply approvable_false. intros _. discriminate.
      * eapply Forall_impl; [exact Hafter|]. intros x Hx. now apply approvable_false.
    + now rewrite E2.
Qed.

Lemma approve_strain_transitions_witness :
  reliable Sample.sheet /\
  fst (approve_strain "blueberry" Sample.sheet) = Ok (PBool true) /\
  strains_rows (snd (approve_strain "blueberry" Sample.sheet))
    = [Strains.with_Status "Approved" Sample.blueberry;
       Sample.blue_dream; Sample.sour_diesel].
Proof.
  assert (H : reliable Sample.sheet) by (repeat constructor).
  split; [exact H|].
  destruct (proj2 (proj2 (approve_strain_transitions "blueberry" Sample.sheet H))
              [] Sample.blueberry [Sample.blue_dream; Sample.sour_diesel])
    as (H1 & H2 & _).
  - reflexivity.
  - reflexivity.
  - reflexivity.
  - constructor.
  - split; [exact H1 | exact H2].
Defined.

(** ** Listing of the approved items *)

Lemma insert_desc_perm {A} (key : A -> Q) (x : A) (l : list A) :
  insert_desc key x l ≡ₚ x :: l.
Proof.
  induction l as [|y l IH]; simpl; [reflexivity|].
  destruct (Qltb (key x) (key y)); [|reflexivity].
  rewrite IH. apply Permutation_swap.
Qed.

Lemma sorted_desc_perm {A} (key : A -> Q) (l : list A) :
  sorted_desc key l ≡ₚ l.
Proof.
  induction l as [|x l IH]; simpl; [reflexivity|].
  rewrite insert_desc_perm. now rewrite IH.
Qed.

Lemma insert_desc_sorted {A} (key : A -> Q) (x : A) (l : list A) :
  descending_by key l -> descending_by key (insert_desc key x l).
Proof.
  unfold descending_by. induction 1 as [|y l Hs IH Hy]; simpl.
  - repeat constructor.
  - destruct (Qltb (key x) (key y)) eqn:E.
    + constructor; [exact IH|].
      rewrite insert_desc_perm. constructor; [|exact Hy].
      apply Qltb_true in E. now apply Qlt_le_weak.
    + apply Qltb_false in E. constructor; [now constructor|].
      constructor; [exact E|].
      eapply Forall_impl; [exact Hy|]. intros z Hz. simpl in *.
      now apply Qle_trans with (key y).
Qed.

Lemma sorted_desc_sorted {A} (key : A -> Q) (l : list A) :
  descending_by key (sorted_desc key l).
Proof.
  induction l as [|x l IH]; simpl; [constructor|].
  now apply insert_desc_sorted.
Qed.

Lemma insert_desc_front {A} (key : A -> Q) (x : A) (l : list A) :
  Forall (fun z => (key z <= key x)%Q) l -> insert_desc key x l = x :: l.
Proof.
  intros H. destruct H as [|z l Hz _]; [reflexivity|].
  cbn [insert_desc]. apply Qltb_false in Hz. now rewrite Hz.
Qed.

(** Filtering commutes with the stable sort. *)
Lemma filter_insert_desc {A} (key : A -> Q) (p : A -> bool) (x : A) (l : list A) :
  descending_by key l ->
  List.filter p (insert_desc key x l)
  = if p x then insert_desc key x (List.filter p l) else List.filter p l.
Proof.
  unfold descending_by. induction 1 as [|y l Hs IH Hy]; cbn [insert_desc List.filter].
  - now destruct (p x).
  - destruct (Qltb (key x) (key y)) eqn:E; cbn [List.filter].
    + rewrite IH. destruct (p y), (p x); cbn [insert_desc]; try rewrite E; reflexivity.
    + destruct (p x); [|reflexivity].
      symmetry. apply insert_desc_front.
      apply Qltb_false in E.
      assert (Hall : Forall (fun z => (key z <= key x)%Q) (y :: l)).
      { constructor; [exact E|]. eapply Forall_impl; [exact Hy|].
        intros z Hz. cbn in Hz. now apply Qle_trans with (key y). }
      apply Forall_forall. intros z Hz.
      rewrite Forall_forall in Hall. apply Hall.
      apply list_elem_of_In. apply list_elem_of_In in Hz.
      change (In z (List.filter p (y :: l))) in Hz.
      apply List.filter_In in Hz. tauto.
Qed.

(** The stable sort keeps the items of one key in the order they had. *)
Lemma sorted_desc_stable {A} (key : A -> Q) (q : Q) (l : list A) :
  List.filter (fun r => Qeq_bool (key r) q) (sorted_desc key l)
  = List.filter (fun r => Qeq_bool (key r) q) l.
Proof.
  induction l as [|x l IH]; [reflexivity|].
  cbn [sorted_desc fold_right]. fold (sorted_desc key l).
  rewrite filter_insert_desc by apply sorted_desc_sorted.
  rewrite IH. cbn [List.filter].
  destruct (Qeq_bool (key x) q) eqn:E; [|reflexivity].
  apply insert_desc_front. apply Forall_forall. intros z Hz.
  apply list_elem_of_In, List.filter_In in Hz as [_ Hz].
  apply Qeq_bool_iff in E. apply Qeq_bool_iff in Hz.
  rewrite E, Hz. apply Qle_refl.
Qed.

Lemma filter_split {A} (p : A -> bool) (l u rest : list A) (a : A) :
  List.filter p l = (u ++ a :: rest)%list ->
  exists k1 k2, l = (k1 ++ a :: k2)%list /\
                List.filter p k1 = u /\ List.filter p k2 = rest.
Proof.
  revert u. induction l as [|x l IH]; intros u H.
  - destruct u; discriminate.
  - cbn [List.filter] in H. destruct (p x) eqn:E.
    + destruct u as [|y u]; cbn [app] in H; injection H as -> H.
      * exists [], l. now split.
      * destruct (IH u H) as (k1 & k2 & -> & H1 & H2).
        exists (y :: k1), k2. split; [reflexivity|]. split; [|exact H2].
        cbn [List.filter]. now rewrite E, H1.
    + destruct (IH u H) as (k1 & k2 & -> & H1 & H2).
      exists (x :: k1), k2. split; [reflexivity|]. split; [|exact H2].
      cbn [List.filter]. now rewrite E.
Qed.

(** Two items with the same key come out of the sort in the order they
    went in. *)
Lemma sorted_desc_keeps_order {A} (key : A -> Q) (l before between after : list A)
    (a b : A) :
  l = (before ++ a :: between ++ b :: after)%list ->
  (key a == key b)%Q ->
  exists l1 l2 l3, sorted_desc key l = (l1 ++ a :: l2 ++ b :: l3)%list.
Proof.
  intros Hl Hab.
  pose proof (sorted_desc_stable key (key a) l) as Hst.
  rewrite Hl in Hst at 2.
  rewrite List.filter_app in Hst. cbn [List.filter] in Hst.
  assert (Ea : Qeq_bool (key a) (key a) = true) by (apply Qeq_bool_iff; reflexivity).
  rewrite Ea in Hst.
  rewrite List.filter_app in Hst. cbn [List.filter] in Hst.
  assert (Eb : Qeq_bool (key b) (key a) = true)
    by (apply Qeq_bool_iff; now symmetry).
  rewrite Eb in Hst.
  apply filter_split in Hst as (l1 & k & Hk & _ & Hst).
  apply filter_split in Hst as (l2 & l3 & -> & _ & _).
  now exists l1, l2, l3.
Qed.

(** Inserting a rated item among rated items followed by unrated ones. *)
Lemma insert_rated (x : Strains.row) (S U : list Strains.row) :
  rated x = true -> (-1 < Strains.Average_Rating x)%Q ->
  Forall (fun y => rated y = true) S -> Forall (fun y => rated y = false) U ->
  insert_desc sort_key x (S ++ U)
  = (insert_desc Strains.Average_Rating x S ++ U)%list.
Proof.
  intros Hx Hlow HS HU.
  assert (Kx : sort_key x = Strains.Average_Rating x).
  { unfold sort_key. unfold rated in Hx. now rewrite Hx. }
  induction HS as [|y S Hy HS IH]; simpl.
  - destruct HU as [|u U Hu HU]; simpl; [reflexivity|].
    assert (Ku : sort_key u = (-1)%Q).
    { unfold sort_key. unfold rated in Hu. now rewrite Hu. }
    rewrite Kx, Ku.
    assert (E : Qltb (Strains.Average_Rating x) (-1) = false).
    { apply Qltb_false. now apply Qlt_le_weak. }
    now rewrite E.
  - assert (Ky : sort_key y = Strains.Average_Rating y).
    { unfold sort_key. unfold rated in Hy. now rewrite Hy. }
    rewrite Kx, Ky.
    destruct (Qltb (Strains.Average_Rating x) (Strains.Average_Rating y));
      [|reflexivity].
    now rewrite IH.
Qed.

(** Inserting an unrated item: it goes in front of the unrated ones. *)
Lemma insert_unrated (x : Strains.row) (S U : list Strains.row) :
  rated x = false ->
  Forall (fun y => rated y = true /\ (-1 < Strains.Average_Rating y)%Q) S ->
  Forall (fun y => rated y = false) U ->
  insert_desc sort_key x (S ++ U) = (S ++ x :: U)%list.
Proof.
  intros Hx HS HU.
  assert (Kx : sort_key x = (-1)%Q).
  { unfold sort_key. unfold rated in Hx. now rewrite Hx. }
  induction HS as [|y S [Hy Hlow] HS IH]; simpl.
  - destruct HU as [|u U Hu HU]; simpl; [reflexivity|].
    assert (Ku : sort_key u = (-1)%Q).
    { unfold sort_key. unfold rated in Hu. now rewrite Hu. }
    rewrite Kx, Ku. reflexivity.
  - assert (Ky : sort_key y = Strains.Average_Rating y).
    { unfold sort_key. unfold rated in Hy. now rewrite Hy. }
    rewrite Kx, Ky.
    assert (E : Qltb (-1) (Strains.Average_Rating y) = true)
      by now apply Qltb_true.
    rewrite E. now rewrite IH.
Qed.

(** Rated items first, by average; unrated items after them, in the order
    of the sheet. *)
Lemma sorted_desc_rated_first (l : list Strains.row) :
  Forall (fun r => rated r = true -> (-1 < Strains.Average_Rating r)%Q) l ->
  sorted_desc sort_key l
  = (sorted_desc Strains.Average_Rating (List.filter rated l)
     ++ List.filter (fun r => negb (rated r)) l)%list.
Proof.
  induction 1 as [|x l Hx Hl IH]; [reflexivity|].
  cbn [sorted_desc fold_right]. fold (sorted_desc sort_key l). rewrite IH.
  assert (HS : Forall (fun y => rated y = true /\ (-1 < Strains.Average_Rating y)%Q)
                 (sorted_desc Strains.Average_Rating (List.filter rated l))).
  { rewrite sorted_desc_perm. apply Forall_forall. intros y Hy.
    apply list_elem_of_In, filter_In in Hy as [Hy Hr]. split; [exact Hr|].
    rewrite Forall_forall in Hl. apply Hl; [|exact Hr]. now apply list_elem_of_In. }
  assert (HU : Forall (fun y => rated y = false)
                 (List.filter (fun r => negb (rated r)) l)).
  { apply Forall_forall. intros y Hy.
    apply list_elem_of_In, filter_In in Hy as [_ Hr]. now apply negb_true_iff. }
  cbn [List.filter]. destruct (rated x) eqn:Rx; cbn [negb].
  - rewrite insert_rated; auto.
    eapply Forall_impl; [exact HS|]. now intros y [Hy _].
  - now rewrite insert_unrated.
Qed.

Lemma get_all_approved_strains_operation_reliable category m :
  reliable m ->
  get_all_approved_strains_operation category m
  = (Ok (PList (sorted_desc sort_key (approved_in category (strains_rows m)))),
     served (served m)).
Proof.
  intros H. unfold get_all_approved_strains_operation, bind.
  rewrite worksheet_reliable by auto.
  rewrite Strains_get_all_records_reliable by auto with served.
  now autorewrite with served.
Qed.

Lemma py_or_list (l : list Strains.row) : py_or (PList l) (PList []) = PList l.
Proof. now destruct l. Qed.

(** The public listing when the cache has no fresh entry for it. *)
Lemma get_all_approved_strains_miss category m :
  reliable m ->
  cache_hit ("all_approved_strains_" ++ category_or_all category) 120 m = None ->
  fst (get_all_approved_strains category m)
  = Ok (PList (sorted_desc sort_key (approved_in category (strains_rows m)))).
Proof.
  intros H Hmiss. unfold get_all_approved_strains, bind.
  rewrite cached_operation_miss by exact Hmiss.
  rewrite safe_operation_run.
  rewrite get_all_approved_strains_operation_reliable by auto with served.
  autorewrite with served. cbn. now rewrite py_or_list.
Qed.

Lemma approved_in_spec category records r :
  In r (approved_in category records) <->
  In r records /\ Strains.Status r = "Approved" /\
  (Py.truthy_opt category = true ->
   Py.lower (Strains.Category r) = Py.lower (default "" category)).
Proof.
  unfold approved_in, filter_category.
  destruct (Py.truthy_opt category).
  - rewrite !filter_In, !String.eqb_eq. intuition.
  - rewrite filter_In, String.eqb_eq. intuition. discriminate.
Qed.

(** C7, as the code has it. With the sheet reachable,
    [get_all_approved_strains] lists exactly the Approved items (of the
    requested category, if one is given), each once, in descending order
    of the sort key, an item passing before another only if its key is not
    smaller: items with equal averages follow one another, so the order is
    not strict, and they do so in sheet order, the sort being stable: for
    every key, the items of that key are listed in the order of the sheet,
    and of two items with the same key the one that comes first on the
    sheet comes first in the listing. An item without ratings has key -1
    whatever average its
    row stores; hence, the averages of rated items being above -1 (they
    are averages of ratings between 1 and 10), the listing consists of the
    rated items in descending order of average followed by all the items
    without ratings. The public call answers with this listing whenever
    the cache holds no fresh listing for the category. *)
Theorem get_all_approved_strains_order (category : option string) (m : manager) :
  reliable m ->
  let approved := approved_in category (strains_rows m) in
  exists listing,
    fst (get_all_approved_strains_operation category m) = Ok (PList listing) /\
    listing ≡ₚ approved /\
    (forall r, In r approved <->
       In r (strains_rows m) /\ Strains.Status r = "Approved" /\
       (Py.truthy_opt category = true ->
        Py.lower (Strains.Category r) = Py.lower (default "" category))) /\
    descending_by sort_key listing /\
    (forall q : Q,
       List.filter (fun r => Qeq_bool (sort_key r) q) listing
       = List.filter (fun r => Qeq_bool (sort_key r) q) approved) /\
    (forall before a between b after,
       approved = (before ++ a :: between ++ b :: after)%list ->
       (sort_key a == sort_key b)%Q ->
       exists l1 l2 l3, listing = (l1 ++ a :: l2 ++ b :: l3)%list) /\
    (forall before a between b after,
       approved = (before ++ a :: between ++ b :: after)%list ->
       rated a = true -> rated b = true ->
       (Strains.Average_Rating a == Strains.Average_Rating b)%Q ->
       exists l1 l2 l3, listing = (l1 ++ a :: l2 ++ b :: l3)%list) /\
    (Forall (fun r => rated r = true -> (-1 < Strains.Average_Rating r)%Q) approved ->
     exists rated_part,
       listing = (rated_part ++ List.filter (fun r => negb (rated r)) approved)%list /\
       rated_part ≡ₚ List.filter rated approved /\
       descending_by Strains.Average_Rating rated_part) /\
    (cache_hit ("all_approved_strains_" ++ category_or_all category) 120 m = None ->
     fst (get_all_approved_strains category m) = Ok (PList listing)).
Proof.
  intros H approved.
  exists (sorted_desc sort_key approved).
  split; [now rewrite get_all_approved_strains_operation_reliable|].
  split; [apply sorted_desc_perm|].
  split; [intros r; apply approved_in_spec|].
  split; [apply sorted_desc_sorted|].
  split; [intros q; apply sorted_desc_stable|].
  split.
  { intros before a between b after Hl Hab.
    now apply (sorted_desc_keeps_order sort_key approved before between after a b). }
  split.
  { intros before a between b after Hl Ha Hb Hab.
    apply (sorted_desc_keeps_order sort_key approved before between after a b Hl).
    unfold sort_key. unfold rated in Ha, Hb. now rewrite Ha, Hb. }
  split; [|now apply get_all_approved_strains_miss].
  intros Hlow.
  exists (sorted_desc Strains.Average_Rating (List.filter rated approved)).
  split; [now apply sorted_desc_rated_first|].
  split; [apply sorted_desc_perm | apply sorted_desc_sorted].
Qed.

Lemma get_all_approved_strains_order_witness :
  reliable Sample.sheet /\
  exists listing,
    fst (get_all_approved_strains_operation None Sample.sheet) = Ok (PList listing) /\
    listing ≡ₚ [Sample.blue_dream; Sample.sour_diesel].
Proof.
  assert (H : reliable Sample.sheet) by (repeat constructor).
  split; [exact H|].
  destruct (get_all_approved_strains_order None Sample.sheet H)
    as (listing & E & Hp & _).
  exists listing. split; [exact E | exact Hp].
Defined.

(** C7 as it is worded fails on ties: two Approved items with the same
    average are listed one after the other, so the listing is not strictly
    descending by average rating. *)
Lemma listing_not_strictly_descending :
  fst (get_all_approved_strains_operation None Ties.sheet)
    = Ok (PList [Ties.og_kush; Ties.amnesia]) /\
  fst (get_all_approved_strains None Ties.sheet)
    = Ok (PList [Ties.og_kush; Ties.amnesia]) /\
  rated Ties.og_kush = true /\ rated Ties.amnesia = true /\
  ~ strictly_descending_by Strains.Average_Rating [Ties.og_kush; Ties.amnesia].
Proof.
  split; [reflexivity|]. split; [vm_compute; reflexivity|].
  split; [reflexivity|]. split; [reflexivity|].
  intros Hs. inversion Hs as [|a l _ Hall]; subst.
  inversion Hall as [|b l' Hlt _]; subst.
  now apply Qlt_irrefl in Hlt.
Qed.

(** ** Rating *)

Lemma bind_ok_inv {A B} (c : M A) (k : A -> M B) m b m' :
  bind c k m = (Ok b, m') ->
  exists a m1, c m = (Ok a, m1) /\ k a m1 = (Ok b, m').
Proof.
  unfold bind. destruct (c m) as [[a|e] m1]; [|discriminate].
  intros H. now exists a, m1.
Qed.

Lemma api_call_ok_inv m a m1 : api_call m = (Ok a, m1) -> m1 = served m.
Proof.
  intros H. destruct (api_call_cases m) as [E|(e & E & _)]; rewrite E in H.
  - now injection H as _ <-.
  - discriminate.
Qed.

Lemma worksheet_ok_inv name m a m1 :
  worksheet name m = (Ok a, m1) -> m1 = served m.
Proof.
  intros H. apply bind_ok_inv in H as (x & m0 & E & H).
  apply api_call_ok_inv in E. injection H as _ <-. exact E.
Qed.

Lemma Strains_get_all_records_ok_inv m a m1 :
  Strains_get_all_records m = (Ok a, m1) ->
  a = strains_rows m /\ m1 = served m.
Proof.
  intros H. apply bind_ok_inv in H as (x & m0 & E & H).
  apply api_call_ok_inv in E. injection H as <- <-. subst m0.
  now autorewrite with served.
Qed.

Lemma Ratings_get_all_records_ok_inv m a m1 :
  Ratings_get_all_records m = (Ok a, m1) ->
  a = ratings_rows m /\ m1 = served m.
Proof.
  intros H. apply bind_ok_inv in H as (x & m0 & E & H).
  apply api_call_ok_inv in E. injection H as <- <-. subst m0.
  now autorewrite with served.
Qed.

Lemma Ratings_append_row_ok_inv r m a m1 :
  Ratings_append_row r m = (Ok a, m1) ->
  strains_rows m1 = strains_rows m /\
  ratings_rows m1 = (ratings_rows m ++ [r])%list /\
  cache m1 = cache m.
Proof.
  intros H. apply bind_ok_inv in H as (x & m0 & E & H).
  apply api_call_ok_inv in E. injection H as _ <-. subst m0.
  cbn. now autorewrite with served.
Qed.

Lemma Strains_update_cell_ok_inv i col v m a m1 :
  (2 <= i)%nat ->
  Strains_update_cell i col v m = (Ok a, m1) ->
  strains_rows m1 = alter (set_column col v) (i - 2)%nat (strains_rows m) /\
  ratings_rows m1 = ratings_rows m /\
  cache m1 = cache m.
Proof.
  intros Hi H. apply bind_ok_inv in H as (x & m0 & E & H).
  apply api_call_ok_inv in E. injection H as _ <-. subst m0.
  assert (Hlt : (i <? 2)%nat = false) by (apply Nat.ltb_ge; lia).
  rewrite Hlt. cbn. now autorewrite with served.
Qed.

(** The two cell updates of [_add_rating_operation] amount to
    [write_aggregate]. *)
Lemma alter_write_aggregate uid avg total rows i :
  enumerate_find (fun s => String.eqb (Strains.Unique_ID s) uid) 2 rows = Some i ->
  alter (set_column 5 (CInt total)) (i - 2)%nat
    (alter (set_column 4 (CNum avg)) (i - 2)%nat rows)
  = write_aggregate uid avg total rows.
Proof.
  intros H. apply enumerate_find_some in H as (l1 & r & l2 & -> & Hr & Hl & ->).
  replace (2 + length l1 - 2)%nat with (length l1) by lia.
  rewrite alter_middle, alter_middle.
  clear - Hr Hl. induction Hl as [|x l1 Hx Hl IH]; cbn [write_aggregate app].
  - now rewrite Hr.
  - rewrite Hx. now rewrite IH.
Qed.

Lemma write_aggregate_absent uid avg total rows :
  enumerate_find (fun s => String.eqb (Strains.Unique_ID s) uid) 2 rows = None ->
  write_aggregate uid avg total rows = rows.
Proof.
  intros H. apply enumerate_find_none in H.
  induction H as [|x l Hx Hl IH]; simpl; [reflexivity|].
  rewrite Hx. now rewrite IH.
Qed.

(** What a successful run of [_add_rating_operation] did. *)
Lemma _add_rating_operation_true identifier user_id rating username category m v m' :
  _add_rating_operation identifier user_id rating username category m = (Ok v, m') ->
  truthy v = true ->
  exists strain_data date,
    rated_strain identifier (filter_category category (strains_rows m))
      = Some strain_data /\
    Strains.Status strain_data = "Approved" /\
    already_rated (Strains.Unique_ID strain_data) user_id (ratings_rows m) = false /\
    ratings_rows m'
      = (ratings_rows m
         ++ [Ratings.Row (Z.of_nat (length (ratings_rows m)) + 1)
               (Strains.Unique_ID strain_data)
               (_format_user_id_for_sheets user_id) rating date
               (_sanitize_username username)])%list /\
    (let rs := (ratings_of (Strains.Unique_ID strain_data) (ratings_rows m)
                ++ [rating])%list in
     strains_rows m'
       = write_aggregate (Strains.Unique_ID strain_data)
           (py_round2 (py_truediv (sum_Z rs) (Z.of_nat (length rs))))
           (Z.of_nat (length rs)) (strains_rows m)) /\
    cache m' = cache m.
Proof.
  intros H Hv. unfold _add_rating_operation, try_except in H.
  match type of H with
  | match ?c m with _ => _ end = _ => destruct (c m) as [[v0|e] m0] eqn:Hc
  end.
  2:{ destruct (is_Exception e); [|discriminate].
      injection H as <- _. discriminate. }
  injection H as -> ->.
  apply bind_ok_inv in Hc as (s1 & m1 & E1 & Hc). apply worksheet_ok_inv in E1.
  apply bind_ok_inv in Hc as (s2 & m2 & E2 & Hc). apply worksheet_ok_inv in E2.
  apply bind_ok_inv in Hc as (ratings & m3 & E3 & Hc).
  apply Ratings_get_all_records_ok_inv in E3 as [-> E3].
  apply bind_ok_inv in Hc as (strains & m4 & E4 & Hc).
  apply Strains_get_all_records_ok_inv in E4 as [-> E4].
  subst m1 m2 m3 m4. autorewrite with served in Hc.
  destruct (rated_strain identifier _) as [strain_data|] eqn:Hfind.
  2:{ injection Hc as <- _. discriminate. }
  destruct (String.eqb (Strains.Status strain_data) "Approved") eqn:Hst; cbn [negb] in Hc.
  2:{ injection Hc as <- _. discriminate. }
  destruct (already_rated _ user_id (ratings_rows m)) eqn:Hdup.
  { injection Hc as <- _. discriminate. }
  apply bind_ok_inv in Hc as (date & m5 & E5 & Hc).
  injection E5 as _ <-.
  apply bind_ok_inv in Hc as (u6 & m6 & E6 & Hc).
  apply Ratings_append_row_ok_inv in E6 as (S6 & R6 & C6).
  apply bind_ok_inv in Hc as (records & m7 & E7 & Hc).
  apply Strains_get_all_records_ok_inv in E7 as [-> E7]. subst m7.
  autorewrite with served in S6, R6, C6.
  exists strain_data, date.
  split; [reflexivity|]. split; [now apply String.eqb_eq|]. split; [exact Hdup|].
  fold (ratings_of (Strains.Unique_ID strain_data) (ratings_rows m)) in Hc.
  rewrite S6 in Hc.
  destruct (enumerate_find _ 2 (strains_rows m)) as [i|] eqn:Hi.
  - assert (Hge : (2 <= i)%nat).
    { apply enumerate_find_some in Hi as (l1 & r & l2 & _ & _ & _ & ->). lia. }
    apply bind_ok_inv in Hc as (u8 & m8 & E8 & Hc).
    apply (Strains_update_cell_ok_inv _ _ _ _ _ _ Hge) in E8 as (S8 & R8 & C8).
    apply bind_ok_inv in Hc as (u9 & m9 & E9 & Hc).
    apply (Strains_update_cell_ok_inv _ _ _ _ _ _ Hge) in E9 as (S9 & R9 & C9).
    injection Hc as _ <-.
    autorewrite with served in S8, R8, C8.
    split; [now rewrite R9, R8|]. split; [|now rewrite C9, C8].
    cbv zeta. rewrite S9, S8, S6. now apply alter_write_aggregate.
  - injection Hc as _ <-. autorewrite with served.
    split; [exact R6|]. split; [|exact C6].
    cbv zeta. rewrite S6. symmetry. now apply write_aggregate_absent.
Qed.

(** What a successful [add_rating] did to the two sheets. *)
Lemma add_rating_true identifier user_id rating username category m v m' :
  add_rating identifier user_id rating username category m = (Ok v, m') ->
  truthy v = true ->
  exists strain_data date,
    rated_strain identifier (filter_category category (strains_rows m))
      = Some strain_data /\
    Strains.Status strain_data = "Approved" /\
    already_rated (Strains.Unique_ID strain_data) user_id (ratings_rows m) = false /\
    ratings_rows m'
      = (ratings_rows m
         ++ [Ratings.Row (Z.of_nat (length (ratings_rows m)) + 1)
               (Strains.Unique_ID strain_data)
               (_format_user_id_for_sheets user_id) rating date
               (_sanitize_username username)])%list /\
    (let rs := (ratings_of (Strains.Unique_ID strain_data) (ratings_rows m)
                ++ [rating])%list in
     strains_rows m'
       = write_aggregate (Strains.Unique_ID strain_data)
           (py_round2 (py_truediv (sum_Z rs) (Z.of_nat (length rs))))
           (Z.of_nat (length rs)) (strains_rows m)).
Proof.
  intros H Hv. unfold add_rating in H.
  apply bind_ok_inv in H as (result & m1 & E & H).
  assert (Hr : truthy result = true).
  { destruct (truthy result) eqn:T; [reflexivity|]. injection H as -> _. congruence. }
  rewrite Hr in H.
  apply bind_ok_inv in H as (u1 & n1 & C1 & H).
  apply bind_ok_inv in H as (u2 & n2 & C2 & H).
  apply bind_ok_inv in H as (u3 & n3 & C3 & H).
  injection H as _ <-.
  destruct (clear_cache_run (Some "strain_") m1) as (x1 & X1 & S1 & R1 & _).
  rewrite X1 in C1. injection C1 as _ <-.
  destruct (clear_cache_run (Some "all_approved_strains") x1) as (x2 & X2 & S2 & R2 & _).
  rewrite X2 in C2. injection C2 as _ <-.
  destruct (clear_cache_run (Some "top_strains") x2) as (x3 & X3 & S3 & R3 & _).
  rewrite X3 in C3. injection C3 as _ <-.
  rewrite safe_operation_run in E.
  destruct (_add_rating_operation _ _ _ _ _ (admitted m)) as [[v0|e] m0] eqn:Hop.
  2:{ destruct (is_Exception e); [|discriminate].
      injection E as <- _. discriminate. }
  injection E as -> ->.
  destruct (_add_rating_operation_true _ _ _ _ _ _ _ _ Hop Hr)
    as (strain_data & date & F1 & F2 & F3 & F4 & F5 & _).
  autorewrite with served in F1, F3, F4, F5.
  exists strain_data, date.
  split; [exact F1|]. split; [exact F2|]. split; [exact F3|].
  split; [now rewrite R3, R2, R1 | now cbv zeta; rewrite S3, S2, S1].
Qed.

Lemma ratings_of_app uid (l1 l2 : list Ratings.row) :
  ratings_of uid (l1 ++ l2) = (ratings_of uid l1 ++ ratings_of uid l2)%list.
Proof. unfold ratings_of. now rewrite List.filter_app, List.map_app. Qed.

Lemma write_aggregate_ids uid avg total rows :
  List.map Strains.Unique_ID (write_aggregate uid avg total rows)
  = List.map Strains.Unique_ID rows.
Proof.
  induction rows as [|r rest IH]; simpl; [reflexivity|].
  destruct (String.eqb (Strains.Unique_ID r) uid); simpl; [reflexivity|].
  now rewrite IH.
Qed.

Lemma write_aggregate_unique uid avg total rows item :
  NoDup (List.map Strains.Unique_ID rows) ->
  In item (write_aggregate uid avg total rows) ->
  Strains.Unique_ID item = uid ->
  Strains.Average_Rating item = avg /\ Strains.Total_Ratings item = total.
Proof.
  induction rows as [|r rest IH]; simpl; [easy|].
  intros Hnd Hin Hid. apply NoDup_cons in Hnd as [Hr Hnd].
  destruct (String.eqb_spec (Strains.Unique_ID r) uid) as [E|E].
  - destruct Hin as [<-|Hin]; [now split|].
    exfalso. apply Hr. apply list_elem_of_In, in_map_iff.
    exists item. split; [congruence | exact Hin].
  - destruct Hin as [<-|Hin]; [congruence|]. now apply IH.
Qed.

Lemma write_aggregate_present uid avg total rows r :
  In r rows -> Strains.Unique_ID r = uid ->
  exists item, In item (write_aggregate uid avg total rows) /\
               Strains.Unique_ID item = uid.
Proof.
  induction rows as [|x rest IH]; simpl; [easy|].
  intros Hin Hid.
  destruct (String.eqb_spec (Strains.Unique_ID x) uid) as [E|E].
  - eexists. split; [now left | exact E].
  - destruct Hin as [->|Hin]; [congruence|].
    destruct (IH Hin Hid) as (item & H1 & H2). exists item. split; [now right | exact H2].
Qed.

Lemma filter_category_In category records r :
  In r (filter_category category records) -> In r records.
Proof.
  unfold filter_category. destruct (Py.truthy_opt category); [|easy].
  intros H. now apply filter_In in H.
Qed.

Lemma rated_strain_In identifier category records strain_data :
  rated_strain identifier (filter_category category records) = Some strain_data ->
  In strain_data records.
Proof.
  intros H. apply find_some in H as [H _]. now apply filter_category_In in H.
Qed.

(** The state kept by a run of rating calls for the item [uid]. *)
Lemma rated_by_calls_invariant uid m rs m' :
  NoDup (List.map Strains.Unique_ID (strains_rows m)) ->
  ratings_of uid (ratings_rows m) = [] ->
  rated_by_calls uid m rs m' ->
  NoDup (List.map Strains.Unique_ID (strains_rows m')) /\
  ratings_of uid (ratings_rows m') = rs /\
  (rs <> [] ->
   (exists item, In item (strains_rows m') /\ Strains.Unique_ID item = uid) /\
   (forall item,
      In item (strains_rows m') -> Strains.Unique_ID item = uid ->
      Strains.Average_Rating item
        = py_round2 (py_truediv (sum_Z rs) (Z.of_nat (length rs))) /\
      Strains.Total_Ratings item = Z.of_nat (length rs))).
Proof.
  intros Hnd Hnone Hrun.
  induction Hrun as [m | m rs m1 m2 Hrun IH HS HR
                    | m rs m1 m2 identifier user_id rating username category
                        strain_data v Hrun IH Hfind Huid Hcall Hv].
  - split; [exact Hnd|]. split; [exact Hnone|]. congruence.
  - rewrite HS, HR. now apply IH.
  - destruct (IH Hnd Hnone) as (Hnd1 & Hrs & _).
    destruct (add_rating_true _ _ _ _ _ _ _ _ Hcall Hv)
      as (sd & date & F1 & _ & _ & F4 & F5).
    rewrite Hfind in F1. injection F1 as <-.
    rewrite Huid in F4, F5. rewrite Hrs in F5. cbv zeta in F5.
    split; [|split].
    + rewrite F5, write_aggregate_ids. exact Hnd1.
    + rewrite F4, ratings_of_app, Hrs. f_equal.
      unfold ratings_of. simpl. now rewrite String.eqb_refl.
    + intros _. rewrite F5. split.
      * apply write_aggregate_present with (r := strain_data); [|exact Huid].
        now apply rated_strain_In in Hfind.
      * intros item Hin Hid.
        now apply (write_aggregate_unique uid _ _ (strains_rows m1)).
Qed.

(** One successful call: the aggregates are recomputed over all the
    ratings of the item, the inserted one included. *)
Lemma add_rating_recomputes identifier user_id rating username category m v m' :
  NoDup (List.map Strains.Unique_ID (strains_rows m)) ->
  add_rating identifier user_id rating username category m = (Ok v, m') ->
  truthy v = true ->
  exists strain_data,
    rated_strain identifier (filter_category category (strains_rows m))
      = Some strain_data /\
    Strains.Status strain_data = "Approved" /\
    let uid := Strains.Unique_ID strain_data in
    let rs := ratings_of uid (ratings_rows m') in
    rs = (ratings_of uid (ratings_rows m) ++ [rating])%list /\
    (exists item, In item (strains_rows m') /\ Strains.Unique_ID item = uid) /\
    (forall item,
       In item (strains_rows m') -> Strains.Unique_ID item = uid ->
       Strains.Average_Rating item
         = py_round2 (py_truediv (sum_Z rs) (Z.of_nat (length rs))) /\
       Strains.Total_Ratings item = Z.of_nat (length rs)).
Proof.
  intros Hnd Hcall Hv.
  destruct (add_rating_true _ _ _ _ _ _ _ _ Hcall Hv)
    as (sd & date & F1 & F2 & _ & F4 & F5).
  exists sd. split; [exact F1|]. split; [exact F2|]. cbv zeta in *.
  assert (Hrs : ratings_of (Strains.Unique_ID sd) (ratings_rows m')
                = (ratings_of (Strains.Unique_ID sd) (ratings_rows m) ++ [rating])%list).
  { rewrite F4, ratings_of_app. f_equal.
    unfold ratings_of. simpl. now rewrite String.eqb_refl. }
  split; [exact Hrs|]. rewrite Hrs, F5. split.
  - apply write_aggregate_present with (r := sd); [|reflexivity].
    now apply rated_strain_In in F1.
  - intros item Hin Hid.
    now apply (write_aggregate_unique (Strains.Unique_ID sd) _ _ (strains_rows m)).
Qed.

(** C1. On a sheet whose items have pairwise distinct unique ids, every
    successful [add_rating] recomputes the average and the total of the
    item it resolved to over all the ratings of that item, the inserted
    one included, and writes both to the row of the item. Hence, for an
    item [uid] without ratings at first, after successful [add_rating]
    calls that resolved to it and inserted the ratings [r1 .. rn] (n at
    least 1), the row of the item stores [round(sum(r1 .. rn) / n, 2)] as
    its average rating and [n] as its total. *)
Theorem average_after_ratings :
  (forall identifier user_id rating username category m v m',
     NoDup (List.map Strains.Unique_ID (strains_rows m)) ->
     add_rating identifier user_id rating username category m = (Ok v, m') ->
     truthy v = true ->
     exists strain_data,
       rated_strain identifier (filter_category category (strains_rows m))
         = Some strain_data /\
       Strains.Status strain_data = "Approved" /\
       let uid := Strains.Unique_ID strain_data in
       let rs := ratings_of uid (ratings_rows m') in
       rs = (ratings_of uid (ratings_rows m) ++ [rating])%list /\
       (exists item, In item (strains_rows m') /\ Strains.Unique_ID item = uid) /\
       (forall item,
          In item (strains_rows m') -> Strains.Unique_ID item = uid ->
          Strains.Average_Rating item
            = py_round2 (py_truediv (sum_Z rs) (Z.of_nat (length rs))) /\
          Strains.Total_Ratings item = Z.of_nat (length rs))) /\
  (forall (uid : string) (m : manager) (rs : list Z) (m' : manager),
     NoDup (List.map Strains.Unique_ID (strains_rows m)) ->
     ratings_of uid (ratings_rows m) = [] ->
     rated_by_calls uid m rs m' ->
     rs <> [] ->
     ratings_of uid (ratings_rows m') = rs /\
     (exists item, In item (strains_rows m') /\ Strains.Unique_ID item = uid) /\
     (forall item,
        In item (strains_rows m') -> Strains.Unique_ID item = uid ->
        Strains.Average_Rating item
          = py_round2 (py_truediv (sum_Z rs) (Z.of_nat (length rs))) /\
        Strains.Total_Ratings item = Z.of_nat (length rs))).
Proof.
  split.
  - intros identifier user_id rating username category m v m' Hnd Hcall Hv.
    exact (add_rating_recomputes identifier user_id rating username category
             m v m' Hnd Hcall Hv).
  - intros uid m rs m' Hnd Hnone Hrun Hrs.
    destruct (rated_by_calls_invariant uid m rs m' Hnd Hnone Hrun) as (_ & H1 & H2).
    split; [exact H1|]. now apply H2.
Qed.

Lemma average_after_ratings_witness :
  NoDup (List.map Strains.Unique_ID (strains_rows Sample.sheet)) /\
  ratings_of "A1B2C3D4" (ratings_rows Sample.sheet) = [] /\
  rated_by_calls "A1B2C3D4" Sample.sheet [8; 6] Sample.after_second /\
  forall item,
    In item (strains_rows Sample.after_second) ->
    Strains.Unique_ID item = "A1B2C3D4" ->
    Strains.Average_Rating item = 700 # 100 /\ Strains.Total_Ratings item = 2.
Proof.
  assert (H1 : NoDup (List.map Strains.Unique_ID (strains_rows Sample.sheet))).
  { apply (bool_decide_unpack _). vm_compute. exact I. }
  assert (H2 : ratings_of "A1B2C3D4" (ratings_rows Sample.sheet) = [])
    by reflexivity.
  assert (H3 : rated_by_calls "A1B2C3D4" Sample.sheet [8; 6] Sample.after_second).
  { apply (rated_call "A1B2C3D4" Sample.sheet [8] Sample.after_first
             Sample.after_second "a1b2c3d4" 2 6 "bo" (Some "Flower")
             (Strains.with_Total_Ratings 1
                (Strains.with_Average_Rating (800 # 100) Sample.blue_dream))
             (PBool true)).
    - apply (rated_call "A1B2C3D4" Sample.sheet [] Sample.sheet
               Sample.after_first "blue dream" 1 8 "al" None
               Sample.blue_dream (PBool true)).
      + apply rated_none.
      + reflexivity.
      + reflexivity.
      + vm_compute. reflexivity.
      + reflexivity.
    - vm_compute. reflexivity.
    - reflexivity.
    - vm_compute. reflexivity.
    - reflexivity. }
  split; [exact H1|]. split; [exact H2|]. split; [exact H3|].
  assert (H4 : [8; 6] <> []) by discriminate.
  exact (proj2 (proj2 (proj2 average_after_ratings "A1B2C3D4" Sample.sheet [8; 6]
                         Sample.after_second H1 H2 H3 H4))).
Defined.

Lemma already_rated_true uid user_id ratings rr :
  In rr ratings -> Ratings.Unique_ID rr = uid ->
  Ratings.User_ID rr = _format_user_id_for_sheets user_id \/
  Ratings.User_ID rr = Py.str_of_int user_id ->
  already_rated uid user_id ratings = true.
Proof.
  intros Hin Hid Hu. unfold already_rated. apply existsb_exists.
  exists rr. split; [exact Hin|].
  rewrite Hid, String.eqb_refl. simpl.
  destruct Hu as [-> | ->]; rewrite String.eqb_refl; [apply orb_true_r | reflexivity].
Qed.

(** A rating call for an item the user has rated, on a reachable sheet. *)
Lemma add_rating_rejected identifier user_id rating username category m strain_data :
  reliable m ->
  rated_strain identifier (filter_category category (strains_rows m))
    = Some strain_data ->
  already_rated (Strains.Unique_ID strain_data) user_id (ratings_rows m) = true ->
  exists m', add_rating identifier user_id rating username category m
             = (Ok (PBool false), m') /\
             strains_rows m' = strains_rows m /\
             ratings_rows m' = ratings_rows m.
Proof.
  intros H Hfind Hdup. unfold add_rating, bind. rewrite safe_operation_run.
  unfold _add_rating_operation, try_except, bind.
  rewrite worksheet_reliable by auto with served.
  rewrite worksheet_reliable by auto with served.
  rewrite Ratings_get_all_records_reliable by auto with served.
  rewrite Strains_get_all_records_reliable by auto with served.
  autorewrite with served. rewrite Hfind, Hdup.
  destruct (negb _); cbn; eexists; (split; [reflexivity|]);
    now autorewrite with served.
Qed.

(** C2. Let an identifier resolve to an item. If the Ratings sheet holds a
    rating of that item whose User_ID is the user's id, in the
    apostrophe-encoded form or in the plain decimal form, [add_rating] by
    that user never succeeds, and on a reachable sheet it answers [False]
    and inserts nothing. If instead the call succeeds, then, however the
    manager goes on as long as no rating row is removed, every later
    [add_rating] by the same user that resolves to the same item fails: at
    most one rating call per item and user succeeds. *)
Theorem one_rating_per_user (identifier : string) (user_id rating : Z)
    (username : string) (category : option string) (m : manager)
    (strain_data : Strains.row) :
  rated_strain identifier (filter_category category (strains_rows m))
    = Some strain_data ->
  (forall rr,
     In rr (ratings_rows m) ->
     Ratings.Unique_ID rr = Strains.Unique_ID strain_data ->
     Ratings.User_ID rr = _format_user_id_for_sheets user_id \/
     Ratings.User_ID rr = Py.str_of_int user_id ->
     (forall v m', add_rating identifier user_id rating username category m = (Ok v, m') ->
                   truthy v = false) /\
     (reliable m ->
      fst (add_rating identifier user_id rating username category m)
        = Ok (PBool false) /\
      ratings_rows (snd (add_rating identifier user_id rating username category m))
        = ratings_rows m /\
      strains_rows (snd (add_rating identifier user_id rating username category m))
        = strains_rows m)) /\
  (forall v1 m1,
     add_rating identifier user_id rating username category m = (Ok v1, m1) ->
     truthy v1 = true ->
     forall m2 identifier2 rating2 username2 category2 strain_data2,
       (forall rr, In rr (ratings_rows m1) -> In rr (ratings_rows m2)) ->
       rated_strain identifier2 (filter_category category2 (strains_rows m2))
         = Some strain_data2 ->
       Strains.Unique_ID strain_data2 = Strains.Unique_ID strain_data ->
       forall v2 m3,
         add_rating identifier2 user_id rating2 username2 category2 m2 = (Ok v2, m3) ->
         truthy v2 = false).
Proof.
  intros Hfind. split.
  - intros rr Hin Hid Hu.
    pose proof (already_rated_true _ user_id _ rr Hin Hid Hu) as Hdup.
    split.
    + intros v m' Hcall. destruct (truthy v) eqn:Hv; [|reflexivity].
      destruct (add_rating_true _ _ _ _ _ _ _ _ Hcall Hv)
        as (sd & date & F1 & _ & F3 & _).
      rewrite Hfind in F1. injection F1 as <-. congruence.
    + intros H.
      destruct (add_rating_rejected identifier user_id rating username category m
                  strain_data H Hfind Hdup) as (m' & E & HS & HR).
      now rewrite E.
  - intros v1 m1 Hcall1 Hv1 m2 identifier2 rating2 username2 category2 sd2
           Hkeep Hfind2 Hsame v2 m3 Hcall2.
    destruct (add_rating_true _ _ _ _ _ _ _ _ Hcall1 Hv1)
      as (sd & date & F1 & _ & _ & F4 & _).
    rewrite Hfind in F1. injection F1 as <-.
    destruct (truthy v2) eqn:Hv2; [|reflexivity].
    destruct (add_rating_true _ _ _ _ _ _ _ _ Hcall2 Hv2)
      as (sd' & date' & G1 & _ & G3 & _).
    rewrite Hfind2 in G1. injection G1 as <-.
    rewrite Hsame in G3.
    rewrite (already_rated_true (Strains.Unique_ID strain_data) user_id
               (ratings_rows m2)
               (Ratings.Row (Z.of_nat (length (ratings_rows m)) + 1)
                  (Strains.Unique_ID strain_data)
                  (_format_user_id_for_sheets user_id) rating date
                  (_sanitize_username username))) in G3.
    + discriminate.
    + apply Hkeep. rewrite F4. apply in_or_app. right. now left.
    + reflexivity.
    + now left.
Qed.

Lemma one_rating_per_user_witness :
  rated_strain "blue dream" (filter_category None (strains_rows Sample.after_first))
    = Some (Strains.with_Total_Ratings 1
              (Strains.with_Average_Rating (800 # 100) Sample.blue_dream)) /\
  fst (add_rating "blue dream" 1 3 "al" None Sample.after_first) = Ok (PBool false).
Proof.
  assert (H : rated_strain "blue dream"
                (filter_category None (strains_rows Sample.after_first))
              = Some (Strains.with_Total_Ratings 1
                        (Strains.with_Average_Rating (800 # 100) Sample.blue_dream)))
    by (vm_compute; reflexivity).
  split; [exact H|].
  refine (proj1 (proj2 (proj1 (one_rating_per_user "blue dream" 1 3 "al" None
                                 Sample.after_first _ H)
                          (Ratings.Row 1 "A1B2C3D4" "'1" 8 (128160 # 128) "al") _ _ _) _)).
  - vm_compute. now left.
  - reflexivity.
  - now left.
  - vm_compute. repeat constructor.
Defined.

(** ** Exceptions stay inside the manager *)

Lemma returns_ret {A} (a : A) : returns (ret a).
Proof. intros m H. now exists a, m. Qed.

Lemma returns_bind {A B} (c : M A) (k : A -> M B) :
  returns c -> (forall a, returns (k a)) -> returns (bind c k).
Proof.
  intros Hc Hk m H. destruct (Hc m H) as (a & m1 & E & H1).
  unfold bind. rewrite E. exact (Hk a m1 H1).
Qed.

Lemma returns_clear_cache prefix : returns (clear_cache prefix).
Proof.
  intros m H. destruct (clear_cache_run prefix m) as (m' & E & _ & _ & Hr).
  exists tt, m'. split; [exact E|]. unfold civil. now rewrite Hr.
Qed.

Lemma returns_safe_operation (operation : M pyval) :
  exception_safe operation -> returns (safe_operation operation).
Proof. intros Hop m H. now apply safe_operation_returns. Qed.

Lemma returns_cached_operation key (operation : M pyval) d :
  exception_safe operation -> returns (cached_operation key operation d).
Proof. intros Hop m H. now apply cached_operation_returns. Qed.

Lemma safe_operation_neutral (operation : M pyval) m e m1 :
  exception_safe operation -> civil m ->
  operation (admitted m) = (Raise e, m1) ->
  safe_operation operation m = (Ok PNone, m1).
Proof.
  intros Hop H E. rewrite safe_operation_run, E.
  destruct (Hop _ _ _ (admitted_civil _ H) E) as [_ He]. now rewrite He.
Qed.

Lemma exception_safe_check_strain_duplicate_operation
    strain_name harvest_date package_date category producer :
  exception_safe
    (check_strain_duplicate_operation strain_name harvest_date package_date
       category producer).
Proof.
  apply exception_safe_try; [|auto with served].
  apply exception_safe_bind; [auto with served|]. intros _.
  apply exception_safe_bind; auto with served.
Qed.

Lemma exception_safe_search_strains_operation beyond query category :
  exception_safe (search_strains_operation beyond query category).
Proof.
  unfold search_strains_operation.
  apply exception_safe_bind; [auto with served|]. intros _.
  apply exception_safe_bind; [auto with served|]. intros records.
  destruct (has_wildcard query); [|auto with served].
  destruct (Re.compile _ _); [auto with served|].
  now apply exception_safe_raise.
Qed.

Lemma exception_safe__add_rating_operation identifier user_id rating username category :
  exception_safe (_add_rating_operation identifier user_id rating username category).
Proof.
  apply exception_safe_try; [|auto with served].
  apply exception_safe_bind; [auto with served|]. intros _.
  apply exception_safe_bind; [auto with served|]. intros _.
  apply exception_safe_bind; [auto with served|]. intros ratings.
  apply exception_safe_bind; [auto with served|]. intros strains.
  cbv zeta.
  destruct (rated_strain _ _); [|auto with served].
  destruct (negb _); [auto with served|].
  destruct (already_rated _ _ _); [auto with served|].
  apply exception_safe_bind; [apply exception_safe_time_time|]. intros date.
  apply exception_safe_bind; [auto with served|]. intros _.
  apply exception_safe_bind; [auto with served|]. intros records.
  destruct (enumerate_find _ _ _); [|auto with served].
  apply exception_safe_bind; [auto with served|]. intros _.
  apply exception_safe_bind; auto with served.
Qed.

Lemma exception_safe_get_all_approved_strains_operation category :
  exception_safe (get_all_approved_strains_operation category).
Proof.
  apply exception_safe_bind; [auto with served|]. intros _.
  apply exception_safe_bind; auto with served.
Qed.

Lemma exception_safe_approve_strain_operation identifier :
  exception_safe (approve_strain_operation identifier).
Proof.
  apply exception_safe_bind; [auto with served|]. intros _.
  apply exception_safe_bind; [auto with served|]. intros records.
  destruct (enumerate_find _ _ _); [|auto with served].
  apply exception_safe_bind; auto with served.
Qed.

Lemma exception_safe_rename_strain_operation unique_id new_name :
  exception_safe (rename_strain_operation unique_id new_name).
Proof.
  apply exception_safe_try; [|auto with served].
  apply exception_safe_bind; [auto with served|]. intros _.
  apply exception_safe_bind; [auto with served|]. intros records.
  destruct (enumerate_find _ _ _); [|auto with served].
  apply exception_safe_bind; auto with served.
Qed.

Lemma exception_safe_get_pending_strains_operation :
  exception_safe get_pending_strains_operation.
Proof.
  apply exception_safe_bind; [auto with served|]. intros _.
  apply exception_safe_bind; auto with served.
Qed.

Lemma exception_safe_get_pending_strains_count_operation :
  exception_safe get_pending_strains_count_operation.
Proof.
  apply exception_safe_bind; [auto with served|]. intros _.
  apply exception_safe_bind; auto with served.
Qed.

Lemma exception_safe_get_top_strains_for_status_operation category limit :
  exception_safe (get_top_strains_for_status_operation category limit).
Proof.
  apply exception_safe_bind; [auto with served|]. intros _.
  apply exception_safe_bind; auto with served.
Qed.

(** The public methods end in one of these forms. *)
Lemma returns_or_default (c : M pyval) (d : pyval) :
  returns c -> returns (bind c (fun result => ret (py_or result d))).
Proof. intros Hc. apply returns_bind; [exact Hc|]. intros. apply returns_ret. Qed.

Lemma returns_then_clear (c : M pyval) :
  returns c ->
  returns
    (bind c (fun result =>
       if truthy result then
         bind (clear_cache (Some "strain_")) (fun _ =>
         bind (clear_cache (Some "top_strains")) (fun _ => ret result))
       else ret result)).
Proof.
  intros Hc. apply returns_bind; [exact Hc|].
  intros result. destruct (truthy result); [|apply returns_ret].
  repeat (apply returns_bind; [apply returns_clear_cache | intros _]).
  apply returns_ret.
Qed.

(** C9. Let the remote fail only with exceptions derived from
    [Exception]. Whatever operation [safe_operation] wraps, the caller
    gets a value: the result of the operation, or [None] if the operation
    raised; [cached_operation] likewise. Hence the public operations
    return values and raise nothing: [check_strain_duplicate],
    [get_strain_by_identifier], [get_strain_by_name], [search_strains]
    (the empty list when its operation raised), [add_rating],
    [get_top_strains_for_status], [get_all_approved_strains],
    [get_pending_strains], [get_pending_strains_count], [approve_strain]
    and [rename_strain]. *)
Theorem store_exceptions_stay_inside :
  (forall operation : M pyval,
     exception_safe operation ->
     returns (safe_operation operation) /\
     (forall m e m1,
        civil m -> operation (admitted m) = (Raise e, m1) ->
        safe_operation operation m = (Ok PNone, m1)) /\
     (forall key d, returns (cached_operation key operation d))) /\
  (forall strain_name harvest_date package_date category producer,
     returns (check_strain_duplicate strain_name harvest_date package_date
                category producer)) /\
  (forall beyond identifier category,
     returns (get_strain_by_identifier beyond identifier category)) /\
  (forall beyond strain_name, returns (get_strain_by_name beyond strain_name)) /\
  (forall beyond query category,
     returns (search_strains beyond query category) /\
     (forall m e m1,
        civil m ->
        search_strains_operation beyond query category (admitted m) = (Raise e, m1) ->
        search_strains beyond query category m = (Ok (PList []), m1))) /\
  (forall identifier user_id rating username category,
     returns (add_rating identifier user_id rating username category)) /\
  (forall category limit, returns (get_top_strains_for_status category limit)) /\
  (forall category, returns (get_all_approved_strains category)) /\
  returns get_pending_strains /\
  returns get_pending_strains_count /\
  (forall identifier, returns (approve_strain identifier)) /\
  (forall unique_id new_name, returns (rename_strain unique_id new_name)).
Proof.
  repeat match goal with |- _ /\ _ => split end.
  - intros operation Hop. split; [now apply returns_safe_operation|].
    split.
    + intros m e m1 H E. now apply (safe_operation_neutral operation m e m1).
    + intros key d. now apply returns_cached_operation.
  - intros. apply returns_safe_operation.
    apply exception_safe_check_strain_duplicate_operation.
  - intros. apply returns_cached_operation.
    apply exception_safe_get_strain_by_identifier_operation.
  - intros. apply returns_cached_operation.
    apply exception_safe_get_strain_by_identifier_operation.
  - intros beyond query category. split.
    + apply returns_or_default, returns_safe_operation.
      apply exception_safe_search_strains_operation.
    + intros m e m1 H E. unfold search_strains, bind.
      rewrite (safe_operation_neutral _ m e m1
                 (exception_safe_search_strains_operation _ _ _) H E).
      reflexivity.
  - intros. apply returns_bind.
    + apply returns_safe_operation. apply exception_safe__add_rating_operation.
    + intros result. destruct (truthy result); [|apply returns_ret].
      repeat (apply returns_bind; [apply returns_clear_cache | intros _]).
      apply returns_ret.
  - intros. apply returns_or_default, returns_cached_operation.
    apply exception_safe_get_top_strains_for_status_operation.
  - intros. apply returns_or_default, returns_cached_operation.
    apply exception_safe_get_all_approved_strains_operation.
  - apply returns_or_default, returns_safe_operation.
    apply exception_safe_get_pending_strains_operation.
  - apply returns_or_default, returns_safe_operation.
    apply exception_safe_get_pending_strains_count_operation.
  - intros. apply returns_then_clear, returns_safe_operation.
    apply exception_safe_approve_strain_operation.
  - intros. apply returns_then_clear, returns_safe_operation.
    apply exception_safe_rename_strain_operation.
Qed.

Lemma store_exceptions_stay_inside_witness :
  civil Sample.flaky /\
  approve_strain_operation "blueberry" (admitted Sample.flaky)
    = (Raise APIError, served (served (admitted Sample.flaky))) /\
  (exists v m', approve_strain "blueberry" Sample.flaky = (Ok v, m' ) /\ civil m') /\
  safe_operation (approve_strain_operation "blueberry") Sample.flaky
    = (Ok PNone, served (served (admitted Sample.flaky))).
Proof.
  assert (H : civil Sample.flaky).
  { repeat constructor; intros e; simpl; try discriminate.
    now intros [= <-]. }
  assert (E : approve_strain_operation "blueberry" (admitted Sample.flaky)
              = (Raise APIError, served (served (admitted Sample.flaky))))
    by (vm_compute; reflexivity).
  split; [exact H|]. split; [exact E|]. split.
  - destruct store_exceptions_stay_inside
      as (_ & _ & _ & _ & _ & _ & _ & _ & _ & _ & Happrove & _).
    exact (Happrove "blueberry" Sample.flaky H).
  - exact (proj1 (proj2 (proj1 store_exceptions_stay_inside
                           (approve_strain_operation "blueberry")
                           (exception_safe_approve_strain_operation "blueberry")))
             Sample.flaky APIError _ H E).
Defined.

(** ** The cache *)

(** Every entry of the cache holds a value other than [None] that an
    execution under its key produced at the time it is stamped with. *)
Lemma history_entries m log :
  history m log ->
  forall key data ts,
    cache m !! key = Some (data, ts) ->
    data <> PNone /\ In (Execution key data ts) log.
Proof.
  induction 1 as [m Hempty
                 | m log cache_key operation d r m' Hh IH Hkeep Hcall
                 | m log prefix m' Hh IH Hclear
                 | m log m' Hh IH Hsame]; intros key data ts Hlook.
  - rewrite Hempty in Hlook. now rewrite lookup_empty in Hlook.
  - unfold executed.
    destruct (cache_hit cache_key (duration_or_ttl d) m) as [hit|] eqn:Hhit.
    + rewrite (cached_operation_hit _ _ _ _ _ Hhit) in Hcall.
      injection Hcall as _ <-. now apply IH.
    + rewrite (cached_operation_miss _ _ _ _ Hhit) in Hcall.
      destruct (safe_operation operation m) as [[v|e] m1] eqn:Hrun.
      * pose proof (safe_operation_keeps_cache _ Hkeep _ _ _ Hrun) as Hc.
        assert (Hold : cache m1 !! key = Some (data, ts) ->
                       data <> PNone /\ In (Execution key data ts) log)
          by (rewrite Hc; apply IH).
        destruct v; injection Hcall as _ <-;
          try (now apply Hold);
          (cbn [cache set_cache] in Hlook;
           destruct (decide (cache_key = key)) as [->|Hne];
           [ rewrite lookup_insert_eq in Hlook; injection Hlook as <- <-;
             split; [discriminate | now left]
           | rewrite lookup_insert_ne in Hlook by exact Hne;
             destruct (Hold Hlook) as [H1 H2]; split; [exact H1 | now right] ]).
      * injection Hcall as _ <-.
        pose proof (safe_operation_keeps_cache _ Hkeep _ _ _ Hrun) as Hc.
        rewrite Hc in Hlook. now apply IH.
  - unfold clear_cache in Hclear. injection Hclear as <-.
    destruct (Py.truthy_opt prefix); cbn [cache set_cache] in Hlook.
    + apply map_lookup_filter_Some in Hlook as [Hlook _]. now apply IH.
    + now rewrite lookup_empty in Hlook.
  - rewrite Hsame in Hlook. now apply IH.
Qed.

(** C10. [cached_operation] on a key that is absent from the cache, or
    whose entry is as old as the cache duration or older, executes the
    operation (through [safe_operation]) and stores the result under the
    key, stamped with the time, only if it is not [None]: after a failed
    operation the cache is what the operation left. On a fresh entry it
    returns the stored value and executes nothing. In a manager that
    started with an empty cache, the value of a fresh entry is not [None]
    and was produced by an execution under that key at the time the entry
    is stamped with, less than the cache duration ago. *)
Theorem failed_operations_are_not_cached (cache_key : string)
    (operation : M pyval) (cache_duration : option Q) (m : manager) :
  ((cache m !! cache_key = None \/
    exists data ts, cache m !! cache_key = Some (data, ts) /\
                    (duration_or_ttl cache_duration <= clock m - ts)%Q) ->
   cached_operation cache_key operation cache_duration m =
   match safe_operation operation m with
   | (Ok PNone, m1) => (Ok PNone, m1)
   | (Ok v, m1) => (Ok v, set_cache (<[cache_key := (v, clock m1)]> (cache m1)) m1)
   | (Raise e, m1) => (Raise e, m1)
   end) /\
  (forall data ts,
     cache m !! cache_key = Some (data, ts) ->
     (clock m - ts < duration_or_ttl cache_duration)%Q ->
     cached_operation cache_key operation cache_duration m = (Ok data, m) /\
     forall log,
       history m log ->
       data <> PNone /\
       exists ex, In ex log /\ ex_key ex = cache_key /\ ex_value ex = data /\
                  ex_time ex = ts /\
                  (clock m - ex_time ex < duration_or_ttl cache_duration)%Q).
Proof.
  split.
  - intros H. apply cached_operation_miss. now apply cache_hit_none.
  - intros data ts Hlook Hfresh. split.
    + apply cached_operation_hit. apply cache_hit_some. now exists ts.
    + intros log Hh. destruct (history_entries m log Hh _ _ _ Hlook) as [H1 H2].
      split; [exact H1|]. exists (Execution cache_key data ts).
      repeat split; auto.
Qed.

Lemma keeps_cache_ret (v : pyval) : keeps_cache (ret v).
Proof. intros m r m' [= _ <-]. reflexivity. Qed.

Lemma keeps_cache_read_strains (k : list Strains.row -> pyval) :
  keeps_cache
    (bind (worksheet "Strains") (fun _ =>
     bind Strains_get_all_records (fun records => ret (k records)))).
Proof.
  intros m r m' H. unfold bind at 1 in H.
  destruct (worksheet "Strains" m) as [[s1|e1] m1] eqn:E1.
  - apply worksheet_ok_inv in E1. subst m1. unfold bind in H.
    destruct (Strains_get_all_records (served m)) as [[rs|e2] m2] eqn:E2.
    + apply Strains_get_all_records_ok_inv in E2 as [_ ->].
      injection H as _ <-. now autorewrite with served.
    + injection H as _ <-. unfold Strains_get_all_records, bind in E2.
      destruct (api_call_cases (served m)) as [E|(e & E & _)]; rewrite E in E2.
      * discriminate.
      * injection E2 as _ <-. now autorewrite with served.
  - injection H as _ <-. unfold worksheet, bind in E1.
    destruct (api_call_cases m) as [E|(e & E & _)]; rewrite E in E1.
    + discriminate.
    + injection E1 as _ <-. now autorewrite with served.
Qed.

(** The listing operation does not write the cache. *)
Lemma keeps_cache_get_all_approved_strains_operation category :
  keeps_cache (get_all_approved_strains_operation category).
Proof.
  exact (keeps_cache_read_strains
           (fun records => PList (sorted_desc sort_key (approved_in category records)))).
Qed.

Lemma failed_operations_are_not_cached_witness :
  (cache Sample.flaky !! "strain_search_blueberry_all" = None /\
   cached_operation "strain_search_blueberry_all"
     (get_strain_by_identifier_operation Sample.no_regex "blueberry" None)
     (Some 60%Q) Sample.flaky
   = (Ok PNone, served (served (admitted Sample.flaky))) /\
   cache (served (served (admitted Sample.flaky))) = ∅) /\
  (history Sample.a_minute_later
     [Execution "all_approved_strains_all"
        (PList [Sample.sour_diesel; Sample.blue_dream]) (8006 # 8)] /\
   cached_operation "all_approved_strains_all"
     (get_all_approved_strains_operation None) (Some 120%Q) Sample.a_minute_later
   = (Ok (PList [Sample.sour_diesel; Sample.blue_dream]), Sample.a_minute_later) /\
   PList [Sample.sour_diesel; Sample.blue_dream] <> PNone).
Proof.
  split.
  - assert (H : cache Sample.flaky !! "strain_search_blueberry_all" = None)
      by reflexivity.
    split; [exact H|]. split; [|reflexivity].
    rewrite (proj1 (failed_operations_are_not_cached "strain_search_blueberry_all"
                      (get_strain_by_identifier_operation Sample.no_regex
                         "blueberry" None)
                      (Some 60%Q) Sample.flaky) (or_introl H)).
    vm_compute. reflexivity.
  - assert (Hh : history Sample.a_minute_later
                   [Execution "all_approved_strains_all"
                      (PList [Sample.sour_diesel; Sample.blue_dream]) (8006 # 8)]).
    { apply (history_other Sample.listed); [|reflexivity].
      apply (history_call Sample.sheet [] "all_approved_strains_all"
               (get_all_approved_strains_operation None) (Some 120%Q)
               (Ok (PList [Sample.sour_diesel; Sample.blue_dream]))).
      - now apply history_start.
      - apply keeps_cache_get_all_approved_strains_operation.
      - vm_compute. reflexivity. }
    assert (Hlook : cache Sample.a_minute_later !! "all_approved_strains_all"
                    = Some (PList [Sample.sour_diesel; Sample.blue_dream], 8006 # 8))
      by (vm_compute; reflexivity).
    assert (Hfresh : (clock Sample.a_minute_later - (8006 # 8)
                      < duration_or_ttl (Some 120%Q))%Q)
      by (vm_compute; reflexivity).
    destruct (proj2 (failed_operations_are_not_cached "all_approved_strains_all"
                       (get_all_approved_strains_operation None) (Some 120%Q)
                       Sample.a_minute_later) _ _ Hlook Hfresh) as [Hhit Hprov].
    split; [exact Hh|]. split; [exact Hhit|].
    exact (proj1 (Hprov _ Hh)).
Defined.

(** * Further properties of the manager *)

(** ** Rating needs an approved item *)

(** X1. [add_rating] on an identifier that resolves to no item of the
    category, or to an item whose status is not Approved, never succeeds;
    on a reachable sheet it answers [False] and leaves the two sheets and
    the cache as they were. *)
Theorem add_rating_needs_approved_item (identifier : string) (user_id rating : Z)
    (username : string) (category : option string) (m : manager) :
  (rated_strain identifier (filter_category category (strains_rows m)) = None \/
   exists strain_data,
     rated_strain identifier (filter_category category (strains_rows m))
       = Some strain_data /\
     Strains.Status strain_data <> "Approved") ->
  (forall v m', add_rating identifier user_id rating username category m = (Ok v, m') ->
                truthy v = false) /\
  (reliable m ->
   fst (add_rating identifier user_id rating username category m) = Ok (PBool false) /\
   strains_rows (snd (add_rating identifier user_id rating username category m))
     = strains_rows m /\
   ratings_rows (snd (add_rating identifier user_id rating username category m))
     = ratings_rows m /\
   cache (snd (add_rating identifier user_id rating username category m)) = cache m).
Proof.
  intros Hbad. split.
  - intros v m' Hcall. destruct (truthy v) eqn:Hv; [|reflexivity].
    destruct (add_rating_true _ _ _ _ _ _ _ _ Hcall Hv)
      as (sd & date & F1 & F2 & _).
    destruct Hbad as [Hnone | (sd' & Hsome & Hst)]; [congruence|].
    rewrite Hsome in F1. injection F1 as <-. contradiction.
  - intros H. unfold add_rating, bind. rewrite safe_operation_run.
    unfold _add_rating_operation, try_except, bind.
    rewrite worksheet_reliable by auto with served.
    rewrite worksheet_reliable by auto with served.
    rewrite Ratings_get_all_records_reliable by auto with served.
    rewrite Strains_get_all_records_reliable by auto with served.
    autorewrite with served.
    destruct Hbad as [Hnone | (sd & Hsome & Hst)].
    + rewrite Hnone. cbn. now autorewrite with served.
    + rewrite Hsome. apply String.eqb_neq in Hst. rewrite Hst. cbn.
      now autorewrite with served.
Qed.

Lemma add_rating_needs_approved_item_witness :
  rated_strain "blueberry" (filter_category None (strains_rows Sample.sheet))
    = Some Sample.blueberry /\
  fst (add_rating "blueberry" 1 9 "al" None Sample.sheet) = Ok (PBool false) /\
  ratings_rows (snd (add_rating "blueberry" 1 9 "al" None Sample.sheet)) = [].
Proof.
  assert (H : rated_strain "blueberry"
                (filter_category None (strains_rows Sample.sheet))
              = Some Sample.blueberry) by reflexivity.
  split; [exact H|].
  assert (Hr : reliable Sample.sheet) by (repeat constructor).
  assert (Hbad :
            rated_strain "blueberry" (filter_category None (strains_rows Sample.sheet))
              = None \/
            exists strain_data,
              rated_strain "blueberry"
                (filter_category None (strains_rows Sample.sheet)) = Some strain_data /\
              Strains.Status strain_data <> "Approved").
  { right. exists Sample.blueberry. split; [exact H | discriminate]. }
  destruct (proj2 (add_rating_needs_approved_item "blueberry" 1 9 "al" None
                     Sample.sheet Hbad) Hr) as (H1 & _ & H3 & _).
  split; [exact H1|]. rewrite H3. reflexivity.
Defined.

(** ** What the mutations invalidate in the cache *)

Lemma leaves_cache_ret {A} (a : A) : leaves_cache (ret a).
Proof. intros m r m' [= _ <-]. reflexivity. Qed.

Lemma leaves_cache_bind {A B} (c : M A) (k : A -> M B) :
  leaves_cache c -> (forall a, leaves_cache (k a)) -> leaves_cache (bind c k).
Proof.
  intros Hc Hk m r m' H. unfold bind in H.
  destruct (c m) as [[a|e] m1] eqn:E.
  - rewrite (Hk a _ _ _ H). exact (Hc _ _ _ E).
  - injection H as _ <-. exact (Hc _ _ _ E).
Qed.

Lemma leaves_cache_try {A} (c : M A) (h : exn -> M A) :
  leaves_cache c -> (forall e, leaves_cache (h e)) -> leaves_cache (try_except c h).
Proof.
  intros Hc Hh m r m' H. unfold try_except in H.
  destruct (c m) as [[a|e] m1] eqn:E.
  - injection H as _ <-. exact (Hc _ _ _ E).
  - destruct (is_Exception e).
    + rewrite (Hh e _ _ _ H). exact (Hc _ _ _ E).
    + injection H as _ <-. exact (Hc _ _ _ E).
Qed.

Lemma leaves_cache_api_call : leaves_cache api_call.
Proof.
  intros m r m' H.
  destruct (api_call_cases m) as [E|(e & E & _)]; rewrite E in H;
    injection H as _ <-; now autorewrite with served.
Qed.

Lemma leaves_cache_local {A} (c : M A) :
  (forall m, cache (snd (c m)) = cache m) -> leaves_cache c.
Proof. intros Hc m r m' H. specialize (Hc m). now rewrite H in Hc. Qed.

Lemma leaves_cache_worksheet name : leaves_cache (worksheet name).
Proof.
  apply leaves_cache_bind; [apply leaves_cache_api_call|].
  intros _. apply leaves_cache_ret.
Qed.

Lemma leaves_cache_Strains_get_all_records : leaves_cache Strains_get_all_records.
Proof.
  apply leaves_cache_bind; [apply leaves_cache_api_call|].
  intros _. apply leaves_cache_local. intros m. reflexivity.
Qed.

Lemma leaves_cache_Strains_update_cell i col v :
  leaves_cache (Strains_update_cell i col v).
Proof.
  apply leaves_cache_bind; [apply leaves_cache_api_call|].
  intros _. apply leaves_cache_local. intros m.
  destruct (i <? 2)%nat; reflexivity.
Qed.

Lemma leaves_cache_wait_if_needed : leaves_cache wait_if_needed.
Proof.
  intros m r m' H. destruct (wait_if_needed_spec m) as (m1 & E & _ & _ & Hc & _).
  rewrite E in H. now injection H as _ <-.
Qed.

Lemma leaves_cache_safe_operation (operation : M pyval) :
  leaves_cache operation -> leaves_cache (safe_operation operation).
Proof.
  intros Hop. apply leaves_cache_try; [|intros; apply leaves_cache_ret].
  apply leaves_cache_bind; [apply leaves_cache_wait_if_needed | now intros _].
Qed.

Lemma leaves_cache_approve_strain_operation identifier :
  leaves_cache (approve_strain_operation identifier).
Proof.
  apply leaves_cache_bind; [apply leaves_cache_worksheet|]. intros _.
  apply leaves_cache_bind; [apply leaves_cache_Strains_get_all_records|].
  intros records. destruct (enumerate_find _ _ _); [|apply leaves_cache_ret].
  apply leaves_cache_bind; [apply leaves_cache_Strains_update_cell|].
  intros _. apply leaves_cache_ret.
Qed.

Lemma prefix_append (p x : string) : String.prefix p (p ++ x) = true.
Proof.
  induction p as [|c p IH]; [now destruct x|].
  rewrite append_cons. simpl. rewrite IH.
  now destruct (Ascii.ascii_dec c c).
Qed.

(** The cache after [clear_cache(prefix)] with a non-empty prefix. *)
Lemma clear_cache_lookup prefix m r m' k :
  prefix <> "" ->
  clear_cache (Some prefix) m = (r, m') ->
  cache m' !! k = if String.prefix prefix k then None else cache m !! k.
Proof.
  intros Hp H. destruct prefix as [|c p]; [congruence|].
  unfold clear_cache in H. injection H as _ <-. cbn [cache set_cache].
  destruct (String.prefix (String c p) k) eqn:E.
  - apply map_lookup_filter_None. right. intros x _. cbn. congruence.
  - destruct (cache m !! k) as [x|] eqn:L.
    + apply map_lookup_filter_Some. split; [exact L | exact E].
    + apply map_lookup_filter_None. now left.
Qed.

(** X2. A successful [add_rating] leaves no cache entry whose key starts
    with [strain_], [all_approved_strains] or [top_strains]. So the
    listing of approved items asked for next is read from the sheet, with
    the aggregates the rating has just written, and not from the cache. *)
Theorem add_rating_invalidates_listings (identifier : string) (user_id rating : Z)
    (username : string) (category : option string) (m : manager) (v : pyval)
    (m' : manager) :
  add_rating identifier user_id rating username category m = (Ok v, m') ->
  truthy v = true ->
  (forall k,
     String.prefix "strain_" k = true \/
     String.prefix "all_approved_strains" k = true \/
     String.prefix "top_strains" k = true ->
     cache m' !! k = None) /\
  (forall listed_category,
     reliable m' ->
     fst (get_all_approved_strains listed_category m')
     = Ok (PList (sorted_desc sort_key
                    (approved_in listed_category (strains_rows m'))))).
Proof.
  intros Hcall Hv.
  assert (Hgone : forall k,
            String.prefix "strain_" k = true \/
            String.prefix "all_approved_strains" k = true \/
            String.prefix "top_strains" k = true ->
            cache m' !! k = None).
  { unfold add_rating in Hcall.
    apply bind_ok_inv in Hcall as (result & m1 & E & H).
    assert (Hr : truthy result = true).
    { destruct (truthy result) eqn:T; [reflexivity|]. injection H as -> _. congruence. }
    rewrite Hr in H.
    apply bind_ok_inv in H as (u1 & n1 & C1 & H).
    apply bind_ok_inv in H as (u2 & n2 & C2 & H).
    apply bind_ok_inv in H as (u3 & n3 & C3 & H).
    injection H as _ <-.
    intros k Hk.
    rewrite (clear_cache_lookup "top_strains" _ _ _ k ltac:(discriminate) C3).
    destruct (String.prefix "top_strains" k) eqn:P3; [reflexivity|].
    rewrite (clear_cache_lookup "all_approved_strains" _ _ _ k ltac:(discriminate) C2).
    destruct (String.prefix "all_approved_strains" k) eqn:P2; [reflexivity|].
    rewrite (clear_cache_lookup "strain_" _ _ _ k ltac:(discriminate) C1).
    destruct (String.prefix "strain_" k) eqn:P1; [reflexivity|].
    destruct Hk as [Hk|[Hk|Hk]]; discriminate. }
  split; [exact Hgone|].
  intros listed_category Hrel.
  apply get_all_approved_strains_miss; [exact Hrel|].
  apply cache_hit_none. left. apply Hgone. right. left.
  exact (prefix_append "all_approved_strains" ("_" ++ category_or_all listed_category)).
Qed.

Lemma add_rating_invalidates_listings_witness :
  add_rating "a1b2c3d4" 2 6 "bo" (Some "Flower") Sample.after_first
    = (Ok (PBool true), Sample.after_second) /\
  cache Sample.after_second !! "all_approved_strains_all" = None /\
  fst (get_all_approved_strains None Sample.after_second)
    = Ok (PList (sorted_desc sort_key
                   (approved_in None (strains_rows Sample.after_second)))).
Proof.
  assert (H : add_rating "a1b2c3d4" 2 6 "bo" (Some "Flower") Sample.after_first
              = (Ok (PBool true), Sample.after_second))
    by (vm_compute; reflexivity).
  split; [exact H|].
  destruct (add_rating_invalidates_listings _ _ _ _ _ _ _ _ H eq_refl) as [H1 H2].
  split.
  - apply H1. right. left. reflexivity.
  - apply H2. vm_compute. repeat constructor.
Defined.

(** X3. [approve_strain] clears the cache entries under [strain_] and
    [top_strains] only: whether it succeeds or not, every other entry is
    kept, the listings of approved items among them. A listing cached
    before an approval is therefore still what [get_all_approved_strains]
    returns after it, as long as the entry is less than 120 seconds
    old. *)
Theorem approve_strain_keeps_cached_listing (identifier : string) (m : manager)
    (r : result pyval) (m' : manager) :
  approve_strain identifier m = (r, m') ->
  (forall k,
     String.prefix "strain_" k = false -> String.prefix "top_strains" k = false ->
     cache m' !! k = cache m !! k) /\
  (forall category listing ts,
     cache m !! ("all_approved_strains_" ++ category_or_all category)
       = Some (PList listing, ts) ->
     (clock m' - ts < 120)%Q ->
     fst (get_all_approved_strains category m') = Ok (PList listing)).
Proof.
  intros Hcall.
  assert (Hkeep : forall k,
            String.prefix "strain_" k = false -> String.prefix "top_strains" k = false ->
            cache m' !! k = cache m !! k).
  { intros k P1 P2. unfold approve_strain, bind in Hcall.
    destruct (safe_operation (approve_strain_operation identifier) m)
      as [[result|e] m1] eqn:E.
    - pose proof (leaves_cache_safe_operation _
                    (leaves_cache_approve_strain_operation identifier) _ _ _ E) as Hc.
      destruct (truthy result).
      + destruct (clear_cache (Some "strain_") m1) as [[u1|e1] n1] eqn:C1;
          [|unfold clear_cache in C1; discriminate].
        destruct (clear_cache (Some "top_strains") n1) as [[u2|e2] n2] eqn:C2;
          [|unfold clear_cache in C2; discriminate].
        injection Hcall as _ <-.
        rewrite (clear_cache_lookup "top_strains" _ _ _ k ltac:(discriminate) C2), P2.
        rewrite (clear_cache_lookup "strain_" _ _ _ k ltac:(discriminate) C1), P1.
        now rewrite Hc.
      + injection Hcall as _ <-. now rewrite Hc.
    - injection Hcall as _ <-.
      now rewrite (leaves_cache_safe_operation _
                     (leaves_cache_approve_strain_operation identifier) _ _ _ E). }
  split; [exact Hkeep|].
  intros category listing ts Hlook Hfresh.
  unfold get_all_approved_strains, bind.
  rewrite (cached_operation_hit _ _ _ _ (PList listing)).
  - cbn. now rewrite py_or_list.
  - apply cache_hit_some. exists ts. split; [|exact Hfresh].
    rewrite Hkeep; [exact Hlook | |].
    + exact (eq_refl : String.prefix "strain_"
                         ("all_approved_strains" ++ "_" ++ category_or_all category)
                       = false).
    + exact (eq_refl : String.prefix "top_strains"
                         ("all_approved_strains" ++ "_" ++ category_or_all category)
                       = false).
Qed.

Lemma approve_strain_keeps_cached_listing_witness :
  fst (approve_strain "blueberry" Sample.listed) = Ok (PBool true) /\
  List.map Strains.Strain_Name
    (List.filter (fun r => String.eqb (Strains.Status r) "Approved")
       (strains_rows (snd (approve_strain "blueberry" Sample.listed))))
    = ["Blueberry"; "Blue Dream"; "Sour Diesel"] /\
  fst (get_all_approved_strains None (snd (approve_strain "blueberry" Sample.listed)))
    = Ok (PList [Sample.sour_diesel; Sample.blue_dream]).
Proof.
  split; [vm_compute; reflexivity|]. split; [vm_compute; reflexivity|].
  apply (proj2 (approve_strain_keeps_cached_listing "blueberry" Sample.listed _ _
                  (surjective_pairing _)) None _ (8006 # 8)).
  - vm_compute. reflexivity.
  - vm_compute. reflexivity.
Defined.

(** ** Renaming *)

Lemma rename_strain_none unique_id new_name m :
  reliable m ->
  enumerate_find (id_matches unique_id) 2 (strains_rows m) = None ->
  exists m', rename_strain unique_id new_name m = (Ok (PBool false), m') /\
             strains_rows m' = strains_rows m /\
             ratings_rows m' = ratings_rows m /\
             cache m' = cache m /\ reliable m'.
Proof.
  intros H E. unfold rename_strain, bind. rewrite safe_operation_run.
  unfold rename_strain_operation, try_except, bind.
  rewrite worksheet_reliable by auto with served.
  rewrite Strains_get_all_records_reliable by auto with served.
  autorewrite with served. rewrite E. cbn.
  eexists. split; [reflexivity|]. autorewrite with served.
  repeat split; auto with served.
Qed.

Lemma rename_strain_some unique_id new_name m i :
  reliable m ->
  enumerate_find (id_matches unique_id) 2 (strains_rows m) = Some i ->
  exists m', rename_strain unique_id new_name m = (Ok (PBool true), m') /\
             strains_rows m'
               = alter (set_column 2 (CStr new_name)) (i - 2)%nat (strains_rows m) /\
             ratings_rows m' = ratings_rows m /\ reliable m' /\
             forall k, cache m' !! k
                       = if String.prefix "strain_" k || String.prefix "top_strains" k
                         then None else cache m !! k.
Proof.
  intros H E. unfold rename_strain, bind. rewrite safe_operation_run.
  unfold rename_strain_operation, try_except, bind.
  rewrite worksheet_reliable by auto with served.
  rewrite Strains_get_all_records_reliable by auto with served.
  autorewrite with served. rewrite E.
  unfold Strains_update_cell, bind.
  rewrite api_call_reliable by auto with served.
  assert (Hi : (i <? 2)%nat = false).
  { apply enumerate_find_some in E as (l1 & r & l2 & _ & _ & _ & ->).
    apply Nat.ltb_ge. lia. }
  rewrite Hi. cbn.
  eexists. split; [reflexivity|]. cbn. autorewrite with served.
  split; [reflexivity|]. split; [reflexivity|]. split.
  - unfold reliable. cbn.
    change (reliable (served (served (served (admitted m))))).
    auto with served.
  - intros k. rewrite map_lookup_filter. rewrite map_lookup_filter.
    destruct (cache m !! k) as [x|]; cbn.
    + destruct (String.prefix "strain_" k); cbn;
        destruct (String.prefix "top_strains" k); cbn;
        repeat (case_guard; cbn; try congruence).
    + now destruct (String.prefix "strain_" k || String.prefix "top_strains" k).
Qed.

(** X4. [rename_strain] finds the item by unique id only (up to letter
    case). When no row has the id it answers [False] and changes nothing,
    whatever the names on the sheet. Otherwise it answers [True] and
    rewrites the name of the first row with that id, every other cell,
    every other row and every rating staying as they were; the entries
    under [strain_] having left the cache, looking the id up next returns
    the row with its new name. *)
Theorem rename_strain_by_unique_id (beyond : string -> option (string -> bool))
    (unique_id new_name : string) (m : manager) :
  reliable m ->
  let answer := fst (rename_strain unique_id new_name m) in
  let m' := snd (rename_strain unique_id new_name m) in
  (Forall (fun r => id_matches unique_id r = false) (strains_rows m) ->
   answer = Ok (PBool false) /\ strains_rows m' = strains_rows m /\
   ratings_rows m' = ratings_rows m /\ cache m' = cache m) /\
  (forall before r after,
     strains_rows m = (before ++ r :: after)%list ->
     id_matches unique_id r = true ->
     Forall (fun x => id_matches unique_id x = false) before ->
     answer = Ok (PBool true) /\
     strains_rows m' = (before ++ Strains.with_Strain_Name new_name r :: after)%list /\
     ratings_rows m' = ratings_rows m /\
     fst (get_strain_by_identifier beyond unique_id None m')
       = Ok (PDict (Strains.with_Strain_Name new_name r))).
Proof.
  intros H answer m'. subst answer m'. split.
  - intros Hall.
    destruct (rename_strain_none unique_id new_name m H) as (m1 & E & H1 & H2 & H3 & _).
    + now apply enumerate_find_none.
    + now rewrite E.
  - intros before r after Hrows Hm Hbefore.
    assert (Hfind : enumerate_find (id_matches unique_id) 2 (strains_rows m)
                    = Some (2 + length before)%nat).
    { apply enumerate_find_some. now exists before, r, after. }
    destruct (rename_strain_some unique_id new_name m _ H Hfind)
      as (m1 & E & H1 & H2 & H3 & H4).
    rewrite E. cbn [fst snd].
    assert (Hrows1 : strains_rows m1
                     = (before ++ Strains.with_Strain_Name new_name r :: after)%list).
    { rewrite H1, Hrows.
      replace (2 + length before - 2)%nat with (length before) by lia.
      now rewrite alter_middle. }
    split; [reflexivity|]. split; [exact Hrows1|]. split; [exact H2|].
    unfold get_strain_by_identifier.
    rewrite cached_operation_miss.
    + rewrite safe_operation_run.
      rewrite get_strain_by_identifier_operation_reliable by auto with served.
      autorewrite with served. rewrite Hrows1.
      assert (Hf : List.find (id_matches unique_id)
                     (filter_category None
                        (before ++ Strains.with_Strain_Name new_name r :: after)%list)
                   = Some (Strains.with_Strain_Name new_name r)).
      { apply find_first_such. now exists before, after. }
      cbv zeta. rewrite Hf. reflexivity.
    + apply cache_hit_none. left. rewrite H4.
      replace (String.prefix "strain_" (strain_search_key unique_id None)) with true;
        [reflexivity|].
      symmetry.
      exact (prefix_append "strain_"
               ("search_" ++ Py.lower unique_id ++ "_" ++ category_or_all None)).
Qed.

Lemma rename_strain_by_unique_id_witness :
  reliable Sample.sheet /\
  fst (rename_strain "Sour Diesel" "Sour D" Sample.sheet) = Ok (PBool false) /\
  fst (rename_strain "deadbeef" "Sour D" Sample.sheet) = Ok (PBool true) /\
  fst (get_strain_by_identifier Sample.no_regex "deadbeef" None
         (snd (rename_strain "deadbeef" "Sour D" Sample.sheet)))
    = Ok (PDict (Strains.with_Strain_Name "Sour D" Sample.sour_diesel)).
Proof.
  assert (H : reliable Sample.sheet) by (repeat constructor).
  split; [exact H|]. split.
  - apply (proj1 (rename_strain_by_unique_id Sample.no_regex "Sour Diesel" "Sour D"
                    Sample.sheet H)).
    repeat constructor.
  - destruct (proj2 (rename_strain_by_unique_id Sample.no_regex "deadbeef" "Sour D"
                       Sample.sheet H)
                [Sample.blueberry; Sample.blue_dream] Sample.sour_diesel [])
      as (H1 & _ & _ & H4).
    + reflexivity.
    + reflexivity.
    + repeat constructor.
    + split; [exact H1 | exact H4].
Defined.

(** ** The queue of pending items *)

Lemma py_or_int (z : Z) : py_or (PInt z) (PInt 0) = PInt z.
Proof.
  unfold py_or. cbn. destruct (Z.eqb_spec z 0) as [->|]; reflexivity.
Qed.

Lemma get_pending_strains_reliable m :
  reliable m ->
  fst (get_pending_strains m) = Ok (PList (pending (strains_rows m))).
Proof.
  intros H. unfold get_pending_strains, bind. rewrite safe_operation_run.
  unfold get_pending_strains_operation, bind.
  rewrite worksheet_reliable by auto with served.
  rewrite Strains_get_all_records_reliable by auto with served.
  autorewrite with served. cbn. now rewrite py_or_list.
Qed.

Lemma get_pending_strains_count_reliable m :
  reliable m ->
  fst (get_pending_strains_count m)
  = Ok (PInt (Z.of_nat (length (pending (strains_rows m))))).
Proof.
  intros H. unfold get_pending_strains_count, bind. rewrite safe_operation_run.
  unfold get_pending_strains_count_operation, bind.
  rewrite worksheet_reliable by auto with served.
  rewrite Strains_get_all_records_reliable by auto with served.
  autorewrite with served. cbn. now rewrite py_or_int.
Qed.

Lemma pending_app (l1 l2 : list Strains.row) :
  pending (l1 ++ l2) = (pending l1 ++ pending l2)%list.
Proof. apply List.filter_app. Qed.

(** X5. The pending queue and the approvals. On a reachable sheet
    [get_pending_strains] lists the Pending rows in sheet order and
    [get_pending_strains_count] is the length of that list. A successful
    [approve_strain] takes exactly one item out of the queue, an item that
    the identifier matches by id or by name and that no earlier item of
    the queue matches; the others keep their order, and the count goes
    down by one. *)
Theorem approval_takes_one_from_the_queue (identifier : string) (m : manager) :
  reliable m ->
  fst (get_pending_strains m) = Ok (PList (pending (strains_rows m))) /\
  fst (get_pending_strains_count m)
    = Ok (PInt (Z.of_nat (length (pending (strains_rows m))))) /\
  (fst (approve_strain identifier m) = Ok (PBool true) ->
   let m' := snd (approve_strain identifier m) in
   exists before r after,
     pending (strains_rows m) = (before ++ r :: after)%list /\
     (id_matches identifier r || name_matches identifier r) = true /\
     Forall (fun x => (id_matches identifier x || name_matches identifier x) = false)
       before /\
     fst (get_pending_strains m') = Ok (PList (before ++ after)) /\
     fst (get_pending_strains_count m')
       = Ok (PInt (Z.of_nat (length (pending (strains_rows m))) - 1))).
Proof.
  intros H. split; [now apply get_pending_strains_reliable|].
  split; [now apply get_pending_strains_count_reliable|].
  intros Hok m'. subst m'.
  destruct (enumerate_find (approvable identifier) 2 (strains_rows m)) as [i|] eqn:E.
  - destruct (approve_strain_some identifier m i H E) as (m1 & E1 & H1 & _ & H3).
    rewrite E1. cbn [snd].
    apply enumerate_find_some in E as (l1 & r & l2 & Hrows & Hr & Hl1 & ->).
    assert (Hrows1 : strains_rows m1
                     = (l1 ++ Strains.with_Status "Approved" r :: l2)%list).
    { rewrite H1, Hrows.
      replace (2 + length l1 - 2)%nat with (length l1) by lia.
      now rewrite alter_middle. }
    unfold approvable in Hr. apply andb_true_iff in Hr as [Hm Hs].
    assert (Hp : pending (strains_rows m) = (pending l1 ++ r :: pending l2)%list).
    { rewrite Hrows, pending_app. f_equal. unfold pending at 1. cbn. now rewrite Hs. }
    assert (Hp1 : pending (strains_rows m1) = (pending l1 ++ pending l2)%list).
    { rewrite Hrows1, pending_app. reflexivity. }
    exists (pending l1), r, (pending l2).
    split; [exact Hp|]. split; [exact Hm|]. split.
    + apply Forall_forall. intros x Hx.
      unfold pending in Hx. apply list_elem_of_In, List.filter_In in Hx as [Hx Hxs].
      rewrite Forall_forall in Hl1. apply list_elem_of_In in Hx.
      specialize (Hl1 x Hx). unfold approvable in Hl1. rewrite Hxs in Hl1.
      now rewrite andb_true_r in Hl1.
    + split.
      * rewrite get_pending_strains_reliable by exact H3. now rewrite Hp1.
      * rewrite get_pending_strains_count_reliable by exact H3.
        rewrite Hp1, Hp. rewrite !length_app. cbn [length]. do 2 f_equal. lia.
  - destruct (approve_strain_none identifier m H E) as (m1 & E1 & _).
    rewrite E1 in Hok. discriminate.
Qed.

Lemma approval_takes_one_from_the_queue_witness :
  reliable Sample.sheet /\
  fst (get_pending_strains_count Sample.sheet) = Ok (PInt 1) /\
  fst (get_pending_strains_count (snd (approve_strain "blueberry" Sample.sheet)))
    = Ok (PInt 0).
Proof.
  assert (H : reliable Sample.sheet) by (repeat constructor).
  split; [exact H|].
  destruct (approval_takes_one_from_the_queue "blueberry" Sample.sheet H)
    as (_ & H2 & H3).
  split; [exact H2|].
  destruct (H3 eq_refl) as (before & r & after & _ & _ & _ & _ & H4).
  exact H4.
Defined.

(** ** When the remote fails *)

Lemma api_call_head_ok m ev rest :
  remote m = ev :: rest -> fault ev = None -> api_call m = (Ok tt, served m).
Proof. intros E F. unfold api_call, served. now rewrite E, F. Qed.

Lemma api_call_head_fault m ev rest e :
  remote m = ev :: rest -> fault ev = Some e -> api_call m = (Raise e, served m).
Proof. intros E F. unfold api_call, served. now rewrite E, F. Qed.

Lemma served_remote m ev rest : remote m = ev :: rest -> remote (served m) = rest.
Proof. intros E. unfold served. now rewrite E. Qed.

Lemma worksheet_head_fault name m ev rest e :
  remote m = ev :: rest -> fault ev = Some e -> worksheet name m = (Raise e, served m).
Proof.
  intros E F. unfold worksheet, bind. now rewrite (api_call_head_fault _ _ _ _ E F).
Qed.

(** X6. What the callers see when the sheet cannot be reached (the first
    request of the operation fails with an [Exception]): the pending queue
    and the search read as empty, the count as 0, the duplicate check as
    "no duplicate" ([None]), [approve_strain] answers [None] and
    [rename_strain] and [add_rating] answer [False]; on a cache miss the
    listing of approved items is empty too, and it is not cached. None of
    them touches the sheets. *)
Theorem unreachable_sheet_reads_as_empty (beyond : string -> option (string -> bool))
    (m : manager) (ev : api_event) (rest : list api_event) (e : exn) :
  remote m = ev :: rest -> fault ev = Some e -> is_Exception e = true ->
  get_pending_strains m = (Ok (PList []), served (admitted m)) /\
  get_pending_strains_count m = (Ok (PInt 0), served (admitted m)) /\
  (forall query category,
     search_strains beyond query category m = (Ok (PList []), served (admitted m))) /\
  (forall strain_name harvest_date package_date category producer,
     check_strain_duplicate strain_name harvest_date package_date category producer m
     = (Ok PNone, served (admitted m))) /\
  (forall identifier,
     approve_strain identifier m = (Ok PNone, served (admitted m))) /\
  (forall unique_id new_name,
     rename_strain unique_id new_name m = (Ok (PBool false), served (admitted m))) /\
  (forall identifier user_id rating username category,
     add_rating identifier user_id rating username category m
     = (Ok (PBool false), served (admitted m))) /\
  (forall category,
     cache_hit ("all_approved_strains_" ++ category_or_all category) 120 m = None ->
     get_all_approved_strains category m = (Ok (PList []), served (admitted m))) /\
  strains_rows (served (admitted m)) = strains_rows m /\
  ratings_rows (served (admitted m)) = ratings_rows m /\
  cache (served (admitted m)) = cache m.
Proof.
  intros E F He.
  assert (Ea : remote (admitted m) = ev :: rest) by (now rewrite admitted_remote).
  pose proof (worksheet_head_fault "Strains" _ _ _ _ Ea F) as W.
  pose proof (worksheet_head_fault "Ratings" _ _ _ _ Ea F) as W'.
  repeat split.
  - unfold get_pending_strains, bind. rewrite safe_operation_run.
    unfold get_pending_strains_operation, bind. now rewrite W, He.
  - unfold get_pending_strains_count, bind. rewrite safe_operation_run.
    unfold get_pending_strains_count_operation, bind. now rewrite W, He.
  - intros query category. unfold search_strains, bind. rewrite safe_operation_run.
    unfold search_strains_operation, bind. now rewrite W, He.
  - intros. unfold check_strain_duplicate. rewrite safe_operation_run.
    unfold check_strain_duplicate_operation, try_except, bind. now rewrite W, He.
  - intros. unfold approve_strain, bind. rewrite safe_operation_run.
    unfold approve_strain_operation, bind. now rewrite W, He.
  - intros. unfold rename_strain, bind. rewrite safe_operation_run.
    unfold rename_strain_operation, try_except, bind. now rewrite W, He.
  - intros. unfold add_rating, bind. rewrite safe_operation_run.
    unfold _add_rating_operation, try_except, bind. now rewrite W', He.
  - intros category Hmiss. unfold get_all_approved_strains, bind.
    rewrite cached_operation_miss by exact Hmiss. rewrite safe_operation_run.
    unfold get_all_approved_strains_operation, bind. now rewrite W, He.
  - now autorewrite with served.
  - now autorewrite with served.
  - now autorewrite with served.
Qed.

Lemma unreachable_sheet_reads_as_empty_witness :
  pending (strains_rows (set_remote [ApiEvent 30 (Some APIError)] Sample.sheet))
    = [Sample.blueberry] /\
  fst (get_pending_strains_count (set_remote [ApiEvent 30 (Some APIError)] Sample.sheet))
    = Ok (PInt 0) /\
  fst (check_strain_duplicate "blue-dream" "01-12-2024" "15-12-2024" "Flower"
         (Some "Q-Farms") (set_remote [ApiEvent 30 (Some APIError)] Sample.sheet))
    = Ok PNone.
Proof.
  split; [reflexivity|].
  destruct (unreachable_sheet_reads_as_empty Sample.no_regex
              (set_remote [ApiEvent 30 (Some APIError)] Sample.sheet)
              (ApiEvent 30 (Some APIError)) [] APIError eq_refl eq_refl eq_refl)
    as (_ & H2 & _ & H4 & _).
  split.
  - rewrite H2. reflexivity.
  - rewrite H4. reflexivity.
Defined.

Lemma worksheet_head_ok name m ev rest :
  remote m = ev :: rest -> fault ev = None -> worksheet name m = (Ok name, served m).
Proof.
  intros E F. unfold worksheet, bind. now rewrite (api_call_head_ok _ _ _ E F).
Qed.

Lemma Strains_get_all_records_head_ok m ev rest :
  remote m = ev :: rest -> fault ev = None ->
  Strains_get_all_records m = (Ok (strains_rows m), served m).
Proof.
  intros E F. unfold Strains_get_all_records, bind.
  rewrite (api_call_head_ok _ _ _ E F). now autorewrite with served.
Qed.

Lemma Ratings_get_all_records_head_ok m ev rest :
  remote m = ev :: rest -> fault ev = None ->
  Ratings_get_all_records m = (Ok (ratings_rows m), served m).
Proof.
  intros E F. unfold Ratings_get_all_records, bind.
  rewrite (api_call_head_ok _ _ _ E F). now autorewrite with served.
Qed.

Lemma Ratings_append_row_head_ok r m ev rest :
  remote m = ev :: rest -> fault ev = None ->
  Ratings_append_row r m
  = (Ok tt, set_ratings (ratings_rows m ++ [r]) (served m)).
Proof.
  intros E F. unfold Ratings_append_row, bind.
  rewrite (api_call_head_ok _ _ _ E F). now autorewrite with served.
Qed.

Lemma Strains_get_all_records_head_fault m ev rest e :
  remote m = ev :: rest -> fault ev = Some e ->
  Strains_get_all_records m = (Raise e, served m).
Proof.
  intros E F. unfold Strains_get_all_records, bind.
  now rewrite (api_call_head_fault _ _ _ _ E F).
Qed.

(** X7. [add_rating] is not atomic. When the remote serves the five
    requests up to the insertion of the rating row and fails on the next
    one (the re-reading of the Strains sheet), the call answers [False] as
    if nothing had happened, but the rating row stays on the Ratings sheet
    while the item keeps its former average and total, and the cache is
    not cleared. The user cannot repeat the rating either: with the sheet
    reachable again, every new attempt on the same identifier is refused
    as a second rating. *)
Theorem interrupted_rating_stays_recorded (identifier : string) (user_id rating : Z)
    (username : string) (category : option string) (m : manager)
    (strain_data : Strains.row) (good : list api_event) (ev : api_event)
    (rest : list api_event) (e : exn) :
  remote m = (good ++ ev :: rest)%list ->
  length good = 5%nat ->
  Forall (fun g => fault g = None) good ->
  fault ev = Some e -> is_Exception e = true ->
  rated_strain identifier (filter_category category (strains_rows m))
    = Some strain_data ->
  Strains.Status strain_data = "Approved" ->
  already_rated (Strains.Unique_ID strain_data) user_id (ratings_rows m) = false ->
  exists m' date,
    add_rating identifier user_id rating username category m = (Ok (PBool false), m') /\
    ratings_rows m'
      = (ratings_rows m
         ++ [Ratings.Row (Z.of_nat (length (ratings_rows m)) + 1)
               (Strains.Unique_ID strain_data)
               (_format_user_id_for_sheets user_id) rating date
               (_sanitize_username username)])%list /\
    strains_rows m' = strains_rows m /\
    cache m' = cache m /\
    remote m' = rest /\
    (reliable m' ->
     forall rating2 username2,
       fst (add_rating identifier user_id rating2 username2 category m')
         = Ok (PBool false) /\
       ratings_rows (snd (add_rating identifier user_id rating2 username2 category m'))
         = ratings_rows m').
Proof.
  intros Hrem Hlen Hgood Hf He Hfind Hst Hnew.
  destruct good as [|e1 [|e2 [|e3 [|e4 [|e5 [|e6 good]]]]]]; try discriminate.
  inversion Hgood as [|? ? F1 G1]; subst.
  inversion G1 as [|? ? F2 G2]; subst.
  inversion G2 as [|? ? F3 G3]; subst.
  inversion G3 as [|? ? F4 G4]; subst.
  inversion G4 as [|? ? F5 _]; subst.
  cbn [app] in Hrem.
  assert (R0 : remote (admitted m) = e1 :: e2 :: e3 :: e4 :: e5 :: ev :: rest)
    by (now rewrite admitted_remote).
  pose proof (served_remote _ _ _ R0) as R1.
  pose proof (served_remote _ _ _ R1) as R2.
  pose proof (served_remote _ _ _ R2) as R3.
  pose proof (served_remote _ _ _ R3) as R4.
  pose proof (served_remote _ _ _ R4) as R5.
  set (m4 := served (served (served (served (admitted m))))) in *.
  set (row := Ratings.Row (Z.of_nat (length (ratings_rows m)) + 1)
                (Strains.Unique_ID strain_data)
                (_format_user_id_for_sheets user_id) rating (clock m4)
                (_sanitize_username username)).
  set (m6 := served (set_ratings (ratings_rows m4 ++ [row]) (served m4))).
  assert (Hcall : add_rating identifier user_id rating username category m
                  = (Ok (PBool false), m6)).
  { unfold add_rating, bind. rewrite safe_operation_run.
    unfold _add_rating_operation, try_except, bind.
    rewrite (worksheet_head_ok _ _ _ _ R0 F1).
    rewrite (worksheet_head_ok _ _ _ _ R1 F2).
    rewrite (Ratings_get_all_records_head_ok _ _ _ R2 F3).
    rewrite (Strains_get_all_records_head_ok _ _ _ R3 F4).
    autorewrite with served. rewrite Hfind, Hst, Hnew.
    change (negb ("Approved" =? "Approved")%string) with false. cbv iota.
    unfold datetime_now, time_time. fold m4.
    rewrite (Ratings_append_row_head_ok _ _ _ _ R4 F5).
    rewrite (Strains_get_all_records_head_fault
               (set_ratings _ (served m4)) ev rest e R5 Hf).
    rewrite He. reflexivity. }
  exists m6, (clock m4).
  split; [exact Hcall|].
  assert (Hrat : ratings_rows m6 = (ratings_rows m ++ [row])%list).
  { subst m6 m4. now autorewrite with served. }
  assert (Hstr : strains_rows m6 = strains_rows m).
  { subst m6 m4. rewrite served_strains. cbn. now autorewrite with served. }
  split; [exact Hrat|]. split; [exact Hstr|]. split.
  { subst m6 m4. rewrite served_cache. cbn. now autorewrite with served. }
  split.
  { subst m6. now apply (served_remote _ ev). }
  intros Hrel rating2 username2.
  destruct (add_rating_rejected identifier user_id rating2 username2 category m6
              strain_data Hrel) as (m7 & E7 & _ & H7).
  - now rewrite Hstr.
  - apply (already_rated_true _ _ _ row).
    + rewrite Hrat. apply in_or_app. right. now left.
    + reflexivity.
    + now left.
  - rewrite E7. now split.
Qed.

Lemma interrupted_rating_stays_recorded_witness :
  exists m',
    add_rating "blue dream" 1 8 "al" None
      (set_remote [ApiEvent (1 # 4) None; ApiEvent (1 # 2) None; ApiEvent (1 # 4) None;
                   ApiEvent (1 # 4) None; ApiEvent (1 # 2) None;
                   ApiEvent 30 (Some APIError)] Sample.sheet)
      = (Ok (PBool false), m') /\
    List.map Ratings.Rating (ratings_rows m') = [8] /\
    strains_rows m' = [Sample.blueberry; Sample.blue_dream; Sample.sour_diesel].
Proof.
  destruct (interrupted_rating_stays_recorded "blue dream" 1 8 "al" None
              (set_remote [ApiEvent (1 # 4) None; ApiEvent (1 # 2) None;
                           ApiEvent (1 # 4) None; ApiEvent (1 # 4) None;
                           ApiEvent (1 # 2) None;
                           ApiEvent 30 (Some APIError)] Sample.sheet)
              Sample.blue_dream
              [ApiEvent (1 # 4) None; ApiEvent (1 # 2) None; ApiEvent (1 # 4) None;
               ApiEvent (1 # 4) None; ApiEvent (1 # 2) None]
              (ApiEvent 30 (Some APIError)) [] APIError)
    as (m' & date & E & Hr & Hs & _).
  - reflexivity.
  - reflexivity.
  - repeat constructor.
  - reflexivity.
  - reflexivity.
  - reflexivity.
  - reflexivity.
  - reflexivity.
  - exists m'. split; [exact E|]. rewrite Hr, Hs. split; reflexivity.
Defined.

(** ** The top of the listing *)

Lemma filter_sorted_desc {A} (key : A -> Q) (p : A -> bool) (l : list A) :
  List.filter p (sorted_desc key l) = sorted_desc key (List.filter p l).
Proof.
  induction l as [|x l IH]; [reflexivity|].
  cbn [sorted_desc fold_right]. fold (sorted_desc key l).
  rewrite filter_insert_desc by apply sorted_desc_sorted.
  cbn [List.filter]. destruct (p x); [|exact IH].
  cbn [sorted_desc fold_right]. fold (sorted_desc key (List.filter p l)).
  now rewrite IH.
Qed.

Lemma insert_desc_ext {A} (key1 key2 : A -> Q) (x : A) (l : list A) :
  key1 x = key2 x -> Forall (fun y => key1 y = key2 y) l ->
  insert_desc key1 x l = insert_desc key2 x l.
Proof.
  intros Hx. induction 1 as [|y l Hy _ IH]; [reflexivity|].
  cbn [insert_desc]. now rewrite Hx, Hy, IH.
Qed.

Lemma sorted_desc_ext {A} (key1 key2 : A -> Q) (l : list A) :
  Forall (fun y => key1 y = key2 y) l ->
  sorted_desc key1 l = sorted_desc key2 l.
Proof.
  induction 1 as [|x l Hx Hl IH]; [reflexivity|].
  cbn [sorted_desc fold_right].
  fold (sorted_desc key1 l). fold (sorted_desc key2 l).
  rewrite IH. apply insert_desc_ext; [exact Hx|].
  now rewrite sorted_desc_perm.
Qed.

Lemma filter_filter {A} (f g : A -> bool) (l : list A) :
  List.filter f (List.filter g l) = List.filter (fun x => g x && f x) l.
Proof.
  induction l as [|x l IH]; [reflexivity|].
  cbn [List.filter]. destruct (g x); cbn [List.filter andb]; now rewrite IH.
Qed.

Lemma descending_by_firstn {A} (key : A -> Q) (n : nat) (l : list A) :
  descending_by key l -> descending_by key (firstn n l).
Proof.
  unfold descending_by. intros H. revert n.
  induction H as [|x l Hs IH Hx]; intros [|n]; cbn [firstn]; try constructor.
  - apply IH.
  - apply Forall_forall. intros z Hz. rewrite Forall_forall in Hx. apply Hx.
    apply list_elem_of_In in Hz. apply list_elem_of_In.
    rewrite <- (firstn_skipn n l). apply in_or_app. now left.
Qed.

Lemma get_top_strains_for_status_miss category limit m :
  reliable m ->
  cache_hit ("top_strains_" ++ category ++ "_" ++ Py.str_of_int limit) 120 m = None ->
  fst (get_top_strains_for_status category limit m)
  = Ok (PList (slice_to limit
                 (sorted_desc Strains.Average_Rating
                    (List.filter
                       (fun r => String.eqb (Strains.Status r) "Approved"
                                 && (0 <? Strains.Total_Ratings r)
                                 && String.eqb (Py.lower (Strains.Category r))
                                      (Py.lower category))
                       (strains_rows m))))).
Proof.
  intros H Hmiss. unfold get_top_strains_for_status, bind.
  rewrite cached_operation_miss by exact Hmiss.
  rewrite safe_operation_run.
  unfold get_top_strains_for_status_operation, bind.
  rewrite worksheet_reliable by auto with served.
  rewrite Strains_get_all_records_reliable by auto with served.
  autorewrite with served. cbn. now rewrite py_or_list.
Qed.

(** X8. The top list of a category, read from the sheet (no fresh cache
    entry): its items are Approved, have at least one rating and are of
    the category (up to letter case); they come in descending order of
    average, items with equal averages in sheet order; a limit of zero or
    more bounds their number. For a category other than the empty string
    the list is the head of the rated part of [get_all_approved_strains]
    for that category: the first [limit] rated items of that listing. A
    negative limit is a Python slice bound: the list then leaves out the
    last [-limit] qualifying items. *)
Theorem top_strains_head_the_listing (category : string) (limit : Z) (m : manager) :
  reliable m ->
  cache_hit ("top_strains_" ++ category ++ "_" ++ Py.str_of_int limit) 120 m = None ->
  exists top,
    fst (get_top_strains_for_status category limit m) = Ok (PList top) /\
    Forall (fun r => In r (strains_rows m) /\
                     Strains.Status r = "Approved" /\ 0 < Strains.Total_Ratings r /\
                     Py.lower (Strains.Category r) = Py.lower category) top /\
    descending_by Strains.Average_Rating top /\
    (0 <= limit -> (length top <= Z.to_nat limit)%nat) /\
    (category <> "" ->
     top = slice_to limit
             (List.filter rated
                (sorted_desc sort_key
                   (approved_in (Some category) (strains_rows m))))) /\
    (limit < 0 ->
     forall qualifying,
       qualifying = List.filter rated
                      (List.filter
                         (fun r => String.eqb (Py.lower (Strains.Category r))
                                     (Py.lower category))
                         (List.filter
                            (fun r => String.eqb (Strains.Status r) "Approved")
                            (strains_rows m))) ->
       length top = (length qualifying - Z.to_nat (- limit))%nat).
Proof.
  intros H Hmiss.
  set (q := fun r => String.eqb (Strains.Status r) "Approved"
                     && (0 <? Strains.Total_Ratings r)
                     && String.eqb (Py.lower (Strains.Category r)) (Py.lower category)).
  set (full := sorted_desc Strains.Average_Rating (List.filter q (strains_rows m))).
  exists (slice_to limit full).
  split; [now apply get_top_strains_for_status_miss|].
  assert (Hslice : exists n, slice_to limit full = firstn n full).
  { unfold slice_to. destruct (0 <=? limit); eexists; reflexivity. }
  destruct Hslice as (n & Hn).
  assert (Hq : List.filter rated
                 (List.filter
                    (fun r => String.eqb (Py.lower (Strains.Category r))
                                (Py.lower category))
                    (List.filter (fun r => String.eqb (Strains.Status r) "Approved")
                       (strains_rows m)))
               = List.filter q (strains_rows m)).
  { rewrite !filter_filter. apply List.filter_ext. intros r. subst q. cbn.
    unfold rated.
    destruct (String.eqb (Strains.Status r) "Approved"),
             (String.eqb (Py.lower (Strains.Category r)) (Py.lower category)),
             (0 <? Strains.Total_Ratings r); reflexivity. }
  split; [|split; [|split; [|split]]].
  - rewrite Hn. apply Forall_forall. intros r Hr.
    apply list_elem_of_In in Hr.
    assert (Hin : In r full).
    { rewrite <- (firstn_skipn n full). apply in_or_app. now left. }
    subst full. apply list_elem_of_In in Hin. rewrite sorted_desc_perm in Hin.
    apply list_elem_of_In, List.filter_In in Hin as [Hin Hqr]. subst q. cbn in Hqr.
    apply andb_true_iff in Hqr as [Hqr Hc]. apply andb_true_iff in Hqr as [Hs Ht].
    split; [exact Hin|]. split; [now apply String.eqb_eq|].
    split; [now apply Z.ltb_lt | now apply String.eqb_eq].
  - rewrite Hn. apply descending_by_firstn. apply sorted_desc_sorted.
  - intros Hl. unfold slice_to. apply Z.leb_le in Hl. rewrite Hl.
    rewrite length_firstn. lia.
  - intros Hc. f_equal. subst full.
    rewrite filter_sorted_desc. unfold approved_in, filter_category.
    assert (Ht : Py.truthy_opt (Some category) = true) by (now destruct category).
    rewrite Ht. change (default "" (Some category)) with category. rewrite Hq.
    symmetry. apply sorted_desc_ext. apply Forall_forall. intros r Hr.
    apply list_elem_of_In, List.filter_In in Hr as [_ Hqr]. subst q. cbn in Hqr.
    apply andb_true_iff in Hqr as [Hqr _]. apply andb_true_iff in Hqr as [_ Hr].
    unfold sort_key. now rewrite Hr.
  - intros Hl qualifying ->. rewrite Hq. unfold slice_to.
    assert (E : (0 <=? limit) = false) by (apply Z.leb_gt; lia).
    rewrite E. rewrite length_firstn. subst full.
    rewrite (Permutation_length (sorted_desc_perm _ _)). lia.
Qed.

Lemma top_strains_head_the_listing_witness :
  reliable Sample.sheet /\
  fst (get_top_strains_for_status "Hash" 10 Sample.sheet)
    = Ok (PList [Sample.sour_diesel]).
Proof.
  assert (H : reliable Sample.sheet) by (repeat constructor).
  split; [exact H|].
  destruct (top_strains_head_the_listing "Hash" 10 Sample.sheet H eq_refl)
    as (top & E & _ & _ & _ & Heq & _).
  rewrite E. rewrite Heq by discriminate. reflexivity.
Defined.

(** ** Search and the two lookups *)

Lemma prefix_refl (s : string) : String.prefix s s = true.
Proof.
  induction s as [|c s IH]; [reflexivity|].
  simpl. now destruct (Ascii.ascii_dec c c).
Qed.

Lemma contains_refl (s : string) : Py.contains s s = true.
Proof.
  destruct s as [|c s]; [reflexivity|].
  cbn [Py.contains]. now rewrite prefix_refl.
Qed.

Lemma lower_upper_char (c : ascii) :
  Py.lower_char (Py.upper_char c) = Py.lower_char c.
Proof. destruct c as [[] [] [] [] [] [] [] []]; reflexivity. Qed.

Lemma lower_upper (s : string) : Py.lower (Py.upper s) = Py.lower s.
Proof.
  induction s as [|c s IH]; [reflexivity|].
  unfold Py.lower, Py.upper in *. cbn [Py.map_chars].
  now rewrite lower_upper_char, IH.
Qed.

Lemma id_matches_partial query r :
  id_matches query r = true -> partial_match query r = true.
Proof.
  unfold id_matches, partial_match. intros H. apply String.eqb_eq in H.
  apply (f_equal Py.lower) in H. rewrite !lower_upper in H.
  rewrite H, contains_refl. apply orb_true_r.
Qed.

Lemma name_matches_partial query r :
  name_matches query r = true -> partial_match query r = true.
Proof.
  unfold name_matches, partial_match. intros H. apply String.eqb_eq in H.
  now rewrite H, contains_refl.
Qed.

Lemma name_contains_partial query r :
  name_contains query r = true -> partial_match query r = true.
Proof. unfold name_contains, partial_match. now intros ->. Qed.

Lemma search_strains_reliable beyond query category m :
  reliable m -> has_wildcard query = false ->
  fst (search_strains beyond query category m)
  = Ok (PList (firstn 10 (List.filter (partial_match query)
                            (filter_category category (strains_rows m))))).
Proof.
  intros H Hw. unfold search_strains, bind. rewrite safe_operation_run.
  unfold search_strains_operation, bind.
  rewrite worksheet_reliable by auto with served.
  rewrite Strains_get_all_records_reliable by auto with served.
  autorewrite with served. rewrite Hw. cbn. now rewrite py_or_list.
Qed.

Lemma find_some_In {A} (p : A -> bool) (l : list A) (r : A) :
  List.find p l = Some r -> In r l /\ p r = true.
Proof. apply List.find_some. Qed.

(** X9. [search_strains] on a query without wildcard, the sheet being
    reachable: the result is the first ten, in sheet order, of the items
    of the category whose name or unique id contains the query (up to
    letter case). Every result matches; when fewer than ten items match,
    every matching item is listed. Whatever item
    [get_strain_by_identifier] resolves the same text to, by id, by name
    or by partial name, is one of the matching items, so it is listed
    unless ten earlier matches take its place. *)
Theorem search_lists_what_lookup_finds (beyond : string -> option (string -> bool))
    (query : string) (category : option string) (m : manager) :
  reliable m -> has_wildcard query = false ->
  let records := filter_category category (strains_rows m) in
  let matching := List.filter (partial_match query) records in
  exists results,
    fst (search_strains beyond query category m) = Ok (PList results) /\
    results = firstn 10 matching /\
    (length results <= 10)%nat /\
    Forall (fun r => In r records /\ partial_match query r = true) results /\
    ((length matching <= 10)%nat -> results = matching) /\
    (forall r,
       fst (get_strain_by_identifier_operation beyond query category m) = Ok (PDict r) ->
       In r matching).
Proof.
  intros H Hw records matching.
  exists (firstn 10 matching).
  split; [now apply search_strains_reliable|]. split; [reflexivity|].
  split; [rewrite length_firstn; lia|]. split; [|split].
  - apply Forall_forall. intros r Hr. apply list_elem_of_In in Hr.
    assert (Hin : In r matching).
    { rewrite <- (firstn_skipn 10 matching). apply in_or_app. now left. }
    now apply List.filter_In in Hin.
  - intros Hl. now apply firstn_all2.
  - intros r. rewrite get_strain_by_identifier_operation_reliable by exact H.
    cbv zeta. fold records. rewrite Hw.
    destruct (List.find (id_matches query) records) as [r1|] eqn:E1.
    { intros [= <-]. apply find_some_In in E1 as [Hin Hp].
      apply List.filter_In. split; [exact Hin | now apply id_matches_partial]. }
    destruct (List.find (name_matches query) records) as [r2|] eqn:E2.
    { intros [= <-]. apply find_some_In in E2 as [Hin Hp].
      apply List.filter_In. split; [exact Hin | now apply name_matches_partial]. }
    destruct (List.find (name_contains query) records) as [r3|] eqn:E3.
    { intros [= <-]. apply find_some_In in E3 as [Hin Hp].
      apply List.filter_In. split; [exact Hin | now apply name_contains_partial]. }
    discriminate.
Qed.

Lemma search_lists_what_lookup_finds_witness :
  reliable Sample.sheet /\ has_wildcard "blue" = false /\
  fst (search_strains Sample.no_regex "blue" None Sample.sheet)
    = Ok (PList [Sample.blueberry; Sample.blue_dream]).
Proof.
  assert (H : reliable Sample.sheet) by (repeat constructor).
  split; [exact H|]. split; [reflexivity|].
  destruct (search_lists_what_lookup_finds Sample.no_regex "blue" None Sample.sheet
              H eq_refl) as (results & E & -> & _).
  rewrite E. reflexivity.
Defined.

(** X10. The lookup of [add_rating] and [get_strain_by_identifier]. The
    rating takes the first row that matches the identifier by id or by
    name; the lookup takes the first id match, and a name match only when
    no row has the id. They give the same item when the row the rating
    takes matches by id, or when no row matches by id. When no row matches
    by id or by name the rating has no item, even where the lookup finds
    one by a wildcard or by a part of the name: [add_rating] then answers
    [False]. *)
Theorem rating_lookup_agrees_with_resolution (beyond : string -> option (string -> bool))
    (identifier : string) (category : option string) (m : manager) :
  reliable m ->
  let records := filter_category category (strains_rows m) in
  let answer := fst (get_strain_by_identifier_operation beyond identifier category m) in
  (forall r, rated_strain identifier records = Some r ->
     (id_matches identifier r = true \/
      Forall (fun x => id_matches identifier x = false) records) ->
     answer = Ok (PDict r)) /\
  (forall r, rated_strain identifier records = Some r ->
     exists r', answer = Ok (PDict r') /\
                (id_matches identifier r' || name_matches identifier r') = true) /\
  (rated_strain identifier records = None <->
   Forall (fun x => id_matches identifier x = false) records /\
   Forall (fun x => name_matches identifier x = false) records) /\
  (rated_strain identifier records = None ->
   forall user_id rating username,
     fst (add_rating identifier user_id rating username category m) = Ok (PBool false)).
Proof.
  intros H records answer. subst answer.
  rewrite get_strain_by_identifier_operation_reliable by exact H.
  cbv zeta. fold records.
  assert (Hboth : forall l,
            List.find (fun s => id_matches identifier s || name_matches identifier s) l
              = None <->
            Forall (fun x => id_matches identifier x = false) l /\
            Forall (fun x => name_matches identifier x = false) l).
  { intros l. rewrite !find_none_Forall. rewrite <- Forall_and.
    split; intros HF; (eapply Forall_impl; [exact HF|]); cbn; intros x Hx.
    - now apply orb_false_iff.
    - now apply orb_false_iff. }
  split; [|split; [|split]].
  - intros r Hr Hcase. unfold rated_strain in Hr.
    apply find_first_such in Hr as (l1 & l2 & Hl & Hp & Hl1).
    assert (Hl1' : Forall (fun x => id_matches identifier x = false) l1 /\
                   Forall (fun x => name_matches identifier x = false) l1).
    { rewrite <- Forall_and. eapply Forall_impl; [exact Hl1|]. cbn. intros x Hx.
      now apply orb_false_iff. }
    destruct Hl1' as [Hid Hname].
    destruct Hcase as [Hc|Hc].
    + assert (E : List.find (id_matches identifier) records = Some r).
      { apply find_first_such. now exists l1, l2. }
      now rewrite E.
    + assert (E : List.find (id_matches identifier) records = None)
        by now apply find_none_Forall.
      rewrite E.
      assert (Hn : name_matches identifier r = true).
      { rewrite Hl in Hc. apply Forall_app in Hc as [_ Hc].
        inversion Hc as [|? ? Hr0 _]; subst. rewrite Hr0 in Hp. exact Hp. }
      assert (E2 : List.find (name_matches identifier) records = Some r).
      { apply find_first_such. now exists l1, l2. }
      now rewrite E2.
  - intros r Hr.
    destruct (List.find (id_matches identifier) records) as [r1|] eqn:E1.
    { exists r1. split; [reflexivity|]. apply find_some_In in E1 as [_ ->].
      reflexivity. }
    destruct (List.find (name_matches identifier) records) as [r2|] eqn:E2.
    { exists r2. split; [reflexivity|]. apply find_some_In in E2 as [_ ->].
      apply orb_true_r. }
    exfalso. unfold rated_strain in Hr.
    assert (Hnone : List.find
                      (fun s => id_matches identifier s || name_matches identifier s)
                      records = None).
    { apply Hboth. split; now apply find_none_Forall. }
    congruence.
  - apply Hboth.
  - intros Hnone user_id rating username.
    unfold add_rating, bind. rewrite safe_operation_run.
    unfold _add_rating_operation, try_except, bind.
    rewrite worksheet_reliable by auto with served.
    rewrite worksheet_reliable by auto with served.
    rewrite Ratings_get_all_records_reliable by auto with served.
    rewrite Strains_get_all_records_reliable by auto with served.
    autorewrite with served. fold records. rewrite Hnone. reflexivity.
Qed.

Lemma rating_lookup_agrees_with_resolution_witness :
  reliable Sample.sheet /\
  rated_strain "sour" (filter_category None (strains_rows Sample.sheet)) = None /\
  fst (get_strain_by_identifier_operation Sample.no_regex "sour" None Sample.sheet)
    = Ok (PDict Sample.sour_diesel) /\
  fst (add_rating "sour" 1 9 "al" None Sample.sheet) = Ok (PBool false).
Proof.
  assert (H : reliable Sample.sheet) by (repeat constructor).
  split; [exact H|]. split; [reflexivity|]. split; [reflexivity|].
  apply (proj2 (proj2 (proj2 (rating_lookup_agrees_with_resolution Sample.no_regex
                                "sour" None Sample.sheet H)))).
  reflexivity.
Defined.

(** ** The request limiter *)

(** X11. [RateLimiter.wait_if_needed] with 90 requests per 60 seconds.
    The call is recorded with the time read on entry, after the requests
    that are less than 60 seconds old at that time, in their order; older
    ones are forgotten. With fewer than 90 of them left the call does not
    sleep. With 90 or more it always sleeps (the test [sleep_time > 0]
    never fails), for more than a tenth of a second, and wakes up when the
    oldest request left is 60.1 seconds old, that is, out of the window. *)
Theorem wait_if_needed_window (m : manager) :
  let now := clock m in
  let kept := List.filter (fun t => Qltb (now - t) time_window) (requests m) in
  let m' := snd (wait_if_needed m) in
  fst (wait_if_needed m) = Ok tt /\
  requests m' = (kept ++ [now])%list /\
  Forall (fun t => (now - t < 60)%Q) kept /\
  ((length kept < 90)%nat -> clock m' = now) /\
  ((90 <= length kept)%nat ->
   exists oldest others,
     kept = oldest :: others /\
     (now + (1 # 10) < clock m')%Q /\
     (clock m' - oldest == 60 + (1 # 10))%Q /\
     Qltb (clock m' - oldest) time_window = false).
Proof.
  intros now kept m'. subst m'.
  assert (Hkept : Forall (fun t => (now - t < 60)%Q) kept).
  { apply Forall_forall. intros t Ht.
    apply list_elem_of_In, List.filter_In in Ht as [_ Ht]. now apply Qltb_true in Ht. }
  unfold wait_if_needed, bind, time_time. cbv zeta. fold now. fold kept.
  unfold max_requests.
  destruct (90 <=? length kept)%nat eqn:E.
  - apply Nat.leb_le in E.
    destruct kept as [|oldest others] eqn:K; [cbn in E; lia|].
    cbn [hd].
    inversion Hkept as [|? ? Hold _]; subst.
    assert (Hpos : Qltb 0 (time_window - (now - oldest) + (1 # 10)) = true).
    { apply Qltb_true. unfold time_window. lra. }
    rewrite Hpos. cbn.
    split; [reflexivity|]. split; [reflexivity|]. split; [exact Hkept|].
    split; [intros Hl; cbn in E; lia|].
    intros _. exists oldest, others. split; [reflexivity|].
    fold now. unfold time_window.
    split; [lra|]. split; [ring|].
    apply Qltb_false. lra.
  - apply Nat.leb_gt in E. cbn.
    split; [reflexivity|]. split; [reflexivity|]. split; [exact Hkept|].
    split; [reflexivity|]. intros Hl. lia.
Qed.

(** ** Normalized names *)

Lemma keep_chars_app (p : ascii -> bool) (a b : string) :
  keep_chars p (a ++ b) = keep_chars p a ++ keep_chars p b.
Proof.
  induction a as [|c a IH]; [now rewrite !append_nil|].
  rewrite append_cons. cbn [keep_chars]. destruct (p c); [|exact IH].
  now rewrite append_cons, IH.
Qed.

Lemma map_chars_app (f : ascii -> ascii) (a b : string) :
  Py.map_chars f (a ++ b) = Py.map_chars f a ++ Py.map_chars f b.
Proof.
  induction a as [|c a IH]; [now rewrite !append_nil|].
  rewrite append_cons. cbn [Py.map_chars]. now rewrite append_cons, IH.
Qed.

Lemma is_alnum_lower_char (c : ascii) : is_alnum (Py.lower_char c) = is_alnum c.
Proof. destruct c as [[] [] [] [] [] [] [] []]; reflexivity. Qed.

Lemma lower_lower_char (c : ascii) :
  Py.lower_char (Py.lower_char c) = Py.lower_char c.
Proof. destruct c as [[] [] [] [] [] [] [] []]; reflexivity. Qed.

Lemma alnum_lower_char (c : ascii) :
  is_alnum c = true ->
  Py.is_lower (Py.lower_char c) || Py.is_digit (Py.lower_char c) = true.
Proof. destruct c as [[] [] [] [] [] [] [] []]; cbv; congruence. Qed.

Lemma lower_digit_fixed (c : ascii) :
  Py.is_lower c || Py.is_digit c = true ->
  Py.lower_char c = c /\ is_alnum c = true.
Proof. destruct c as [[] [] [] [] [] [] [] []]; cbv; intuition congruence. Qed.

Lemma _normalize_strain_name_cons (c : ascii) (s : string) :
  _normalize_strain_name (String c s)
  = if is_alnum c then String (Py.lower_char c) (_normalize_strain_name s)
    else _normalize_strain_name s.
Proof.
  unfold _normalize_strain_name, Py.lower. cbn [Py.map_chars keep_chars].
  now rewrite is_alnum_lower_char.
Qed.

Lemma _normalize_strain_name_alphabet (name : string) :
  all_chars (fun c => Py.is_lower c || Py.is_digit c) (_normalize_strain_name name)
  = true.
Proof.
  induction name as [|c s IH]; [reflexivity|].
  rewrite _normalize_strain_name_cons. destruct (is_alnum c) eqn:E; [|exact IH].
  cbn [all_chars]. now rewrite alnum_lower_char, IH.
Qed.

Lemma _normalize_strain_name_fixed (s : string) :
  all_chars (fun c => Py.is_lower c || Py.is_digit c) s = true ->
  _normalize_strain_name s = s.
Proof.
  induction s as [|c s IH]; [reflexivity|].
  cbn [all_chars]. intros H. apply andb_true_iff in H as [Hc Hs].
  rewrite _normalize_strain_name_cons.
  destruct (lower_digit_fixed c Hc) as [-> ->]. now rewrite IH.
Qed.

Lemma _normalize_strain_name_map (f : ascii -> ascii) (s : string) :
  (forall c, Py.lower_char (f c) = Py.lower_char c) ->
  _normalize_strain_name (Py.map_chars f s) = _normalize_strain_name s.
Proof.
  intros Hf. induction s as [|c s IH]; [reflexivity|].
  cbn [Py.map_chars]. rewrite !_normalize_strain_name_cons, IH, Hf.
  now rewrite <- (is_alnum_lower_char (f c)), Hf, is_alnum_lower_char.
Qed.

(** X12. [_normalize_strain_name] keeps the letters and digits of a name,
    letters in lower case, and nothing else: its results are words over
    a-z and 0-9, and such words are left as they are, so normalizing twice
    changes nothing. It ignores letter case, it ignores every character
    that is not a letter or a digit, wherever it stands, and it
    distributes over concatenation. Names that differ only in case,
    spacing or punctuation are therefore the same name for the duplicate
    check. *)
Theorem normalized_names_ignore_case_and_punctuation (name : string) :
  all_chars (fun c => Py.is_lower c || Py.is_digit c) (_normalize_strain_name name)
    = true /\
  (forall s, all_chars (fun c => Py.is_lower c || Py.is_digit c) s = true ->
             _normalize_strain_name s = s) /\
  _normalize_strain_name (_normalize_strain_name name) = _normalize_strain_name name /\
  _normalize_strain_name (Py.upper name) = _normalize_strain_name name /\
  _normalize_strain_name (Py.lower name) = _normalize_strain_name name /\
  (forall a b, _normalize_strain_name (a ++ b)
               = _normalize_strain_name a ++ _normalize_strain_name b) /\
  (forall a c b, is_alnum c = false ->
     _normalize_strain_name (a ++ String c b) = _normalize_strain_name (a ++ b)) /\
  (forall other harvest_date package_date category producer record,
     _normalize_strain_name other = _normalize_strain_name name ->
     duplicate_of other harvest_date package_date category producer record
     = duplicate_of name harvest_date package_date category producer record).
Proof.
  assert (Happ : forall a b, _normalize_strain_name (a ++ b)
                             = _normalize_strain_name a ++ _normalize_strain_name b).
  { intros a b. unfold _normalize_strain_name, Py.lower.
    now rewrite map_chars_app, keep_chars_app. }
  split; [apply _normalize_strain_name_alphabet|].
  split; [apply _normalize_strain_name_fixed|].
  split; [apply _normalize_strain_name_fixed, _normalize_strain_name_alphabet|].
  split; [apply _normalize_strain_name_map, lower_upper_char|].
  split; [apply _normalize_strain_name_map, lower_lower_char|].
  split; [exact Happ|]. split.
  - intros a c b Hc. rewrite !Happ, _normalize_strain_name_cons. now rewrite Hc.
  - intros other harvest_date package_date category producer record Heq.
    unfold duplicate_of. now rewrite Heq.
Qed.

(** ** Names and producers as they are stored *)

Lemma replace_quote_by_itself (s : string) : Py.replace_char "'" "'" s = s.
Proof.
  induction s as [|c s IH]; [reflexivity|].
  cbn [Py.replace_char]. rewrite IH.
  destruct (Ascii.eqb_spec c "'") as [->|]; reflexivity.
Qed.

Lemma length_take (n : nat) (s : string) : (String.length (Py.take n s) <= n)%nat.
Proof.
  revert s. induction n as [|n IH]; intros [|c s]; cbn; try lia.
  specialize (IH s). lia.
Qed.

Lemma take_all (n : nat) (s : string) :
  (String.length s <= n)%nat -> Py.take n s = s.
Proof.
  revert s. induction n as [|n IH]; intros [|c s]; cbn; intros H; try reflexivity;
    try lia.
  rewrite IH by lia. reflexivity.
Qed.

Lemma lstrip_by_all (p : ascii -> bool) (s : string) :
  all_chars p s = true -> Py.lstrip_by p s = "".
Proof.
  induction s as [|c s IH]; [reflexivity|].
  cbn [all_chars Py.lstrip_by]. intros H. apply andb_true_iff in H as [Hc Hs].
  rewrite Hc. now apply IH.
Qed.

(** X13. What [_sanitize_username] and [_sanitize_producer] store. Both
    cut the text, stripped of surrounding whitespace, at 50 characters;
    the [replace] of [_sanitize_username] puts an apostrophe where it
    finds one, so apostrophes stay in user names. A text of at most 50
    characters without surrounding whitespace is stored as it is. The
    empty text gives the empty user name and the producer ["Unknown"],
    but a producer made of whitespace only is stored as the empty text. *)
Theorem sanitizers_strip_and_cut (s : string) :
  (s <> "" -> _sanitize_username s = Py.take 50 (Py.strip s)) /\
  (s <> "" -> _sanitize_producer s = Py.take 50 (Py.strip s)) /\
  (String.length (_sanitize_username s) <= 50)%nat /\
  (String.length (_sanitize_producer s) <= 50)%nat /\
  (s <> "" -> Py.strip s = s -> (String.length s <= 50)%nat ->
   _sanitize_username s = s /\ _sanitize_producer s = s) /\
  _sanitize_username "" = "" /\ _sanitize_producer "" = "Unknown" /\
  (s <> "" -> all_chars Py.is_space s = true ->
   _sanitize_username s = "" /\ _sanitize_producer s = "").
Proof.
  assert (Hu : s <> "" -> _sanitize_username s = Py.take 50 (Py.strip s)).
  { intros Hs. unfold _sanitize_username. rewrite replace_quote_by_itself.
    now destruct s. }
  assert (Hp : s <> "" -> _sanitize_producer s = Py.take 50 (Py.strip s)).
  { intros Hs. unfold _sanitize_producer. now destruct s. }
  split; [exact Hu|]. split; [exact Hp|]. split; [|split; [|split; [|split; [|split]]]].
  - destruct s as [|c s]; [cbn; lia|]. rewrite Hu by discriminate. apply length_take.
  - destruct s as [|c s]; [cbn; lia|]. rewrite Hp by discriminate. apply length_take.
  - intros Hs Hstrip Hlen. rewrite Hu, Hp by exact Hs. rewrite Hstrip.
    now rewrite take_all.
  - reflexivity.
  - reflexivity.
  - intros Hs Hall. rewrite Hu, Hp by exact Hs.
    unfold Py.strip. rewrite (lstrip_by_all _ _ Hall). now split.
Qed.

Lemma sanitizers_strip_and_cut_witness :
  _sanitize_username "O'Neil" = "O'Neil" /\ _sanitize_producer "   " = "".
Proof.
  split.
  - apply (proj1 (proj2 (proj2 (proj2 (proj2 (sanitizers_strip_and_cut "O'Neil")))))
             ltac:(discriminate) eq_refl).
    cbn. lia.
  - apply (proj2 (proj2 (proj2 (proj2 (proj2 (proj2 (proj2
             (sanitizers_strip_and_cut "   ")))))))
             ltac:(discriminate) eq_refl).
Defined.

(** * Properties of the per-user limiter *)

Module AdvancedRateLimiterFacts.
Import AdvancedRateLimiter.

Lemma recent_later (window t now : Q) (calls : list Q) :
  (now <= t)%Q -> recent t window (recent now window calls) = recent t window calls.
Proof.
  intros Hle. unfold recent. induction calls as [|c calls IH]; [reflexivity|].
  cbn [List.filter].
  destruct (Qltb (now - c) window) eqn:E1; cbn [List.filter].
  - now rewrite IH.
  - destruct (Qltb (t - c) window) eqn:E2; [|exact IH].
    apply Qltb_true in E2. apply Qltb_false in E1. lra.
Qed.

Lemma recent_app (window t : Q) (l1 l2 : list Q) :
  recent t window (l1 ++ l2) = (recent t window l1 ++ recent t window l2)%list.
Proof. apply List.filter_app. Qed.

Lemma length_recent (window t : Q) (calls : list Q) :
  (length (recent t window calls) <= length calls)%nat.
Proof. apply List.filter_length_le. Qed.

Lemma let_through_app user_id window t (l1 l2 : list (Z * Q)) :
  let_through user_id window t (l1 ++ l2)
  = (let_through user_id window t l1 ++ let_through user_id window t l2)%list.
Proof. apply List.filter_app. Qed.

(** What the dictionary holds for each user, seen from any later time:
    the calls of the user that were let through and are still in the
    window; there are at most [limit] of them. *)
Lemma run_invariant limit window s log t :
  0 <= limit -> run limit window s log t ->
  forall user_id T, (t <= T)%Q ->
    recent T window (default [] (user_requests s !! user_id))
      = List.map snd (let_through user_id window T log) /\
    Z.of_nat (length (recent T window (default [] (user_requests s !! user_id))))
      <= limit.
Proof.
  intros Hl Hrun. induction Hrun as [t|s log t c now Hrun IH Hle]; intros u T HT.
  - cbn. rewrite lookup_empty. cbn. split; [reflexivity | lia].
  - assert (HT' : (t <= T)%Q) by lra.
    destruct (IH u T HT') as [IH1 IH2].
    destruct c as [v|g|v]; cbn [step fst snd].
    + unfold check_user_limit.
      set (calls := recent now window (default [] (user_requests s !! v))).
      destruct (limit <=? Z.of_nat (length calls)) eqn:E; cbn [fst snd user_requests].
      * destruct (decide (v = u)) as [->|Hne].
        -- rewrite lookup_insert_eq. cbn [default from_option id].
           subst calls. rewrite recent_later by exact HT. now split.
        -- rewrite lookup_insert_ne by exact Hne. now split.
      * apply Z.leb_gt in E.
        rewrite let_through_app, map_app.
        destruct (decide (v = u)) as [->|Hne].
        -- rewrite lookup_insert_eq. cbn [default from_option id].
           rewrite recent_app. subst calls. rewrite recent_later by exact HT.
           rewrite IH1. split.
           ++ f_equal. unfold recent, let_through. cbn [List.filter fst snd].
              rewrite Z.eqb_refl. cbn [andb]. now destruct (Qltb (T - now) window).
           ++ rewrite <- IH1. rewrite length_app.
              pose proof (length_recent window T [now]) as H1. cbn [length] in H1.
              assert (H2 : (length (recent T window (default [] (user_requests s !! u)))
                            <= length (recent now window
                                         (default [] (user_requests s !! u))))%nat).
              { rewrite <- (recent_later window T now) by exact HT.
                apply length_recent. }
              lia.
        -- rewrite lookup_insert_ne by exact Hne. split; [|exact IH2].
           rewrite IH1. unfold let_through at 3. cbn [List.filter fst snd].
           assert (Hvu : (v =? u) = false) by (apply Z.eqb_neq; exact Hne).
           rewrite Hvu. cbn [andb]. now rewrite app_nil_r.
    + unfold check_guild_limit.
      destruct (limit <=? _); cbn [fst snd user_requests]; now split.
    + unfold get_user_remaining_calls. cbn [fst snd user_requests].
      destruct (decide (v = u)) as [->|Hne].
      * rewrite lookup_insert_eq. cbn [default from_option id].
        rewrite recent_later by exact HT. now split.
      * rewrite lookup_insert_ne by exact Hne. now split.
Qed.

End AdvancedRateLimiterFacts.

(** X14. The guarantee of [check_user_limit]. Let the limiter be used
    with one limit (not negative) and one window, at times that never go
    back, through any sequence of user checks, guild checks and readings
    of the remaining calls. Then at the time of the last call, and at any
    later time, the user checks of any one user that were let through
    less than [window] seconds before number at most [limit]. *)
Theorem user_limit_holds_in_every_window (limit : Z) (window : Q)
    (s : AdvancedRateLimiter.limiter) (log : list (Z * Q)) (t : Q) :
  0 <= limit ->
  AdvancedRateLimiter.run limit window s log t ->
  forall user_id T, (t <= T)%Q ->
    Z.of_nat (length (AdvancedRateLimiter.let_through user_id window T log)) <= limit.
Proof.
  intros Hl Hrun user_id T HT.
  destruct (AdvancedRateLimiterFacts.run_invariant limit window s log t Hl Hrun
              user_id T HT) as [H1 H2].
  rewrite H1, length_map in H2. exact H2.
Qed.

Lemma user_limit_holds_in_every_window_witness :
  exists s,
    AdvancedRateLimiter.run 1 60 s [(7, 0%Q)] 10 /\
    Z.of_nat (length (AdvancedRateLimiter.let_through 7 60 10 [(7, 0%Q)])) <= 1.
Proof.
  assert (R1 : AdvancedRateLimiter.run 1 60
                 (AdvancedRateLimiter.step 1 60 (AdvancedRateLimiter.CheckUser 7) 0
                    (AdvancedRateLimiter.init, [])).1
                 [(7, 0%Q)] 0).
  { apply (AdvancedRateLimiter.run_step 1 60 AdvancedRateLimiter.init [] 0
             (AdvancedRateLimiter.CheckUser 7) 0
             (AdvancedRateLimiter.run_init 1 60 0)).
    apply Qle_refl. }
  assert (R2 : AdvancedRateLimiter.run 1 60
                 (AdvancedRateLimiter.step 1 60 (AdvancedRateLimiter.CheckUser 7) 10
                    ((AdvancedRateLimiter.step 1 60 (AdvancedRateLimiter.CheckUser 7) 0
                        (AdvancedRateLimiter.init, [])).1, [(7, 0%Q)])).1
                 [(7, 0%Q)] 10).
  { apply (AdvancedRateLimiter.run_step 1 60 _ [(7, 0%Q)] 0
             (AdvancedRateLimiter.CheckUser 7) 10 R1).
    discriminate. }
  eexists. split; [exact R2|].
  apply (user_limit_holds_in_every_window 1 60 _ _ 10 ltac:(lia) R2 7 10).
  apply Qle_refl.
Defined.

(** X15. [get_user_remaining_calls] and [check_user_limit] agree. At one
    instant the check lets the user through exactly when the remaining
    calls are more than zero; reading the remaining calls first changes
    neither the answer of the check nor the limiter it leaves; and after
    a check that let the user through, with a window of positive length,
    one call fewer remains. *)
Theorem remaining_calls_predict_the_check (user_id limit : Z) (window now : Q)
    (s : AdvancedRateLimiter.limiter) :
  let remaining := (AdvancedRateLimiter.get_user_remaining_calls
                      user_id limit window now s).1 in
  let s1 := (AdvancedRateLimiter.get_user_remaining_calls
               user_id limit window now s).2 in
  let answer := (AdvancedRateLimiter.check_user_limit user_id limit window now s).1 in
  let s2 := (AdvancedRateLimiter.check_user_limit user_id limit window now s).2 in
  0 <= remaining /\
  (answer = true <-> 0 < remaining) /\
  AdvancedRateLimiter.check_user_limit user_id limit window now s1
    = AdvancedRateLimiter.check_user_limit user_id limit window now s /\
  (answer = true -> (0 < window)%Q ->
   (AdvancedRateLimiter.get_user_remaining_calls user_id limit window now s2).1
   = remaining - 1).
Proof.
  unfold AdvancedRateLimiter.get_user_remaining_calls,
    AdvancedRateLimiter.check_user_limit.
  cbn [fst snd AdvancedRateLimiter.user_requests AdvancedRateLimiter.guild_requests].
  set (calls := AdvancedRateLimiter.recent now window
                  (default [] (AdvancedRateLimiter.user_requests s !! user_id))).
  rewrite lookup_insert_eq. cbn [default from_option id].
  assert (Hc : AdvancedRateLimiter.recent now window calls = calls).
  { subst calls. apply AdvancedRateLimiterFacts.recent_later. apply Qle_refl. }
  rewrite Hc. rewrite !insert_insert_eq.
  split; [lia|]. split; [|split].
  - destruct (limit <=? Z.of_nat (length calls)) eqn:E; cbn [fst].
    + apply Z.leb_le in E. split; [discriminate | lia].
    + apply Z.leb_gt in E. split; [lia | reflexivity].
  - reflexivity.
  - destruct (limit <=? Z.of_nat (length calls)) eqn:E; cbn [fst snd];
      [discriminate|].
    intros _ Hw. apply Z.leb_gt in E.
    cbn [AdvancedRateLimiter.user_requests]. rewrite lookup_insert_eq.
    cbn [default from_option id].
    rewrite AdvancedRateLimiterFacts.recent_app, Hc.
    assert (Hn : AdvancedRateLimiter.recent now window [now] = [now]).
    { unfold AdvancedRateLimiter.recent. cbn [List.filter].
      assert (Ht : Qltb (now - now) window = true) by (apply Qltb_true; lra).
      now rewrite Ht. }
    rewrite Hn, length_app. cbn [length]. lia.
Qed.

(** * Properties of the input validation *)

Module InputValidatorFacts.
Import InputValidator.

Ltac by_cases_on c := destruct c as [[] [] [] [] [] [] [] []]; cbv; intuition congruence.

Lemma space_not_alnum (c : ascii) : Py.is_space c = true -> is_alnum c = false.
Proof. by_cases_on c. Qed.

Lemma is_alnum_upper_char (c : ascii) : is_alnum (Py.upper_char c) = is_alnum c.
Proof. by_cases_on c. Qed.

Lemma name_char_upper_char (c : ascii) : name_char (Py.upper_char c) = name_char c.
Proof. by_cases_on c. Qed.

Lemma name_char_lower_char (c : ascii) : name_char (Py.lower_char c) = name_char c.
Proof. by_cases_on c. Qed.

Lemma letter_not_space (c : ascii) :
  Py.is_lower c || Py.is_upper c = true -> Py.is_space c = false.
Proof. by_cases_on c. Qed.

Lemma is_space_upper_char (c : ascii) : Py.is_space (Py.upper_char c) = Py.is_space c.
Proof. by_cases_on c. Qed.

Lemma is_space_lower_char (c : ascii) : Py.is_space (Py.lower_char c) = Py.is_space c.
Proof. by_cases_on c. Qed.

Lemma upper_char_cased (c : ascii) :
  Py.is_lower c = true ->
  Py.is_lower (Py.upper_char c) = false /\ Py.is_upper (Py.upper_char c) = true.
Proof. by_cases_on c. Qed.

Lemma lower_char_cased (c : ascii) :
  Py.is_upper c = true ->
  Py.is_lower (Py.lower_char c) = true.
Proof. by_cases_on c. Qed.

Lemma lower_not_upper (c : ascii) : Py.is_lower c = true -> Py.is_upper c = false.
Proof. by_cases_on c. Qed.

(** *** The steps of the validation leave the normalized name alone *)

Lemma normalize_lstrip (s : string) :
  _normalize_strain_name (Py.lstrip_by Py.is_space s) = _normalize_strain_name s.
Proof.
  induction s as [|c s IH]; [reflexivity|].
  cbn [Py.lstrip_by]. destruct (Py.is_space c) eqn:E; [|reflexivity].
  rewrite IH, _normalize_strain_name_cons. now rewrite space_not_alnum.
Qed.

Lemma normalize_rstrip (s : string) :
  _normalize_strain_name (Py.rstrip_by Py.is_space s) = _normalize_strain_name s.
Proof.
  induction s as [|c s IH]; [reflexivity|].
  cbn [Py.rstrip_by]. rewrite (_normalize_strain_name_cons c s), <- IH.
  destruct (Py.rstrip_by Py.is_space s) as [|a r].
  - destruct (Py.is_space c) eqn:E.
    + now rewrite space_not_alnum.
    + now rewrite _normalize_strain_name_cons.
  - now rewrite _normalize_strain_name_cons.
Qed.

Lemma normalize_strip (s : string) :
  _normalize_strain_name (Py.strip s) = _normalize_strain_name s.
Proof. unfold Py.strip. now rewrite normalize_rstrip, normalize_lstrip. Qed.

Lemma normalize_collapse (b : bool) (s : string) :
  _normalize_strain_name (collapse_whitespace b s) = _normalize_strain_name s.
Proof.
  revert b. induction s as [|c s IH]; intros b; [reflexivity|].
  cbn [collapse_whitespace]. rewrite (_normalize_strain_name_cons c s).
  destruct (Py.is_space c) eqn:E.
  - rewrite space_not_alnum by exact E.
    destruct b; [apply IH|]. rewrite _normalize_strain_name_cons. apply IH.
  - rewrite _normalize_strain_name_cons. now rewrite IH.
Qed.

Lemma normalize_title (b : bool) (s : string) :
  _normalize_strain_name (title_from b s) = _normalize_strain_name s.
Proof.
  revert b. induction s as [|c s IH]; intros b; [reflexivity|].
  cbn [title_from]. rewrite (_normalize_strain_name_cons c s).
  destruct (Py.is_lower c); [|destruct (Py.is_upper c)];
    rewrite _normalize_strain_name_cons, IH; destruct b;
    rewrite ?is_alnum_upper_char, ?is_alnum_lower_char, ?lower_upper_char,
      ?lower_lower_char; reflexivity.
Qed.

(** *** Length and alphabet *)

Lemma length_title (b : bool) (s : string) :
  String.length (title_from b s) = String.length s.
Proof.
  revert b. induction s as [|c s IH]; intros b; [reflexivity|].
  cbn [title_from]. destruct (Py.is_lower c); [|destruct (Py.is_upper c)];
    cbn [String.length]; now rewrite IH.
Qed.

Lemma all_name_chars_title (b : bool) (s : string) :
  all_chars name_char (title_from b s) = all_chars name_char s.
Proof.
  revert b. induction s as [|c s IH]; intros b; [reflexivity|].
  cbn [title_from]. destruct (Py.is_lower c); [|destruct (Py.is_upper c)];
    cbn [all_chars]; rewrite IH; destruct b;
    rewrite ?name_char_upper_char, ?name_char_lower_char; reflexivity.
Qed.

(** *** A title is its own title *)

Lemma title_title (b : bool) (s : string) :
  title_from b (title_from b s) = title_from b s.
Proof.
  revert b. induction s as [|c s IH]; intros b; [reflexivity|].
  cbn [title_from].
  destruct (Py.is_lower c) eqn:L.
  - destruct b; cbn [title_from].
    + now rewrite L, IH.
    + destruct (upper_char_cased c L) as [L' U']. now rewrite L', U', IH.
  - destruct (Py.is_upper c) eqn:U.
    + destruct b; cbn [title_from].
      * rewrite (lower_char_cased c U). now rewrite IH.
      * now rewrite L, U, IH.
    + cbn [title_from]. now rewrite L, U, IH.
Qed.

End InputValidatorFacts.

Module StripFacts.
Import InputValidator.

Lemma head_lstrip (s : string) : head_ok (Py.lstrip_by Py.is_space s) = true.
Proof.
  induction s as [|c s IH]; [reflexivity|].
  cbn [Py.lstrip_by]. destruct (Py.is_space c) eqn:E; [exact IH|].
  cbn [head_ok]. now rewrite E.
Qed.

Lemma lstrip_head (s : string) :
  head_ok s = true -> Py.lstrip_by Py.is_space s = s.
Proof.
  destruct s as [|c s]; [reflexivity|]. cbn [head_ok Py.lstrip_by].
  now destruct (Py.is_space c).
Qed.

Lemma last_rstrip (s : string) : last_ok (Py.rstrip_by Py.is_space s) = true.
Proof.
  induction s as [|c s IH]; [reflexivity|].
  cbn [Py.rstrip_by]. destruct (Py.rstrip_by Py.is_space s) as [|a q].
  - destruct (Py.is_space c) eqn:E; [reflexivity|]. cbn [last_ok]. now rewrite E.
  - exact IH.
Qed.

Lemma rstrip_last (s : string) :
  last_ok s = true -> Py.rstrip_by Py.is_space s = s.
Proof.
  induction s as [|c s IH]; [reflexivity|].
  destruct s as [|d s'].
  - cbn [last_ok Py.rstrip_by]. now destruct (Py.is_space c).
  - intros H. change (last_ok (String d s') = true) in H.
    cbn [Py.rstrip_by] in *. now rewrite (IH H).
Qed.

Lemma head_rstrip (s : string) :
  head_ok s = true -> head_ok (Py.rstrip_by Py.is_space s) = true.
Proof.
  destruct s as [|c s]; [reflexivity|]. cbn [head_ok Py.rstrip_by]. intros H.
  destruct (Py.rstrip_by Py.is_space s); [|exact H].
  destruct (Py.is_space c) eqn:E; [discriminate|]. cbn [head_ok]. now rewrite E.
Qed.

Lemma strip_clean (s : string) :
  head_ok (Py.strip s) = true /\ last_ok (Py.strip s) = true.
Proof.
  unfold Py.strip. split; [apply head_rstrip, head_lstrip | apply last_rstrip].
Qed.

Lemma strip_fixed (s : string) :
  head_ok s = true -> last_ok s = true -> Py.strip s = s.
Proof.
  intros H1 H2. unfold Py.strip. rewrite (lstrip_head s H1). now apply rstrip_last.
Qed.

Lemma strip_strip (s : string) : Py.strip (Py.strip s) = Py.strip s.
Proof. destruct (strip_clean s). now apply strip_fixed. Qed.

Lemma length_lstrip (p : ascii -> bool) (s : string) :
  (String.length (Py.lstrip_by p s) <= String.length s)%nat.
Proof.
  induction s as [|c s IH]; [reflexivity|].
  cbn [Py.lstrip_by]. destruct (p c); cbn [String.length]; lia.
Qed.

Lemma length_rstrip (p : ascii -> bool) (s : string) :
  (String.length (Py.rstrip_by p s) <= String.length s)%nat.
Proof.
  induction s as [|c s IH]; [reflexivity|].
  cbn [Py.rstrip_by]. destruct (Py.rstrip_by p s) as [|a q].
  - destruct (p c); cbn [String.length] in *; lia.
  - cbn [String.length] in *. lia.
Qed.

Lemma all_chars_lstrip (p q : ascii -> bool) (s : string) :
  all_chars p s = true -> all_chars p (Py.lstrip_by q s) = true.
Proof.
  induction s as [|c s IH]; [reflexivity|].
  cbn [Py.lstrip_by]. intros H. destruct (q c); [|exact H].
  cbn [all_chars] in H. apply andb_true_iff in H as [_ H]. now apply IH.
Qed.

Lemma all_chars_rstrip (p q : ascii -> bool) (s : string) :
  all_chars p s = true -> all_chars p (Py.rstrip_by q s) = true.
Proof.
  induction s as [|c s IH]; [reflexivity|].
  cbn [all_chars]. intros H. apply andb_true_iff in H as [Hc H].
  specialize (IH H). cbn [Py.rstrip_by].
  destruct (Py.rstrip_by q s) as [|a r].
  - destruct (q c); [reflexivity|]. cbn [all_chars]. now rewrite Hc.
  - cbn [all_chars] in *. now rewrite Hc.
Qed.

Lemma all_chars_take (p : ascii -> bool) (n : nat) (s : string) :
  all_chars p s = true -> all_chars p (Py.take n s) = true.
Proof.
  revert s. induction n as [|n IH]; intros [|c s]; cbn [Py.take all_chars];
    try reflexivity.
  intros H. apply andb_true_iff in H as [Hc H]. now rewrite Hc, IH.
Qed.

Lemma all_chars_keep (p : ascii -> bool) (s : string) :
  all_chars p (keep_chars p s) = true.
Proof.
  induction s as [|c s IH]; [reflexivity|].
  cbn [keep_chars]. destruct (p c) eqn:E; [|exact IH].
  cbn [all_chars]. now rewrite E.
Qed.

Lemma keep_all (p : ascii -> bool) (s : string) :
  all_chars p s = true -> keep_chars p s = s.
Proof.
  induction s as [|c s IH]; [reflexivity|].
  cbn [all_chars keep_chars]. intros H. apply andb_true_iff in H as [Hc H].
  now rewrite Hc, IH.
Qed.

(** *** Single blanks *)

Lemma head_collapse (b : bool) (s : string) :
  head_ok s = true -> head_ok (collapse_whitespace b s) = true.
Proof.
  destruct s as [|c s]; [reflexivity|]. cbn [head_ok collapse_whitespace].
  intros H. destruct (Py.is_space c) eqn:E; [discriminate|].
  cbn [head_ok]. now rewrite E.
Qed.

Lemma collapse_nonempty (b : bool) (s : string) :
  last_ok s = true -> s <> "" -> collapse_whitespace b s <> "".
Proof.
  revert b. induction s as [|c s IH]; intros b Hl Hs; [congruence|].
  destruct (string_dec s "") as [->|Hne].
  - cbn [last_ok] in Hl. cbn [collapse_whitespace].
    destruct (Py.is_space c); [discriminate | discriminate].
  - assert (Hl' : last_ok s = true) by (destruct s; [congruence | exact Hl]).
    cbn [collapse_whitespace].
    destruct (Py.is_space c); [destruct b|]; try discriminate.
    now apply IH.
Qed.

Lemma last_cons (c : ascii) (s : string) :
  s <> "" -> last_ok (String c s) = last_ok s.
Proof. destruct s; [congruence | reflexivity]. Qed.

Lemma last_collapse (b : bool) (s : string) :
  last_ok s = true -> last_ok (collapse_whitespace b s) = true.
Proof.
  revert b. induction s as [|c s IH]; intros b Hl; [reflexivity|].
  destruct (string_dec s "") as [->|Hs].
  - cbn [last_ok] in Hl. cbn [collapse_whitespace].
    destruct (Py.is_space c) eqn:E; [discriminate|]. cbn [last_ok]. now rewrite E.
  - rewrite last_cons in Hl by exact Hs.
    assert (Hne : forall b', collapse_whitespace b' s <> "").
    { intros b'. now apply collapse_nonempty. }
    cbn [collapse_whitespace].
    destruct (Py.is_space c); [destruct b|].
    + now apply IH.
    + rewrite last_cons by apply Hne. now apply IH.
    + rewrite last_cons by apply Hne. now apply IH.
Qed.

Lemma single_spaced_collapse (b : bool) (s : string) :
  single_spaced b (collapse_whitespace b s) = true.
Proof.
  revert b. induction s as [|c s IH]; intros b; [reflexivity|].
  cbn [collapse_whitespace]. destruct (Py.is_space c) eqn:E.
  - destruct b; [apply IH|]. cbn [single_spaced].
    change (Py.is_space " ") with true. cbv iota.
    change (Ascii.eqb " " " ") with true. cbn [andb negb]. apply IH.
  - cbn [single_spaced]. rewrite E. apply IH.
Qed.

Lemma collapse_single_spaced (b : bool) (s : string) :
  single_spaced b s = true -> collapse_whitespace b s = s.
Proof.
  revert b. induction s as [|c s IH]; intros b; [reflexivity|].
  cbn [single_spaced collapse_whitespace]. destruct (Py.is_space c).
  - intros H. apply andb_true_iff in H as [H Hs]. apply andb_true_iff in H as [Hc Hb].
    apply Ascii.eqb_eq in Hc. subst c. destruct b; [discriminate|].
    now rewrite IH.
  - intros H. now rewrite IH.
Qed.

(** *** The title keeps the spacing *)

Lemma head_title (b : bool) (s : string) : head_ok (title_from b s) = head_ok s.
Proof.
  destruct s as [|c s]; [reflexivity|]. cbn [title_from head_ok].
  destruct (Py.is_lower c) eqn:L; [|destruct (Py.is_upper c) eqn:U]; cbn [head_ok];
    destruct b;
    rewrite ?InputValidatorFacts.is_space_upper_char,
      ?InputValidatorFacts.is_space_lower_char; reflexivity.
Qed.

Lemma title_empty (b : bool) (s : string) : title_from b s = "" -> s = "".
Proof.
  destruct s as [|c s]; [reflexivity|]. cbn [title_from].
  destruct (Py.is_lower c); [|destruct (Py.is_upper c)]; discriminate.
Qed.

Lemma last_title (b : bool) (s : string) : last_ok (title_from b s) = last_ok s.
Proof.
  revert b. induction s as [|c s IH]; intros b; [reflexivity|].
  destruct (string_dec s "") as [->|Hs].
  - cbn [title_from last_ok].
    destruct (Py.is_lower c) eqn:L; [|destruct (Py.is_upper c) eqn:U]; cbn [last_ok];
      destruct b;
      rewrite ?InputValidatorFacts.is_space_upper_char,
        ?InputValidatorFacts.is_space_lower_char; reflexivity.
  - assert (Hne : forall b', title_from b' s <> "").
    { intros b' H. now apply title_empty in H. }
    rewrite (last_cons c s) by exact Hs.
    cbn [title_from].
    destruct (Py.is_lower c); [|destruct (Py.is_upper c)];
      (rewrite last_cons by apply Hne); apply IH.
Qed.

Lemma single_spaced_title (b p : bool) (s : string) :
  single_spaced b (title_from p s) = single_spaced b s.
Proof.
  revert b p. induction s as [|c s IH]; intros b p; [reflexivity|].
  cbn [title_from single_spaced].
  destruct (Py.is_lower c) eqn:L.
  - assert (Hs : Py.is_space c = false).
    { apply InputValidatorFacts.letter_not_space. now rewrite L. }
    cbn [single_spaced]. destruct p;
      rewrite ?InputValidatorFacts.is_space_upper_char, Hs; apply IH.
  - destruct (Py.is_upper c) eqn:U.
    + assert (Hs : Py.is_space c = false).
      { apply InputValidatorFacts.letter_not_space. rewrite U. apply orb_true_r. }
      cbn [single_spaced]. destruct p;
        rewrite ?InputValidatorFacts.is_space_lower_char, Hs; apply IH.
    + cbn [single_spaced]. destruct (Py.is_space c); now rewrite IH.
Qed.

End StripFacts.

(** X16. A name that [validate_strain_name] lets through comes back with
    2 to 50 characters, all of the allowed class, and as the same name for
    the duplicate check: its normalized form is that of the text that was
    typed, so [check_strain_duplicate] compares it with every row as it
    would the raw text. Validating the result again returns it
    unchanged. *)
Theorem validated_name_is_the_same_name (name v : string) :
  InputValidator.validate_strain_name name = Some v ->
  (2 <= String.length v <= 50)%nat /\
  all_chars InputValidator.name_char v = true /\
  _normalize_strain_name v = _normalize_strain_name name /\
  (forall harvest_date package_date category producer record,
     duplicate_of v harvest_date package_date category producer record
     = duplicate_of name harvest_date package_date category producer record) /\
  InputValidator.validate_strain_name v = Some v.
Proof.
  unfold InputValidator.validate_strain_name at 1.
  destruct (Py.truthy_str name); cbn [negb]; [|discriminate].
  set (cleaned := InputValidator.collapse_whitespace false (Py.strip name)).
  destruct ((2 <=? String.length cleaned)%nat && (String.length cleaned <=? 50)%nat)
    eqn:Hlen; cbn [negb]; [|discriminate].
  destruct (Py.truthy_str cleaned && all_chars InputValidator.name_char cleaned)
    eqn:Hcls; cbn [negb]; [|discriminate].
  intros [= <-].
  apply andb_true_iff in Hlen as [Hl2 Hl50].
  apply Nat.leb_le in Hl2. apply Nat.leb_le in Hl50.
  apply andb_true_iff in Hcls as [_ Hcls].
  assert (Hnorm : _normalize_strain_name (InputValidator.title cleaned)
                  = _normalize_strain_name name).
  { unfold InputValidator.title. rewrite InputValidatorFacts.normalize_title.
    subst cleaned. rewrite InputValidatorFacts.normalize_collapse.
    apply InputValidatorFacts.normalize_strip. }
  assert (Hlenv : String.length (InputValidator.title cleaned) = String.length cleaned)
    by apply InputValidatorFacts.length_title.
  assert (Hclsv : all_chars InputValidator.name_char (InputValidator.title cleaned) = true).
  { unfold InputValidator.title. now rewrite InputValidatorFacts.all_name_chars_title. }
  split; [lia|]. split; [exact Hclsv|]. split; [exact Hnorm|]. split.
  - intros. unfold duplicate_of. now rewrite Hnorm.
  - destruct (StripFacts.strip_clean name) as [Hh Hlast].
    assert (Hstrip : Py.strip (InputValidator.title cleaned) = InputValidator.title cleaned).
    { apply StripFacts.strip_fixed; unfold InputValidator.title.
      - rewrite StripFacts.head_title. subst cleaned. now apply StripFacts.head_collapse.
      - rewrite StripFacts.last_title. subst cleaned. now apply StripFacts.last_collapse. }
    assert (Hcol : InputValidator.collapse_whitespace false (InputValidator.title cleaned)
                   = InputValidator.title cleaned).
    { apply StripFacts.collapse_single_spaced. unfold InputValidator.title.
      rewrite StripFacts.single_spaced_title. subst cleaned.
      apply StripFacts.single_spaced_collapse. }
    unfold InputValidator.validate_strain_name.
    assert (Ht : Py.truthy_str (InputValidator.title cleaned) = true).
    { destruct (InputValidator.title cleaned); [cbn in Hlenv; lia | reflexivity]. }
    rewrite Ht. cbn [negb]. rewrite Hstrip, Hcol, Hlenv.
    apply Nat.leb_le in Hl2. apply Nat.leb_le in Hl50. rewrite Hl2, Hl50. cbn [andb negb].
    rewrite Ht, Hclsv. cbn [andb negb].
    unfold InputValidator.title. now rewrite InputValidatorFacts.title_title.
Qed.

Lemma validated_name_is_the_same_name_witness :
  InputValidator.validate_strain_name "  blue   dream's #3 " = Some "Blue Dream'S #3" /\
  _normalize_strain_name "Blue Dream'S #3" = "bluedreams3" /\
  _normalize_strain_name "  blue   dream's #3 " = "bluedreams3".
Proof.
  assert (H : InputValidator.validate_strain_name "  blue   dream's #3 "
              = Some "Blue Dream'S #3") by reflexivity.
  split; [exact H|].
  destruct (validated_name_is_the_same_name _ _ H) as (_ & _ & Hn & _).
  split; [reflexivity|]. rewrite <- Hn. reflexivity.
Defined.

(** X17. [sanitize_user_input] returns a text without angle brackets,
    double quotes, apostrophes and ampersands and without surrounding
    whitespace; for a [max_length] of zero or more the text is at most
    that long, and sanitizing it again with the same bound returns it
    unchanged. *)
Theorem sanitized_input_is_harmless (text : string) (max_length : Z) :
  let out := InputValidator.sanitize_user_input text max_length in
  all_chars (fun c => negb (InputValidator.harmful c)) out = true /\
  Py.strip out = out /\
  (0 <= max_length ->
   Z.of_nat (String.length out) <= max_length /\
   InputValidator.sanitize_user_input out max_length = out).
Proof.
  intros out. subst out.
  destruct (Py.truthy_str text) eqn:Htext.
  2:{ assert (E : InputValidator.sanitize_user_input text max_length = "").
      { unfold InputValidator.sanitize_user_input. now rewrite Htext. }
      rewrite E. split; [reflexivity|]. split; [reflexivity|].
      intros H. split; [cbn; lia | reflexivity]. }
  set (p := fun c => negb (InputValidator.harmful c)).
  set (kept := keep_chars p text).
  set (cut := InputValidator.take_to max_length kept).
  assert (E : InputValidator.sanitize_user_input text max_length = Py.strip cut).
  { unfold InputValidator.sanitize_user_input. now rewrite Htext. }
  rewrite E.
  assert (Hcut : all_chars p cut = true).
  { subst cut. unfold InputValidator.take_to.
    destruct (0 <=? max_length); apply StripFacts.all_chars_take;
      apply StripFacts.all_chars_keep. }
  assert (Hout : all_chars p (Py.strip cut) = true).
  { unfold Py.strip. now apply StripFacts.all_chars_rstrip, StripFacts.all_chars_lstrip. }
  split; [exact Hout|]. split; [apply StripFacts.strip_strip|].
  intros Hm.
  assert (Hlen : (String.length (Py.strip cut) <= Z.to_nat max_length)%nat).
  { unfold Py.strip.
    pose proof (StripFacts.length_rstrip Py.is_space (Py.lstrip_by Py.is_space cut)).
    pose proof (StripFacts.length_lstrip Py.is_space cut).
    assert (String.length cut <= Z.to_nat max_length)%nat.
    { subst cut. unfold InputValidator.take_to.
      apply Z.leb_le in Hm. rewrite Hm. apply length_take. }
    lia. }
  split; [lia|].
  unfold InputValidator.sanitize_user_input.
  destruct (Py.truthy_str (Py.strip cut)) eqn:Ht; cbn [negb].
  - fold p. rewrite (StripFacts.keep_all p _ Hout).
    unfold InputValidator.take_to. apply Z.leb_le in Hm. rewrite Hm.
    rewrite take_all by exact Hlen. apply StripFacts.strip_strip.
  - destruct (Py.strip cut); [reflexivity | discriminate].
Qed.

(** * Valid ratings and the averages on the sheet *)

Lemma round_half_even_between (num den lo hi : Z) :
  0 < den -> lo * den <= num <= hi * den ->
  lo <= round_half_even num den <= hi.
Proof.
  intros Hd [Hlo Hhi]. unfold round_half_even.
  pose proof (Z.div_mod num den ltac:(lia)) as Hdm.
  pose proof (Z.mod_pos_bound num den Hd) as Hr.
  assert (Hq1 : lo <= num / den) by (apply Z.div_le_lower_bound; lia).
  assert (Hq2 : num / den <= hi) by (apply Z.div_le_upper_bound; lia).
  assert (Hq3 : num / den = hi -> num mod den = 0) by nia.
  destruct (2 * (num mod den) <? den) eqn:E1; [lia|].
  apply Z.ltb_ge in E1.
  assert (num / den < hi) by (destruct (Z.eq_dec (num / den) hi); [lia | lia]).
  destruct (den <? 2 * (num mod den)); [lia|].
  destruct (Z.even (num / den)); lia.
Qed.

Lemma py_truediv_between (s n : Z) :
  0 < n -> n <= s <= 10 * n ->
  exists k, 0 <= k /\ exponent (py_truediv s n) = - k /\
            2 ^ k <= mantissa (py_truediv s n) <= 10 * 2 ^ k.
Proof.
  intros Hn [Hlo Hhi]. unfold py_truediv.
  assert (Hs : (s =? 0) = false) by (apply Z.eqb_neq; lia). rewrite Hs.
  rewrite (Z.abs_eq s) by lia. rewrite (Z.sgn_pos s) by lia.
  assert (Hlog1 : Z.log2 n <= Z.log2 s) by (apply Z.log2_le_mono; lia).
  assert (Hlog2 : Z.log2 s <= 4 + Z.log2 n).
  { rewrite <- (Z.log2_mul_pow2 n 4) by lia. apply Z.log2_le_mono.
    change (2 ^ 4) with 16. lia. }
  set (k0 := 52 - (Z.log2 s - Z.log2 n)).
  assert (Hk0 : 48 <= k0 <= 52) by (subst k0; lia).
  unfold scaled. cbv beta iota zeta.
  set (k := if s * 2 ^ Z.max k0 0 / (n * 2 ^ Z.max (- k0) 0) <? 2 ^ 52
            then k0 + 1 else k0).
  assert (Hk : 48 <= k <= 53) by (subst k; destruct (_ <? _); lia).
  exists k. cbn [exponent mantissa]. split; [lia|]. split; [reflexivity|].
  rewrite (Z.max_l k 0) by lia. rewrite (Z.max_r (- k) 0) by lia.
  change (2 ^ 0) with 1. rewrite Z.mul_1_r, Z.mul_1_l.
  assert (Hp : 0 < 2 ^ k) by (apply Z.pow_pos_nonneg; lia).
  apply round_half_even_between; [exact Hn | nia].
Qed.

Lemma py_round2_between (x : float) (k : Z) :
  0 <= k -> exponent x = - k -> 2 ^ k <= mantissa x <= 10 * 2 ^ k ->
  (1 <= py_round2 x <= 10)%Q.
Proof.
  intros Hk He Hm. unfold py_round2, scaled. rewrite He. cbv beta iota zeta.
  assert (Hp : 0 < 2 ^ k) by (apply Z.pow_pos_nonneg; lia).
  rewrite (Z.abs_eq (mantissa x)) by lia. rewrite (Z.sgn_pos (mantissa x)) by lia.
  rewrite Z.opp_involutive.
  rewrite (Z.max_r (- k) 0) by lia. rewrite (Z.max_l k 0) by lia.
  change (2 ^ 0) with 1. rewrite Z.mul_1_r, !Z.mul_1_l.
  pose proof (round_half_even_between (100 * mantissa x) (2 ^ k) 100 1000 Hp
                ltac:(nia)) as Hr.
  unfold Qle. cbn [Qnum Qden]. lia.
Qed.

Lemma sum_of_valid_ratings (rs : list Z) :
  Forall (fun r => InputValidator.validate_rating r = true) rs ->
  Z.of_nat (length rs) <= sum_Z rs <= 10 * Z.of_nat (length rs).
Proof.
  induction 1 as [|r rs Hr _ IH]; [cbn; lia|].
  unfold InputValidator.validate_rating in Hr.
  apply andb_true_iff in Hr as [H1 H2]. apply Z.leb_le in H1. apply Z.leb_le in H2.
  cbn [length sum_Z fold_right]. fold (sum_Z rs). lia.
Qed.

Lemma average_of_valid_ratings (rs : list Z) :
  rs <> [] -> Forall (fun r => InputValidator.validate_rating r = true) rs ->
  (1 <= py_round2 (py_truediv (sum_Z rs) (Z.of_nat (length rs))) <= 10)%Q.
Proof.
  intros Hne Hall.
  assert (Hn : 0 < Z.of_nat (length rs)) by (destruct rs; [congruence | cbn; lia]).
  destruct (py_truediv_between (sum_Z rs) (Z.of_nat (length rs)) Hn
              (sum_of_valid_ratings rs Hall)) as (k & Hk & He & Hm).
  now apply (py_round2_between _ k).
Qed.

(** X18. Ratings that pass [validate_rating] (1 to 10) keep the averages
    in range: the rounded average [round(sum / len, 2)] of any non-empty
    list of such ratings lies between 1 and 10. So, on a sheet with
    distinct unique ids whose ratings are all valid, a successful
    [add_rating] of a valid rating leaves the item with at least one
    rating and an average between 1 and 10, which is then its sort key in
    [get_all_approved_strains], above the key -1 of the items without
    ratings. *)
Theorem valid_ratings_keep_averages_in_range :
  (forall rs : list Z,
     rs <> [] -> Forall (fun r => InputValidator.validate_rating r = true) rs ->
     (1 <= py_round2 (py_truediv (sum_Z rs) (Z.of_nat (length rs))) <= 10)%Q) /\
  (forall identifier user_id rating username category m v m',
     NoDup (List.map Strains.Unique_ID (strains_rows m)) ->
     Forall (fun rr => InputValidator.validate_rating (Ratings.Rating rr) = true)
       (ratings_rows m) ->
     InputValidator.validate_rating rating = true ->
     add_rating identifier user_id rating username category m = (Ok v, m') ->
     truthy v = true ->
     exists strain_data,
       rated_strain identifier (filter_category category (strains_rows m))
         = Some strain_data /\
       forall item,
         In item (strains_rows m') ->
         Strains.Unique_ID item = Strains.Unique_ID strain_data ->
         rated item = true /\
         (1 <= Strains.Average_Rating item <= 10)%Q /\
         sort_key item = Strains.Average_Rating item /\
         (-1 < sort_key item)%Q).
Proof.
  split; [exact average_of_valid_ratings|].
  intros identifier user_id rating username category m v m' Hnd Hall Hr Hcall Hv.
  destruct (add_rating_recomputes _ _ _ _ _ _ _ _ Hnd Hcall Hv)
    as (sd & Hfind & _ & Hrs & _ & Hitems).
  exists sd. split; [exact Hfind|].
  intros item Hin Hid. destruct (Hitems item Hin Hid) as [Havg Htot].
  rewrite Hrs in Havg, Htot.
  set (rs := (ratings_of (Strains.Unique_ID sd) (ratings_rows m) ++ [rating])%list) in *.
  assert (Hne : rs <> []).
  { subst rs. intros Habs. apply app_eq_nil in Habs as [_ Habs]. discriminate. }
  assert (Hvalid : Forall (fun r => InputValidator.validate_rating r = true) rs).
  { subst rs. apply Forall_app. split; [|now constructor].
    unfold ratings_of. apply Forall_forall. intros r Hr'.
    apply list_elem_of_In, in_map_iff in Hr' as (rr & <- & Hrr).
    apply List.filter_In in Hrr as [Hrr _].
    rewrite Forall_forall in Hall. apply Hall. now apply list_elem_of_In. }
  pose proof (average_of_valid_ratings rs Hne Hvalid) as Hrange.
  assert (Hrated : rated item = true).
  { unfold rated. rewrite Htot. apply Z.ltb_lt.
    destruct rs; [congruence | cbn; lia]. }
  assert (Hkey : sort_key item = Strains.Average_Rating item).
  { unfold sort_key. unfold rated in Hrated. now rewrite Hrated. }
  split; [exact Hrated|]. rewrite Hkey, Havg.
  split; [exact Hrange|]. split; [reflexivity|].
  destruct Hrange as [Hlow _]. apply Qlt_le_trans with 1%Q; [reflexivity | exact Hlow].
Qed.

Lemma valid_ratings_keep_averages_in_range_witness :
  (1 <= py_round2 (py_truediv (sum_Z [8; 6; 7]%Z) 3%Z) <= 10)%Q /\
  InputValidator.validate_rating 11 = false.
Proof.
  split; [|reflexivity].
  apply (proj1 valid_ratings_keep_averages_in_range [8; 6; 7]).
  - discriminate.
  - repeat constructor.
Defined.

(** * Properties of the dates *)

Module DateFacts.
Import Date.

Lemma digit_spec (k : Z) :
  0 <= k <= 9 -> Py.is_digit (digit k) = true /\ digit_value (digit k) = k.
Proof.
  intros H.
  assert (Hk : In k (List.map Z.of_nat (seq 0 10))).
  { apply in_map_iff. exists (Z.to_nat k). split; [lia|]. apply in_seq. lia. }
  cbn in Hk. repeat (destruct Hk as [<-|Hk]; [now split|]). contradiction.
Qed.

Lemma append_empty_r (s : string) : s ++ "" = s.
Proof.
  induction s as [|c s IH]; [reflexivity|]. now rewrite append_cons, IH.
Qed.

Lemma head_app_cons {A} (x : A) (l1 l2 : list A) : head ((x :: l1) ++ l2) = Some x.
Proof. reflexivity. Qed.

Lemma and_then_cons {B} (x : Z) (r : string) (tail : list (Z * string))
    (k : Z -> string -> list B) :
  and_then ((x, r) :: tail) k = (k x r ++ and_then tail k)%list.
Proof. reflexivity. Qed.

Lemma literal_hyphen (r : string) : literal "-" ("-" ++ r) = [(0, r)].
Proof. reflexivity. Qed.

(** The two-digit text of a day is read as that day, before any other
    way of reading the text. *)
Lemma directive_d_two_digits (d : Z) (r : string) :
  1 <= d <= 31 ->
  exists tail, directive_d (two_digits d ++ r) = (d, r) :: tail.
Proof.
  intros H.
  assert (Hd : In d (List.map Z.of_nat (seq 1 31))).
  { apply in_map_iff. exists (Z.to_nat d). split; [lia|]. apply in_seq. lia. }
  cbn in Hd.
  repeat (destruct Hd as [<-|Hd]; [eexists; reflexivity|]). contradiction.
Qed.

Lemma directive_d_one_digit (d : Z) (r : string) :
  1 <= d <= 9 ->
  directive_d (String (digit d) ("-" ++ r)) = [(d, ("-" ++ r))].
Proof.
  intros H.
  assert (Hd : In d (List.map Z.of_nat (seq 1 9))).
  { apply in_map_iff. exists (Z.to_nat d). split; [lia|]. apply in_seq. lia. }
  cbn in Hd.
  repeat (destruct Hd as [<-|Hd]; [reflexivity|]). contradiction.
Qed.

Lemma directive_m_two_digits (m : Z) (r : string) :
  1 <= m <= 12 ->
  exists tail, directive_m (two_digits m ++ r) = (m, r) :: tail.
Proof.
  intros H.
  assert (Hm : In m (List.map Z.of_nat (seq 1 12))).
  { apply in_map_iff. exists (Z.to_nat m). split; [lia|]. apply in_seq. lia. }
  cbn in Hm.
  repeat (destruct Hm as [<-|Hm]; [eexists; reflexivity|]). contradiction.
Qed.

Lemma directive_Y_four_digits (y : Z) (r : string) :
  0 <= y <= 9999 -> directive_Y (four_digits y ++ r) = [(y, r)].
Proof.
  intros H. unfold four_digits. rewrite !append_cons, append_nil.
  cbn [directive_Y].
  assert (H1 : 0 <= y / 1000 <= 9).
  { split; [apply Z.div_pos; lia|].
    assert (y / 1000 < 10) by (apply Z.div_lt_upper_bound; lia). lia. }
  destruct (digit_spec (y / 1000) H1) as [D1 V1].
  destruct (digit_spec (y / 100 mod 10)) as [D2 V2];
    [pose proof (Z.mod_pos_bound (y / 100) 10); lia|].
  destruct (digit_spec (y / 10 mod 10)) as [D3 V3];
    [pose proof (Z.mod_pos_bound (y / 10) 10); lia|].
  destruct (digit_spec (y mod 10)) as [D4 V4];
    [pose proof (Z.mod_pos_bound y 10); lia|].
  rewrite D1, D2, D3, D4, V1, V2, V3, V4. cbn [andb].
  do 2 f_equal. f_equal.
  pose proof (Z.div_mod y 10 ltac:(lia)).
  pose proof (Z.div_mod (y / 10) 10 ltac:(lia)).
  pose proof (Z.div_mod (y / 100) 10 ltac:(lia)).
  assert (y / 10 / 10 = y / 100) by (rewrite Z.div_div by lia; reflexivity).
  assert (y / 100 / 10 = y / 1000) by (rewrite Z.div_div by lia; reflexivity).
  lia.
Qed.

Lemma make_spec (y m d : Z) :
  make y m d = Some (Date y m d) <->
  1 <= y <= 9999 /\ 1 <= m <= 12 /\ 1 <= d <= days_in_month y m.
Proof.
  unfold make.
  destruct ((1 <=? y) && (y <=? 9999) && (1 <=? m) && (m <=? 12)
            && (1 <=? d) && (d <=? days_in_month y m)) eqn:E.
  - repeat (apply andb_true_iff in E as [E ?]). split; [lia | reflexivity].
  - split; [discriminate|]. intros H.
    repeat (apply andb_false_iff in E as [E|E]); lia.
Qed.

Lemma days_in_month_le (y m : Z) : days_in_month y m <= 31.
Proof.
  unfold days_in_month.
  destruct (m =? 2); [destruct (is_leap y); lia|].
  destruct ((m =? 4) || (m =? 6) || (m =? 9) || (m =? 11)); lia.
Qed.

Lemma match_display_text (y m d : Z) :
  1 <= y <= 9999 -> 1 <= m <= 12 -> 1 <= d <= 31 ->
  match_d_m_Y (display_text y m d) = Some (d, m, y, "").
Proof.
  intros Hy Hm Hd. unfold match_d_m_Y, display_text.
  destruct (directive_d_two_digits d ("-" ++ two_digits m ++ "-" ++ four_digits y) Hd)
    as (t1 & ->).
  rewrite and_then_cons, literal_hyphen, and_then_cons.
  destruct (directive_m_two_digits m ("-" ++ four_digits y) Hm) as (t2 & ->).
  rewrite and_then_cons, literal_hyphen, and_then_cons.
  rewrite <- (append_empty_r (four_digits y)) at 1.
  rewrite directive_Y_four_digits by lia.
  reflexivity.
Qed.

Lemma match_short_text (y m d : Z) :
  1 <= y <= 9999 -> 1 <= m <= 12 -> 1 <= d <= 9 ->
  match_d_m_Y (short_text y m d) = Some (d, m, y, "").
Proof.
  intros Hy Hm Hd. unfold match_d_m_Y, short_text.
  rewrite directive_d_one_digit by exact Hd.
  rewrite and_then_cons, literal_hyphen, and_then_cons.
  destruct (directive_m_two_digits m ("-" ++ four_digits y) Hm) as (t2 & ->).
  rewrite and_then_cons, literal_hyphen, and_then_cons.
  rewrite <- (append_empty_r (four_digits y)) at 1.
  rewrite directive_Y_four_digits by lia.
  reflexivity.
Qed.

Lemma match_storage_text (y m d : Z) :
  1 <= y <= 9999 -> 1 <= m <= 12 -> 1 <= d <= 31 ->
  match_Y_m_d (storage_text y m d) = Some (d, m, y, "").
Proof.
  intros Hy Hm Hd. unfold match_Y_m_d, storage_text.
  rewrite directive_Y_four_digits by lia.
  rewrite and_then_cons, literal_hyphen, and_then_cons.
  destruct (directive_m_two_digits m ("-" ++ two_digits d) Hm) as (t2 & ->).
  rewrite and_then_cons, literal_hyphen, and_then_cons.
  rewrite <- (append_empty_r (two_digits d)) at 1.
  destruct (directive_d_two_digits d "" Hd) as (t3 & ->).
  reflexivity.
Qed.

End DateFacts.

Module DateTexts.
Import Date.

Lemma str_of_int_four_digits (y : Z) :
  1000 <= y <= 9999 -> Py.str_of_int y = four_digits y.
Proof.
  intros H.
  assert (Hall : forallb (fun n => String.eqb (Py.str_of_int (Z.of_nat n))
                                     (four_digits (Z.of_nat n)))
                   (seq 1000 (90 * 100)) = true) by (vm_compute; reflexivity).
  rewrite forallb_forall in Hall.
  specialize (Hall (Z.to_nat y)). rewrite Z2Nat.id in Hall by lia.
  apply String.eqb_eq, Hall, in_seq. lia.
Qed.

Lemma finish_some (found : option (Z * Z * Z * string)) (y m d : Z) :
  finish found = Some (Date y m d) ->
  found = Some (d, m, y, "") /\ make y m d = Some (Date y m d).
Proof.
  unfold finish. destruct found as [[[[d' m'] y'] rest]|]; [|discriminate].
  destruct rest; [|discriminate]. intros H.
  assert (E : make y' m' d' = Some (Date y' m' d')).
  { unfold make in *. destruct (_ && _); [reflexivity | discriminate]. }
  rewrite E in H. injection H as -> -> ->. now split.
Qed.

Lemma short_is_not_display (y m d : Z) :
  1 <= d <= 9 -> String.eqb (display_text y m d) (short_text y m d) = false.
Proof.
  intros H. unfold display_text, short_text, two_digits.
  rewrite !append_cons.
  assert (Hd : In d (List.map Z.of_nat (seq 1 9))).
  { apply in_map_iff. exists (Z.to_nat d). split; [lia|]. apply in_seq. lia. }
  cbn in Hd.
  repeat (destruct Hd as [<-|Hd]; [reflexivity|]). contradiction.
Qed.

Lemma display_text_is_not_storage (y m d : Z) :
  match_Y_m_d (display_text y m d) = None.
Proof.
  unfold match_Y_m_d, display_text, two_digits. rewrite !append_cons, append_nil.
  cbn [directive_Y].
  change (Py.is_digit "-") with false.
  destruct (Py.is_digit (digit (d / 10))), (Py.is_digit (digit (d mod 10)));
    reflexivity.
Qed.

End DateTexts.

(** X19. The date check accepts more than the format it is named after,
    and the duplicate check compares dates as texts. Every date of the
    calendar (years 1 to 9999) passes [_validate_date_dd_mm_yyyy] when
    written DD-MM-YYYY; with a day below 10 it passes as well with the day
    on one digit, and is read as the same date. A row that holds the
    two-digit spelling is then no duplicate of a submission with the
    one-digit spelling, whatever else they have in common. *)
Theorem one_date_two_spellings (y m d : Z) :
  Date.make y m d = Some (Date.Date y m d) ->
  _validate_date_dd_mm_yyyy (display_text y m d) = true /\
  Date.strptime_d_m_Y (display_text y m d) = Some (Date.Date y m d) /\
  (d <= 9 ->
   _validate_date_dd_mm_yyyy (short_text y m d) = true /\
   Date.strptime_d_m_Y (short_text y m d) = Some (Date.Date y m d) /\
   forall strain_name package_date category producer record,
     Strains.Harvest_Date record = display_text y m d ->
     duplicate_of strain_name (short_text y m d) package_date category producer record
     = false).
Proof.
  intros Hv. pose proof Hv as Hmake.
  apply DateFacts.make_spec in Hv as (Hy & Hm & Hd).
  pose proof (DateFacts.days_in_month_le y m) as Hle.
  assert (E1 : Date.strptime_d_m_Y (display_text y m d) = Some (Date.Date y m d)).
  { unfold Date.strptime_d_m_Y. rewrite DateFacts.match_display_text by lia.
    exact Hmake. }
  split; [unfold _validate_date_dd_mm_yyyy; now rewrite E1|]. split; [exact E1|].
  intros Hd9.
  assert (E2 : Date.strptime_d_m_Y (short_text y m d) = Some (Date.Date y m d)).
  { unfold Date.strptime_d_m_Y. rewrite DateFacts.match_short_text by lia.
    exact Hmake. }
  split; [unfold _validate_date_dd_mm_yyyy; now rewrite E2|]. split; [exact E2|].
  intros strain_name package_date category producer record Hrec.
  unfold duplicate_of. rewrite Hrec, DateTexts.short_is_not_display by lia.
  now rewrite andb_false_r.
Qed.

Lemma one_date_two_spellings_witness :
  _validate_date_dd_mm_yyyy "05-12-2024" = true /\
  _validate_date_dd_mm_yyyy "5-12-2024" = true /\
  _validate_date_dd_mm_yyyy "31-02-2024" = false.
Proof.
  destruct (one_date_two_spellings 2024 12 5 eq_refl) as (H1 & _ & H2).
  split; [exact H1|]. split; [|reflexivity].
  exact (proj1 (H2 ltac:(lia))).
Defined.

(** X20. The two date conversions. A text that
    [_convert_date_to_storage_format] accepts, in any of the spellings the
    parser allows, becomes YYYY-MM-DD with month and day on two digits
    (years from 1000 on, which the C library prints on four digits), and
    [_convert_date_to_display_format] takes that text back to DD-MM-YYYY on
    two digits, a text it then leaves alone: converting there and back
    normalizes the spelling, and is the identity on DD-MM-YYYY. A text that
    is not a date in the expected format comes back from either conversion
    as it was. *)
Theorem date_conversions_normalize (y m d : Z) (s : string) :
  Date.strptime_d_m_Y s = Some (Date.Date y m d) -> 1000 <= y ->
  _convert_date_to_storage_format s = storage_text y m d /\
  _convert_date_to_display_format (_convert_date_to_storage_format s)
    = display_text y m d /\
  _convert_date_to_display_format (display_text y m d) = display_text y m d /\
  _convert_date_to_storage_format (display_text y m d) = storage_text y m d /\
  (forall t, _validate_date_dd_mm_yyyy t = false ->
             _convert_date_to_storage_format t = t) /\
  (forall t, Date.strptime_Y_m_d t = None -> _convert_date_to_display_format t = t).
Proof.
  intros Hs Hy1000.
  destruct (DateTexts.finish_some _ _ _ _ Hs) as [_ Hmake].
  pose proof Hmake as Hv. apply DateFacts.make_spec in Hv as (Hy & Hm & Hd).
  pose proof (DateFacts.days_in_month_le y m) as Hle.
  assert (Hstore : forall t, Date.strptime_d_m_Y t = Some (Date.Date y m d) ->
                             _convert_date_to_storage_format t = storage_text y m d).
  { intros t Ht. unfold _convert_date_to_storage_format. rewrite Ht.
    unfold Date.strftime_Y_m_d, storage_text. cbn [Date.year Date.month Date.day].
    now rewrite DateTexts.str_of_int_four_digits by lia. }
  assert (Hdisp : _convert_date_to_display_format (storage_text y m d)
                  = display_text y m d).
  { unfold _convert_date_to_display_format, Date.strptime_Y_m_d.
    rewrite DateFacts.match_storage_text by lia. cbn [Date.finish]. rewrite Hmake.
    unfold Date.strftime_d_m_Y, display_text. cbn [Date.year Date.month Date.day].
    now rewrite DateTexts.str_of_int_four_digits by lia. }
  split; [now apply Hstore|]. split; [now rewrite (Hstore s Hs)|]. split; [|split; [|split]].
  - unfold _convert_date_to_display_format, Date.strptime_Y_m_d.
    rewrite DateTexts.display_text_is_not_storage. cbn [Date.finish].
    now destruct (Date.strptime_d_m_Y (display_text y m d)).
  - apply Hstore. unfold Date.strptime_d_m_Y.
    rewrite DateFacts.match_display_text by lia. exact Hmake.
  - intros t Ht. unfold _validate_date_dd_mm_yyyy in Ht.
    unfold _convert_date_to_storage_format.
    now destruct (Date.strptime_d_m_Y t).
  - intros t Ht. unfold _convert_date_to_display_format. rewrite Ht.
    now destruct (Date.strptime_d_m_Y t).
Qed.

Lemma date_conversions_normalize_witness :
  _convert_date_to_storage_format " 5-3-2024" = "2024-03-05" /\
  _convert_date_to_display_format (_convert_date_to_storage_format " 5-3-2024")
    = "05-03-2024".
Proof.
  destruct (date_conversions_normalize 2024 3 5 " 5-3-2024" eq_refl ltac:(lia))
    as (H1 & H2 & _).
  split; [exact H1 | exact H2].
Defined.

(** * Properties of the submissions *)

Lemma lift_run {A} (c : M A) (s : store) :
  lift c s = ((c (base s)).1, set_base (c (base s)).2 s).
Proof. unfold lift. now destruct (c (base s)). Qed.

Lemma bind_lift {A B} (c : M A) (k : A -> S B) (s : store) (m : manager) (a : A)
    (m' : manager) :
  base s = m -> c m = (Ok a, m') -> bind_S (lift c) k s = k a (set_base m' s).
Proof. intros <- E. unfold bind_S, lift. now rewrite E. Qed.

Ltac run_lifted H :=
  erewrite bind_lift;
  [ | cbn [base set_base set_drawn set_submissions]; reflexivity | H ];
  cbn [base set_base set_drawn set_submissions submissions_rows entropy drawn].

Lemma Strains_append_row_reliable (r : Strains.row) (m : manager) :
  reliable m ->
  Strains_append_row r m = (Ok tt, set_strains (strains_rows m ++ [r]) (served m)).
Proof.
  intros H. unfold Strains_append_row, bind. rewrite (api_call_reliable _ H).
  now autorewrite with served.
Qed.

Lemma safe_operation_S_run (operation : S pyval) (s : store) :
  safe_operation_S operation s =
  match operation (set_base (admitted (base s)) s) with
  | (Raise e, s') => if is_Exception e then (Ok PNone, s') else (Raise e, s')
  | r => r
  end.
Proof.
  unfold safe_operation_S, try_except_S, bind_S. rewrite lift_run.
  rewrite wait_if_needed_admitted. cbn [fst snd].
  destruct (operation _) as [[v|e] s']; reflexivity.
Qed.

Lemma hex_digit_upper (b : ascii) :
  is_upper_hex (Py.upper_char (hex_digit (N_of_ascii b / 16))) = true /\
  is_upper_hex (Py.upper_char (hex_digit (N_of_ascii b mod 16))) = true.
Proof. destruct b as [[] [] [] [] [] [] [] []]; split; reflexivity. Qed.

Lemma upper_hex (bytes : list ascii) :
  String.length (Py.upper (hex bytes)) = (2 * length bytes)%nat /\
  all_chars is_upper_hex (Py.upper (hex bytes)) = true.
Proof.
  induction bytes as [|b bytes [IH1 IH2]]; [now split|].
  unfold Py.upper in *. cbn [hex Py.map_chars String.length all_chars length].
  destruct (hex_digit_upper b) as [H1 H2]. rewrite H1, H2, IH1, IH2.
  split; [lia | reflexivity].
Qed.

Lemma lower_lower (s : string) : Py.lower (Py.lower s) = Py.lower s.
Proof.
  induction s as [|c s IH]; [reflexivity|].
  unfold Py.lower in *. cbn [Py.map_chars]. now rewrite lower_lower_char, IH.
Qed.

Section SubmissionFacts.

Variable strftime : string -> Q -> string.

Lemma add_strain_submission_rejected
    strain_name harvest_date package_date category producer user_id username s :
  acceptable harvest_date package_date category = false ->
  add_strain_submission strftime strain_name harvest_date package_date category
    producer user_id username s
  = (Ok PNone, set_base (admitted (base s)) s).
Proof.
  intros H. unfold add_strain_submission. rewrite safe_operation_S_run.
  unfold add_strain_submission_operation, try_except_S, acceptable in *.
  destruct (_validate_date_dd_mm_yyyy harvest_date); [|reflexivity].
  destruct (_validate_date_dd_mm_yyyy package_date); [|reflexivity].
  cbn [andb negb orb] in *. now rewrite H.
Qed.

Lemma add_strain_submission_reliable
    strain_name harvest_date package_date category producer user_id username s :
  reliable (base s) ->
  acceptable harvest_date package_date category = true ->
  let m1 := served (admitted (base s)) in
  let row := submitted_row strftime s strain_name harvest_date package_date category
               producer (clock m1) in
  let m2 := served (set_strains (strains_rows (base s) ++ [row]) (served m1)) in
  let m4 := served m2 in
  add_strain_submission strftime strain_name harvest_date package_date category
    producer user_id username s
  = (Ok (PStr (next_unique_id s)),
     Store (served m4)
       (submissions_rows s
        ++ [Submissions.Row (1 + Z.of_nat (length (submissions_rows s)))
              (next_unique_id s) strain_name (_format_user_id_for_sheets user_id)
              harvest_date package_date (strftime "%Y-%m-%d %H:%M:%S" (clock m4))
              (Py.lower category) (_sanitize_producer producer)
              (_sanitize_username username)])
       (entropy s) (drawn s + 4)).
Proof.
  intros Hrel Hacc m1 row m2 m4.
  unfold acceptable in Hacc. apply andb_true_iff in Hacc as [Hacc Hcat].
  apply andb_true_iff in Hacc as [Hh Hp].
  unfold add_strain_submission. rewrite safe_operation_S_run.
  unfold add_strain_submission_operation, try_except_S.
  rewrite Hh, Hp, Hcat. cbn [negb orb].
  unfold bind_S at 1. unfold _generate_unique_id, bind_S at 1, token_hex, ret_S.
  cbn [base entropy drawn set_base set_drawn submissions_rows].
  fold (next_unique_id s).
  assert (R0 : reliable (admitted (base s))) by auto with served.
  assert (R1 : reliable m1) by (subst m1; auto with served).
  run_lifted ltac:(apply (worksheet_reliable "Strains" _ R0)).
  fold m1.
  run_lifted ltac:(unfold datetime_now, time_time; reflexivity).
  fold row.
  run_lifted ltac:(apply (Strains_append_row_reliable row _ R1)).
  assert (Hrows : strains_rows m1 = strains_rows (base s)).
  { subst m1. now autorewrite with served. }
  rewrite Hrows.
  assert (R2 : reliable (set_strains (strains_rows (base s) ++ [row]) (served m1))).
  { unfold reliable. cbn. change (reliable (served m1)). auto with served. }
  run_lifted ltac:(apply (worksheet_reliable "Submissions" _ R2)).
  fold m2.
  assert (R3 : reliable m2) by (subst m2; auto with served).
  unfold Submissions_count at 1.
  unfold bind_S at 1.
  run_lifted ltac:(apply (api_call_reliable _ R3)).
  fold m4.
  assert (R4 : reliable m4) by (subst m4; auto with served).
  run_lifted ltac:(unfold datetime_now, time_time; reflexivity).
  unfold Submissions_append_row at 1. unfold bind_S at 1.
  run_lifted ltac:(apply (api_call_reliable _ R4)).
  reflexivity.
Qed.

End SubmissionFacts.

Lemma acceptable_false harvest_date package_date category :
  _validate_date_dd_mm_yyyy harvest_date = false \/
  _validate_date_dd_mm_yyyy package_date = false \/
  ~ In (Py.lower category) valid_categories ->
  acceptable harvest_date package_date category = false.
Proof.
  unfold acceptable. intros [H|[H|H]].
  - now rewrite H.
  - rewrite H. apply andb_false_iff. left. apply andb_false_r.
  - apply andb_false_iff. right.
    destruct (existsb _ valid_categories) eqn:E; [|reflexivity].
    exfalso. apply H. apply existsb_exists in E as (c & Hc & Heq).
    apply String.eqb_eq in Heq. now rewrite Heq.
Qed.

(** X21. [add_strain_submission] checks before it writes. With a harvest
    or package date that [_validate_date_dd_mm_yyyy] refuses, or a
    category other than flower, hash and rosin (up to letter case), it
    answers [None] without asking the remote anything and without drawing
    an identifier: the three sheets and the cache are as they were. *)
Theorem rejected_submission_writes_nothing (strftime : string -> Q -> string)
    (strain_name harvest_date package_date category producer : string)
    (user_id : Z) (username : string) (s : store) :
  _validate_date_dd_mm_yyyy harvest_date = false \/
  _validate_date_dd_mm_yyyy package_date = false \/
  ~ In (Py.lower category) valid_categories ->
  let outcome := add_strain_submission strftime strain_name harvest_date package_date
                   category producer user_id username s in
  outcome.1 = Ok PNone /\
  strains_rows (base outcome.2) = strains_rows (base s) /\
  ratings_rows (base outcome.2) = ratings_rows (base s) /\
  submissions_rows outcome.2 = submissions_rows s /\
  cache (base outcome.2) = cache (base s) /\
  remote (base outcome.2) = remote (base s) /\
  drawn outcome.2 = drawn s.
Proof.
  intros H outcome. subst outcome.
  rewrite (add_strain_submission_rejected strftime) by now apply acceptable_false.
  cbn [fst snd base set_base submissions_rows drawn].
  rewrite admitted_strains, admitted_ratings, admitted_cache, admitted_remote.
  repeat split.
Qed.

Lemma rejected_submission_writes_nothing_witness :
  (add_strain_submission Desk.today "Amnesia" "31-02-2024" "01-03-2024" "flower"
     "Fyta" 7 "al" Desk.empty).1 = Ok PNone /\
  (add_strain_submission Desk.today "Amnesia" "01-03-2024" "02-03-2024" "edible"
     "Fyta" 7 "al" Desk.empty).1 = Ok PNone.
Proof.
  split.
  - apply (rejected_submission_writes_nothing Desk.today "Amnesia" "31-02-2024"
             "01-03-2024" "flower" "Fyta" 7 "al" Desk.empty).
    left. reflexivity.
  - apply (rejected_submission_writes_nothing Desk.today "Amnesia" "01-03-2024"
             "02-03-2024" "edible" "Fyta" 7 "al" Desk.empty).
    right. right. cbn. intuition discriminate.
Defined.

Lemma submitted_row_is_found strftime s strain_name harvest_date package_date category
    producer now (p : option string) rows :
  p = None \/ p = Some "" \/ p = Some (_sanitize_producer producer) ->
  exists dup,
    duplicate_scan strain_name harvest_date package_date category p
      (rows ++ [submitted_row strftime s strain_name harvest_date package_date
                  category producer now])
    = Some dup.
Proof.
  intros Hp.
  destruct (duplicate_scan strain_name harvest_date package_date category p _)
    as [dup|] eqn:E; [now exists dup|].
  exfalso. apply duplicate_scan_none in E. apply Forall_app in E as [_ E].
  inversion E as [|? ? Hrow _]; subst. unfold duplicate_of, submitted_row in Hrow.
  cbn [Strains.Strain_Name Strains.Harvest_Date Strains.Package_Date
       Strains.Category Strains.Producer] in Hrow.
  rewrite !String.eqb_refl, lower_lower, String.eqb_refl in Hrow.
  cbn [andb] in Hrow.
  destruct Hp as [->|[->| ->]]; cbn in Hrow; try discriminate.
  destruct (Py.truthy_str (_sanitize_producer producer)); cbn in Hrow;
    [|discriminate].
  rewrite String.eqb_refl in Hrow. discriminate.
Qed.

(** X22. A submission that passes the checks, the remote serving every
    request: [add_strain_submission] answers with the identifier it drew,
    eight characters out of 0-9 and A-F; the Strains sheet gets one more
    row, the last one, with that identifier, the name as given, status
    Pending, average 0, no rating, the two dates as given, the category in
    lower case and the producer sanitized; the Submissions sheet gets one
    more row, numbered with the count of its rows, header included,
    before the call. Ratings and the cache are left alone. The item is
    then one more in the pending count, and [check_strain_duplicate] on
    the same name, dates and category reports a duplicate, whether asked
    without a producer or with the producer as it was stored. *)
Theorem submission_adds_a_pending_item (strftime : string -> Q -> string)
    (strain_name harvest_date package_date category producer : string)
    (user_id : Z) (username : string) (s : store) :
  reliable (base s) ->
  acceptable harvest_date package_date category = true ->
  exists unique_id date_added stamp s',
    add_strain_submission strftime strain_name harvest_date package_date category
      producer user_id username s = (Ok (PStr unique_id), s') /\
    unique_id = next_unique_id s /\
    String.length unique_id = 8%nat /\
    all_chars is_upper_hex unique_id = true /\
    strains_rows (base s')
      = (strains_rows (base s)
         ++ [Strains.Row unique_id strain_name "Pending" 0 0 date_added harvest_date
               package_date (Py.lower category) (_sanitize_producer producer)])%list /\
    submissions_rows s'
      = (submissions_rows s
         ++ [Submissions.Row (1 + Z.of_nat (length (submissions_rows s))) unique_id
               strain_name (_format_user_id_for_sheets user_id) harvest_date
               package_date stamp (Py.lower category) (_sanitize_producer producer)
               (_sanitize_username username)])%list /\
    ratings_rows (base s') = ratings_rows (base s) /\
    cache (base s') = cache (base s) /\
    drawn s' = (drawn s + 4)%nat /\
    (get_pending_strains_count (base s')).1
      = Ok (PInt (Z.of_nat (length (pending (strains_rows (base s)))) + 1)) /\
    (forall p, p = None \/ p = Some "" \/ p = Some (_sanitize_producer producer) ->
       exists dup,
         (check_strain_duplicate strain_name harvest_date package_date category p
            (base s')).1 = Ok (PStr dup)).
Proof.
  intros Hrel Hacc.
  pose proof (add_strain_submission_reliable strftime strain_name harvest_date
                package_date category producer user_id username s Hrel Hacc) as E.
  cbv zeta in E.
  set (m1 := served (admitted (base s))) in *.
  set (row := submitted_row strftime s strain_name harvest_date package_date category
                producer (clock m1)) in *.
  set (m2 := served (set_strains (strains_rows (base s) ++ [row]) (served m1))) in *.
  set (m4 := served m2) in *.
  eexists (next_unique_id s), (strftime "%Y-%m-%d" (clock m1)),
    (strftime "%Y-%m-%d %H:%M:%S" (clock m4)), _.
  split; [exact E|]. cbn [base submissions_rows drawn].
  assert (Hrows : strains_rows (served m4) = (strains_rows (base s) ++ [row])%list).
  { subst m4 m2. now autorewrite with served. }
  assert (Hrel' : reliable (served m4)).
  { subst m4 m2. apply served_reliable, served_reliable, served_reliable.
    unfold reliable. cbn. change (reliable (served m1)).
    subst m1. auto with served. }
  destruct (upper_hex (List.map (fun i => entropy s (drawn s + i)%nat) (seq 0 4)))
    as [Hlen Hhex].
  split; [reflexivity|]. split; [exact Hlen|]. split; [exact Hhex|].
  split; [exact Hrows|]. split; [reflexivity|]. split.
  { subst m4 m2 m1. autorewrite with served. cbn. now autorewrite with served. }
  split.
  { subst m4 m2 m1. autorewrite with served. cbn. now autorewrite with served. }
  split; [reflexivity|]. split.
  - rewrite get_pending_strains_count_reliable by exact Hrel'.
    rewrite Hrows, pending_app, length_app. cbn. do 2 f_equal. lia.
  - intros p Hp. rewrite check_strain_duplicate_reliable by exact Hrel'.
    rewrite Hrows.
    destruct (submitted_row_is_found strftime s strain_name harvest_date package_date
                category producer (clock m1) p (strains_rows (base s)) Hp)
      as (dup & Hdup).
    fold row in Hdup. rewrite Hdup. now exists dup.
Qed.

Lemma submission_adds_a_pending_item_witness :
  reliable (base Desk.empty) /\
  (add_strain_submission Desk.today "Amnesia" "01-03-2024" "2-3-2024" "Flower"
     " Fyta " 7 "al" Desk.empty).1 = Ok (PStr "ABBCCDDE") /\
  List.map Strains.Unique_ID
    (strains_rows
       (base (add_strain_submission Desk.today "Amnesia" "01-03-2024" "2-3-2024"
                "Flower" " Fyta " 7 "al" Desk.empty).2))
    = ["00FF00FF"; "A1B2C3D4"; "DEADBEEF"; "ABBCCDDE"].
Proof.
  assert (H : reliable (base Desk.empty)) by (repeat constructor).
  split; [exact H|].
  destruct (submission_adds_a_pending_item Desk.today "Amnesia" "01-03-2024" "2-3-2024"
              "Flower" " Fyta " 7 "al" Desk.empty H eq_refl)
    as (uid & date & stamp & s' & E & -> & _ & _ & Hrows & _).
  rewrite E. cbn [fst snd]. split; [reflexivity|]. rewrite Hrows. reflexivity.
Defined.

Lemma bind_lift_raise {A B} (c : M A) (k : A -> S B) (s : store) (m : manager)
    (e : exn) (m' : manager) :
  base s = m -> c m = (Raise e, m') ->
  bind_S (lift c) k s = (Raise e, set_base m' s).
Proof. intros <- E. unfold bind_S, lift. now rewrite E. Qed.

Lemma Strains_append_row_head_ok (r : Strains.row) (m : manager) ev rest :
  remote m = ev :: rest -> fault ev = None ->
  Strains_append_row r m = (Ok tt, set_strains (strains_rows m ++ [r]) (served m)).
Proof.
  intros E F. unfold Strains_append_row, bind.
  rewrite (api_call_head_ok _ _ _ E F). now autorewrite with served.
Qed.

(** X23. [add_strain_submission] is not atomic. When the remote serves
    the two requests that put the row on the Strains sheet and fails on
    the next one (opening the Submissions sheet), the call answers [None],
    as for a refused submission, but the item is on the Strains sheet,
    Pending, and no row is on the Submissions sheet for it; an identifier
    was drawn and is never reported. With the sheet reachable again
    [check_strain_duplicate] reports the same submission as a duplicate. *)
Theorem interrupted_submission_leaves_the_item (strftime : string -> Q -> string)
    (strain_name harvest_date package_date category producer : string)
    (user_id : Z) (username : string) (s : store)
    (e1 e2 ev : api_event) (rest : list api_event) (e : exn) :
  remote (base s) = e1 :: e2 :: ev :: rest ->
  fault e1 = None -> fault e2 = None -> fault ev = Some e -> is_Exception e = true ->
  acceptable harvest_date package_date category = true ->
  exists date_added s',
    add_strain_submission strftime strain_name harvest_date package_date category
      producer user_id username s = (Ok PNone, s') /\
    strains_rows (base s')
      = (strains_rows (base s)
         ++ [Strains.Row (next_unique_id s) strain_name "Pending" 0 0 date_added
               harvest_date package_date (Py.lower category)
               (_sanitize_producer producer)])%list /\
    submissions_rows s' = submissions_rows s /\
    drawn s' = (drawn s + 4)%nat /\
    remote (base s') = rest /\
    (reliable (base s') ->
     exists dup,
       (check_strain_duplicate strain_name harvest_date package_date category None
          (base s')).1 = Ok (PStr dup)).
Proof.
  intros Hrem F1 F2 Fv He Hacc.
  unfold acceptable in Hacc. apply andb_true_iff in Hacc as [Hacc Hcat].
  apply andb_true_iff in Hacc as [Hh Hp].
  assert (R0 : remote (admitted (base s)) = e1 :: e2 :: ev :: rest)
    by (now rewrite admitted_remote).
  set (m1 := served (admitted (base s))).
  assert (R1 : remote m1 = e2 :: ev :: rest) by (apply (served_remote _ e1), R0).
  set (row := submitted_row strftime s strain_name harvest_date package_date category
                producer (clock m1)).
  set (m2 := set_strains (strains_rows m1 ++ [row]) (served m1)).
  assert (R2 : remote m2 = ev :: rest).
  { subst m2. cbn. apply (served_remote _ e2), R1. }
  assert (Hcall : add_strain_submission strftime strain_name harvest_date package_date
                    category producer user_id username s
                  = (Ok PNone,
                     Store (served m2) (submissions_rows s) (entropy s) (drawn s + 4))).
  { unfold add_strain_submission. rewrite safe_operation_S_run.
    unfold add_strain_submission_operation, try_except_S.
    rewrite Hh, Hp, Hcat. cbn [negb orb].
    unfold bind_S at 1. unfold _generate_unique_id, bind_S at 1, token_hex, ret_S.
    cbn [base entropy drawn set_base set_drawn submissions_rows].
    fold (next_unique_id s).
    run_lifted ltac:(apply (worksheet_head_ok "Strains" _ _ _ R0 F1)).
    fold m1.
    run_lifted ltac:(unfold datetime_now, time_time; reflexivity).
    fold row.
    run_lifted ltac:(apply (Strains_append_row_head_ok row _ _ _ R1 F2)).
    fold m2.
    erewrite bind_lift_raise;
      [ | cbn [base set_base]; reflexivity
        | apply (worksheet_head_fault "Submissions" _ _ _ _ R2 Fv) ].
    rewrite He. reflexivity. }
  exists (strftime "%Y-%m-%d" (clock m1)),
    (Store (served m2) (submissions_rows s) (entropy s) (drawn s + 4)).
  split; [exact Hcall|]. cbn [base submissions_rows drawn].
  assert (Hrows : strains_rows (served m2) = (strains_rows (base s) ++ [row])%list).
  { subst m2 m1. now autorewrite with served. }
  split; [exact Hrows|]. split; [reflexivity|]. split; [reflexivity|].
  split; [apply (served_remote _ ev), R2|].
  intros Hrel. rewrite check_strain_duplicate_reliable by exact Hrel.
  rewrite Hrows.
  destruct (submitted_row_is_found strftime s strain_name harvest_date package_date
              category producer (clock m1) None (strains_rows (base s)))
    as (dup & Hdup); [now left|].
  fold row in Hdup. rewrite Hdup. now exists dup.
Qed.

Lemma interrupted_submission_leaves_the_item_witness :
  exists s',
    add_strain_submission Desk.today "Amnesia" "01-03-2024" "02-03-2024" "rosin"
      "Fyta" 7 "al"
      (set_base (set_remote [ApiEvent (1 # 4) None; ApiEvent (1 # 2) None;
                             ApiEvent 30 (Some APIError)] Sample.sheet) Desk.empty)
      = (Ok PNone, s') /\
    List.map Strains.Strain_Name (pending (strains_rows (base s')))
      = ["Blueberry"; "Amnesia"] /\
    submissions_rows s' = [].
Proof.
  destruct (interrupted_submission_leaves_the_item Desk.today "Amnesia" "01-03-2024"
              "02-03-2024" "rosin" "Fyta" 7 "al"
              (set_base (set_remote [ApiEvent (1 # 4) None; ApiEvent (1 # 2) None;
                                     ApiEvent 30 (Some APIError)] Sample.sheet)
                 Desk.empty)
              (ApiEvent (1 # 4) None) (ApiEvent (1 # 2) None)
              (ApiEvent 30 (Some APIError)) [] APIError
              eq_refl eq_refl eq_refl eq_refl eq_refl eq_refl)
    as (date & s' & E & Hrows & Hsub & _).
  exists s'. split; [exact E|]. rewrite Hrows, Hsub. split; reflexivity.
Defined.

(** X24. Nothing checks that a drawn identifier is new. If the random
    bytes spell the identifier of a row already on the sheet, the
    submission succeeds all the same and answers with that identifier;
    the Strains sheet then holds two rows with it, and looking the
    identifier up returns a row that was there before, never the item
    just submitted. *)
Theorem unique_ids_are_not_checked (strftime : string -> Q -> string)
    (beyond : string -> option (string -> bool))
    (strain_name harvest_date package_date category producer : string)
    (user_id : Z) (username : string) (s : store) (r : Strains.row) :
  reliable (base s) ->
  acceptable harvest_date package_date category = true ->
  In r (strains_rows (base s)) ->
  Strains.Unique_ID r = next_unique_id s ->
  exists s',
    add_strain_submission strftime strain_name harvest_date package_date category
      producer user_id username s = (Ok (PStr (Strains.Unique_ID r)), s') /\
    ~ NoDup (List.map Strains.Unique_ID (strains_rows (base s'))) /\
    exists old,
      (get_strain_by_identifier_operation beyond (Strains.Unique_ID r) None
         (base s')).1 = Ok (PDict old) /\
      In old (strains_rows (base s)).
Proof.
  intros Hrel Hacc Hin Hid.
  destruct (submission_adds_a_pending_item strftime strain_name harvest_date
              package_date category producer user_id username s Hrel Hacc)
    as (uid & date & stamp & s' & E & -> & _ & _ & Hrows & _ & _ & _ & _ & Hcount & _).
  assert (Hrel' : reliable (base s')).
  { pose proof (add_strain_submission_reliable strftime strain_name harvest_date
                  package_date category producer user_id username s Hrel Hacc) as E'.
    cbv zeta in E'. rewrite E in E'. injection E' as ->. cbn [base].
    apply served_reliable, served_reliable, served_reliable.
    unfold reliable. cbn.
    change (reliable (served (served (admitted (base s))))). auto with served. }
  exists s'. rewrite Hid. split; [exact E|]. split.
  - rewrite Hrows, map_app. cbn [List.map Strains.Unique_ID]. intros Hnd.
    apply NoDup_app in Hnd as (_ & Hdis & _).
    apply (Hdis (next_unique_id s)).
    + apply list_elem_of_In, in_map_iff. exists r. split; [exact Hid | exact Hin].
    + apply list_elem_of_In. now left.
  - rewrite get_strain_by_identifier_operation_reliable by exact Hrel'.
    cbv zeta. unfold filter_category. cbn [Py.truthy_opt]. rewrite Hrows.
    destruct (List.find (id_matches (next_unique_id s)) (strains_rows (base s)))
      as [old|] eqn:F.
    + assert (F' : List.find (id_matches (next_unique_id s))
                     (strains_rows (base s) ++ [Strains.Row (next_unique_id s)
                        strain_name "Pending" 0 0 date harvest_date package_date
                        (Py.lower category) (_sanitize_producer producer)])%list
                   = Some old).
      { apply find_first_such. apply find_first_such in F as (l1 & l2 & Hl & Hp & Hl1).
        exists l1, (l2 ++ [Strains.Row (next_unique_id s) strain_name "Pending" 0 0
                             date harvest_date package_date (Py.lower category)
                             (_sanitize_producer producer)])%list.
        split; [|now split]. rewrite Hl. now rewrite <- app_assoc. }
      rewrite F'. exists old. split; [reflexivity|].
      now apply List.find_some in F.
    + exfalso. apply find_none_Forall in F. rewrite Forall_forall in F.
      specialize (F r ltac:(now apply list_elem_of_In)).
      unfold id_matches in F. rewrite Hid, String.eqb_refl in F. discriminate.
Qed.

Lemma unique_ids_are_not_checked_witness :
  exists s',
    add_strain_submission Desk.today "Amnesia" "01-03-2024" "02-03-2024" "hash"
      "Fyta" 7 "al"
      (Store Sample.sheet [] (fun i => ascii_of_N (161 + 17 * N.of_nat i)) 0)
      = (Ok (PStr "A1B2C3D4"), s') /\
    ~ NoDup (List.map Strains.Unique_ID (strains_rows (base s'))).
Proof.
  destruct (unique_ids_are_not_checked Desk.today Sample.no_regex "Amnesia"
              "01-03-2024" "02-03-2024" "hash" "Fyta" 7 "al"
              (Store Sample.sheet [] (fun i => ascii_of_N (161 + 17 * N.of_nat i)) 0)
              Sample.blue_dream)
    as (s' & E & Hdup & _).
  - repeat constructor.
  - reflexivity.
  - right. left. reflexivity.
  - reflexivity.
  - exists s'. split; [exact E | exact Hdup].
Defined.

(** * The probe of the health check *)

(** X25. The sheets probe of the health check never asks the sheet
    anything. [_test_sheets_connection] runs [safe_operation] on an
    operation that returns [True] without a request, so it answers
    [True] on every manager, also when the remote would fail every
    request made to it, and the requests the remote has in store are
    untouched; the only trace of the probe is its entry in the request
    limiter. *)
Theorem sheets_probe_never_asks_the_sheet (m : manager) :
  _test_sheets_connection m = (Ok true, admitted m) /\
  remote (admitted m) = remote m /\
  strains_rows (admitted m) = strains_rows m /\
  ratings_rows (admitted m) = ratings_rows m /\
  cache (admitted m) = cache m /\
  (forall ev rest e,
     remote m = ev :: rest -> fault ev = Some e -> is_Exception e = true ->
     (get_pending_strains (admitted m)).1 = Ok (PList []) /\
     (_test_sheets_connection m).1 = Ok true).
Proof.
  assert (E : _test_sheets_connection m = (Ok true, admitted m)).
  { unfold _test_sheets_connection, try_except_any, bind.
    rewrite safe_operation_run. reflexivity. }
  split; [exact E|].
  split; [apply admitted_remote|]. split; [apply admitted_strains|].
  split; [apply admitted_ratings|]. split; [apply admitted_cache|].
  intros ev rest e Hrem Hf He. rewrite E. split; [|reflexivity].
  assert (Hrem' : remote (admitted m) = ev :: rest) by (now rewrite admitted_remote).
  unfold get_pending_strains, bind. rewrite safe_operation_run.
  unfold get_pending_strains_operation, bind.
  assert (Hrem2 : remote (admitted (admitted m)) = ev :: rest)
    by (now rewrite admitted_remote).
  now rewrite (worksheet_head_fault "Strains" _ _ _ _ Hrem2 Hf), He.
Qed.
